(** * Streaming vital-signs pipeline of [BGT60TR13C_Vital_Signal.py]

    A shallow embedding of the slow-time processing loop
    ([RadarDataProcessor]), the display/telemetry tick ([update_plots]) and
    the two band-edge handlers, followed by the properties of the pipeline
    description that can be settled on it.

    Conventions of the embedding:
    - a [float64] is an exact canonical rational ([Qc]); a [complex128] is a
      pair of them.  No rounding, no NaN.
    - a NumPy array is a [list]; [np.roll(a, -k)] is stdpp's [rotate k a].
    - Python's negative indices and clamped slices are written out
      ([py_getitem], [py_slice], ...).
    - an exception is [None] in the [option] monad.
    - the routines of NumPy/SciPy/statsmodels whose results are not rational
      (FFT, window, magnitude, angle, filter design, smoothing) are the
      fields of the class [DspLibrary]. *)

From Stdlib Require Import QArith Qcanon Qround Lia Lqa ZArith String.
From stdpp Require Import base tactics numbers option list relations.

(** ** Numbers *)

Definition qc (n : Z) (d : positive) : Qc := Q2Qc (n # d).
Definition Qc_of_nat (n : nat) : Qc := Qc_of_Z (Z.of_nat n).
Definition Qcfloor (x : Qc) : Z := Qfloor (this x).
Definition Qcabs (x : Qc) : Qc := if bool_decide (x < 0)%Qc then (- x)%Qc else x.
Definition Qcmax (x y : Qc) : Qc := if bool_decide (x < y)%Qc then y else x.
Definition Qcmin (x y : Qc) : Qc := if bool_decide (y < x)%Qc then y else x.

(** [int(x)]: truncation toward zero. *)
Definition py_int (x : Qc) : Z := Z.quot (Qnum (this x)) (Z.pos (Qden (this x))).

(** [round(x)]: to the nearest integer, ties to the even one. *)
Definition py_round (x : Qc) : Z :=
  let f := Qcfloor x in
  let r := (x - Qc_of_Z f)%Qc in
  if bool_decide (r < qc 1 2)%Qc then f
  else if bool_decide (qc 1 2 < r)%Qc then (f + 1)%Z
  else if Z.even f then f else (f + 1)%Z.

(** [np.pi] is the double nearest to pi, itself a rational. *)
Definition np_pi : Qc := qc 884279719003555 281474976710656.

Record complex := Cx { Re : Qc; Im : Qc }.

Definition C0 : complex := Cx 0 0.
Definition Creal (x : Qc) : complex := Cx x 0.
Definition Cadd (a b : complex) : complex := Cx (Re a + Re b) (Im a + Im b).
Definition Csub (a b : complex) : complex := Cx (Re a - Re b) (Im a - Im b).
Definition Cscale (k : Qc) (z : complex) : complex := Cx (k * Re z) (k * Im z).
Definition Cdiv_real (z : complex) (k : Qc) : complex := Cx (Re z / k) (Im z / k).

(** ** Python indexing *)

Section python_sequences.
Context {A : Type}.
Implicit Types (l : list A) (i : Z).

(** Position of index [i] in a sequence of length [n]; negative indices
    count from the end. *)
Definition py_position (n : nat) i : option nat :=
  let j := if bool_decide (i < 0)%Z then (i + Z.of_nat n)%Z else i in
  if bool_decide (0 ≤ j < Z.of_nat n)%Z then Some (Z.to_nat j) else None.

(** [l[i]], an [IndexError] out of range. *)
Definition py_getitem l i : option A :=
  j ← py_position (length l) i; l !! j.

(** [l[i] = v]. *)
Definition py_setitem l i (v : A) : option (list A) :=
  j ← py_position (length l) i; Some (<[j:=v]> l).

(** A slice bound is clamped into [0, n]. *)
Definition py_slice_bound (n : nat) i : nat :=
  Z.to_nat (if bool_decide (i < 0)%Z then Z.max 0 (i + Z.of_nat n)
            else Z.min i (Z.of_nat n)).

(** [l[start:stop]], [l[start:]] and [l[:stop]]. *)
Definition py_slice l (start stop : Z) : list A :=
  let a := py_slice_bound (length l) start in
  let b := py_slice_bound (length l) stop in
  take (b - a) (drop a l).
Definition py_slice_from l (start : Z) : list A :=
  drop (py_slice_bound (length l) start) l.
Definition py_slice_to l (stop : Z) : list A :=
  take (py_slice_bound (length l) stop) l.

(** [l[start:] = vals]: a right-hand side of one element is broadcast,
    any other shape mismatch is a [ValueError]. *)
Definition py_assign_from l (start : Z) (vals : list A) : option (list A) :=
  let a := py_slice_bound (length l) start in
  if bool_decide (length vals = length l - a) then Some (take a l ++ vals)
  else match vals with
       | [v] => Some (take a l ++ replicate (length l - a) v)
       | _ => None
       end.

(** [l[:stop] = vals], with the same broadcast. *)
Definition py_assign_to l (stop : Z) (vals : list A) : option (list A) :=
  let b := py_slice_bound (length l) stop in
  if bool_decide (length vals = b) then Some (vals ++ drop b l)
  else match vals with
       | [v] => Some (replicate b v ++ drop b l)
       | _ => None
       end.

(** [l[idx]] for an index array [idx]. *)
Definition py_take_indices l (idx : list nat) : option (list A) :=
  mapM (λ j, l !! j) idx.

(** [np.roll(l, -k)]. *)
Definition np_roll_back (k : nat) l : list A := rotate k l.
End python_sequences.

(** ** NumPy on rational arrays *)

(** An elementwise operation on two one-dimensional arrays: the lengths
    agree or the operand of length 1 is broadcast; any other pair of
    shapes is a [ValueError]. *)
Definition np_elementwise {A B C} (f : A → B → C) (x : list A) (y : list B)
    : option (list C) :=
  if bool_decide (length x = length y) then Some (zip_with f x y)
  else match x, y with
       | [a], _ => Some (map (f a) y)
       | _, [b] => Some (map (λ a, f a b) x)
       | _, _ => None
       end.

Definition np_zeros (n : nat) : list Qc := replicate n 0%Qc.
Definition np_czeros (n : nat) : list complex := replicate n C0.
Definition np_sum (l : list Qc) : Qc := foldr Qcplus 0%Qc l.
Definition np_csum (l : list complex) : complex := foldr Cadd C0 l.
Definition np_mean (l : list Qc) : Qc := (np_sum l / Qc_of_nat (length l))%Qc.
Definition np_cmean (l : list complex) : complex :=
  Cdiv_real (np_csum l) (Qc_of_nat (length l)).
Definition np_var (l : list Qc) : Qc :=
  let m := np_mean l in np_mean (map (λ x, (x - m) * (x - m))%Qc l).
Definition np_max (l : list Qc) : Qc :=
  match l with [] => 0%Qc | x :: l' => foldl Qcmax x l' end.

(** [np.argmax]: the first position of the largest entry; an error on an
    empty array. *)
Fixpoint argmax_from (best_i : nat) (best : Qc) (i : nat) (l : list Qc) : nat :=
  match l with
  | [] => best_i
  | x :: l' =>
      if bool_decide (best < x)%Qc then argmax_from i x (S i) l'
      else argmax_from best_i best (S i) l'
  end.
Definition np_argmax (l : list Qc) : option nat :=
  match l with [] => None | x :: l' => Some (argmax_from 0 x 1 l') end.

(** [np.linspace(start, stop, num)]. *)
Definition np_linspace (start stop : Qc) (num : nat) : list Qc :=
  let step := ((stop - start) / Qc_of_nat (num - 1))%Qc in
  map (λ i, (start + Qc_of_nat i * step)%Qc) (seq 0 num).

(** [np.diff] and [np.cumsum]. *)
Definition np_diff (p : list Qc) : list Qc :=
  zip_with (λ a b, (b - a)%Qc) p (drop 1 p).
Fixpoint cumsum_from (acc : Qc) (l : list Qc) : list Qc :=
  match l with
  | [] => []
  | x :: l' => (acc + x)%Qc :: cumsum_from (acc + x)%Qc l'
  end.
Definition np_cumsum (l : list Qc) : list Qc := cumsum_from 0%Qc l.

(** [np.mod(x, m)] for a positive modulus. *)
Definition np_mod (x m : Qc) : Qc := (x - m * Qc_of_Z (Qcfloor (x / m)))%Qc.

(** [np.unwrap(p, period=period)] (NumPy's [function_base.unwrap], float
    branch, [discont = period/2]). *)
Definition unwrap_ddmod (period dd : Qc) : Qc :=
  let interval_high := (period / 2)%Qc in
  let interval_low := (- interval_high)%Qc in
  let ddmod := (np_mod (dd - interval_low) period + interval_low)%Qc in
  if bool_decide (ddmod = interval_low) && bool_decide (0 < dd)%Qc
  then interval_high else ddmod.
Definition unwrap_ph_correct (period dd : Qc) : Qc :=
  if bool_decide (Qcabs dd < period / 2)%Qc then 0%Qc
  else (unwrap_ddmod period dd - dd)%Qc.
Definition np_unwrap_period (period : Qc) (p : list Qc) : list Qc :=
  let ph_correct := map (unwrap_ph_correct period) (np_diff p) in
  take 1 p ++ zip_with Qcplus (drop 1 p) (np_cumsum ph_correct).
Definition np_unwrap (p : list Qc) : list Qc := np_unwrap_period (2 * np_pi) p.

(** ** External numeric routines

    What the pipeline takes from NumPy, SciPy and statsmodels and that has
    no rational result.  [firwin_taps] is the coefficient computation of
    [scipy.signal.firwin] once its arguments are accepted. *)

Class DspLibrary := {
  np_fft : nat → list complex → list complex;
  blackmanharris : nat → list Qc;
  np_abs : complex → Qc;
  np_angle : complex → Qc;
  lfilter : list Qc → list Qc → list Qc;
  savgol_filter : list Qc → nat → nat → list Qc;
  uniform_filter1d : list Qc → nat → list Qc;
  hpfilter : list Qc → Qc → list Qc * list Qc;
  medfilt : list Qc → nat → list Qc;
  np_percentile : list Qc → Qc → Qc;
  find_peaks : list Qc → nat → option Qc → option Qc → list nat;
  firwin_taps : nat → Qc → Qc → list Qc;
}.

(** The shapes these routines are documented to return. *)
Class DspLibraryLaws `{DspLibrary} := {
  length_np_fft n x : length (np_fft n x) = n;
  length_blackmanharris n : length (blackmanharris n) = n;
  length_lfilter b x : length (lfilter b x) = length x;
  length_savgol_filter x w d : length (savgol_filter x w d) = length x;
  length_uniform_filter1d x s : length (uniform_filter1d x s) = length x;
  length_hpfilter_cycle x lam : length (hpfilter x lam).1 = length x;
  find_peaks_lt x d h p : Forall (λ i, i < length x) (find_peaks x d h p);
}.

(** ** Module-level constants (lines 33-90) *)

Definition ENABLE_ESTIMATION_PLOT : bool := true.
Definition ENABLE_VITALSIGNS_SPECTRUM : bool := true.
Definition ENABLE_BREATHING_VISUALIZATION : bool := true.

Definition num_rx_antennas : nat := 3.
Definition frame_rate : nat := 20.
Definition number_of_chirps : nat := 1.
Definition samples_per_chirp : nat := 64.
Definition vital_signs_sample_rate : nat := 1 * frame_rate.
Definition processing_window_time : nat := 20.
Definition buffer_time : nat := 5 * processing_window_time.
Definition estimation_time : nat := 5.
Definition fft_size_range_profile : nat := samples_per_chirp * 2.
Definition epsilon_value : Qc := qc 1 100000000.
Definition peak_finding_distance : Qc := qc 1 100.
Definition buffer_data_size : nat := buffer_time * vital_signs_sample_rate.
Definition processing_data_size : nat :=
  processing_window_time * vital_signs_sample_rate.
Definition fft_size_vital_signs : nat := processing_data_size * 4.
Definition estimation_rate : nat := vital_signs_sample_rate.
Definition estimation_index_breathing : nat :=
  buffer_data_size - estimation_time * estimation_rate.
Definition estimation_index_heart : nat :=
  buffer_data_size - estimation_time * estimation_rate.
Definition nyquist_freq : Qc := (qc 1 2 * Qc_of_nat vital_signs_sample_rate)%Qc.
Definition filter_order : nat := vital_signs_sample_rate + 1.

(** [x_axis_vital_signs_spectrum] (line 893). *)
Definition x_axis_vital_signs_spectrum : list Qc :=
  np_linspace (- (Qc_of_nat vital_signs_sample_rate / 2))%Qc
              (Qc_of_nat vital_signs_sample_rate / 2)%Qc
              fft_size_vital_signs.

(** ** Program state: the module-level globals *)

(** One radar frame: a [antenna][chirp][sample] array with its shape. *)
Record Frame := {
  frame_chirps : nat;
  frame_samples : nat;
  frame_data : list (list (list complex));
}.

(** The slow-time ring buffers (lines 869-885). *)
Record Buffers := {
  radar_time_stamp : list Qc;
  slow_time_buffer_data : list complex;
  I_Q_envelop : list Qc;
  wrapped_phase_plot : list Qc;
  unwrapped_phase_plot : list Qc;
  filtered_breathing_plot : list Qc;
  filtered_heart_plot : list Qc;
  range_profile_peak_indices : list Qc;
  breathing_rate_estimation_index : list Qc;
  heart_rate_estimation_index : list Qc;
  breathing_rate_estimation_value : list Qc;
  heart_rate_estimation_value : list Qc;
}.

Record Spectra := {
  buffer_raw_I_Q_fft : list Qc;
  phase_unwrap_fft : list Qc;
  breathing_fft : list Qc;
  heart_fft : list Qc;
}.

Record BreathPoints := {
  inhalation_points_x : list Qc;
  inhalation_points_y : list Qc;
  exhalation_points_x : list Qc;
  exhalation_points_y : list Qc;
}.

(** What the operator and the start-up code set. *)
Record Config := {
  max_range : Qc;
  min_range_index : Z;
  object_distance_start_range : Qc;
  object_distance_stop_range : Qc;
  max_index_processing : bool;
  low_breathing : Qc;
  high_breathing : Qc;
  low_heart : Qc;
  high_heart : Qc;
  breathing_b : list Qc;
  heart_b : list Qc;
  index_start_breathing : Z;
  index_end_breathing : Z;
  index_start_heart : Z;
  index_end_heart : Z;
  ENABLE_OSC_OUTPUT : bool;
  osc_client : bool;
}.

(** [counter] is the local of [process_data] that survives from one pass of
    its loop to the next. *)
Record State := {
  bufs : Buffers;
  spectra : Spectra;
  points : BreathPoints;
  cfg : Config;
  range_fft_abs : list Qc;
  range_profile_peak_index : Z;
  start_time : Qc;
  data_queue : list Frame;
  counter : nat;
}.

(** A Python value as far as [calc_range_fft] can return one. *)
Inductive pyvalue :=
  | PyNone
  | PyTuple2 (x y : pyvalue)
  | PyArray (a : list complex).

(** [v is not None]. *)
Definition is_not_None (v : pyvalue) : bool :=
  match v with PyNone => false | _ => true end.

(** An array operand; [np.abs] of anything else is a [TypeError]. *)
Definition as_ndarray (v : pyvalue) : option (list complex) :=
  match v with PyArray a => Some a | _ => None end.

(** ** [RadarDataProcessor] *)

Section processor.
Context `{DspLibrary}.

(** [np.average(mat, 1)] (line 127): the mean of every row of [mat].
    NumPy scales the means by the size of [mat] over the number of means, a
    [ZeroDivisionError] when [mat] has no row. *)
Definition np_average_rows (mat : list (list complex))
    : option (list complex) :=
  guard (0 < length mat);;
  Some (map np_cmean mat).

(** The body of the [for iAnt] loop of [calc_range_fft] up to the sum over
    chirps (lines 126-135), for the antenna matrix [mat] of a frame with
    [num_samples_per_chirp] samples per chirp.  [np.pad] rejects a negative
    pad width. *)
Definition range_fft_of_antenna (num_samples_per_chirp : nat)
    (mat : list (list complex)) : option (list complex) :=
  avgs ← np_average_rows mat;
  let mat := zip_with (λ row avg, map (λ x, Csub x avg) row) mat avgs in
  let mat :=
    map (λ row, zip_with Cscale (blackmanharris num_samples_per_chirp) row) mat in
  guard (num_samples_per_chirp ≤ fft_size_range_profile);;
  let zp1 :=
    map (λ row, row ++ np_czeros (fft_size_range_profile - num_samples_per_chirp))
        mat in
  let range_fft :=
    map (λ row, map (λ z, Cdiv_real z (Qc_of_nat num_samples_per_chirp))
                    (np_fft fft_size_range_profile row)) zp1 in
  let range_fft :=
    map (λ row, map (Cscale 2) (take (fft_size_range_profile / 2) row))
        range_fft in
  Some (foldr (zip_with Cadd) (np_czeros (fft_size_range_profile / 2))
              range_fft).

(** Lines 122-137 on a dequeued frame.  [frame[iAnt]] rejects an antenna
    the frame does not have. *)
Definition range_fft_of_frame (frame : Frame) : option (list complex) :=
  let num_samples_per_chirp := frame_samples frame in
  range_fft_antennas_buffer ←
    foldl (λ acc iAnt,
             range_fft_antennas_buffer ← acc;
             mat ← frame_data frame !! iAnt;
             temp_range_fft ← range_fft_of_antenna num_samples_per_chirp mat;
             Some (zip_with Cadd temp_range_fft range_fft_antennas_buffer))
          (Some (np_czeros (fft_size_range_profile / 2)))
          (seq 0 num_rx_antennas);
  Some (map (λ z, Cdiv_real z (Qc_of_nat num_rx_antennas))
            range_fft_antennas_buffer).

(** [calc_range_fft] (lines 119-138): the returned value and the queue it
    leaves. *)
Definition calc_range_fft (data_queue : list Frame)
    : option (pyvalue * list Frame) :=
  match data_queue with
  | frame :: rest =>
      profile ← range_fft_of_frame frame; Some (PyArray profile, rest)
  | [] => Some (PyTuple2 PyNone PyNone, [])
  end.

(** [find_signal_peaks] (lines 140-151). *)
Definition find_signal_peaks (fft_windowed_signal : list Qc)
    (index_start index_end : Z) (distance : Qc) : option Z :=
  let signal_region := py_slice fft_windowed_signal index_start index_end in
  let peaks :=
    find_peaks signal_region
      (Z.to_nat (py_int (Qcmax 1 (distance * Qc_of_nat fft_size_vital_signs
                                   / Qc_of_nat vital_signs_sample_rate))))
      None None in
  let rate_index := 0%Z in
  let filtered_peaks := peaks in
  if bool_decide (0 < length filtered_peaks) then
    heights ← py_take_indices signal_region filtered_peaks;
    best_peak_index ← np_argmax heights;
    peak ← filtered_peaks !! best_peak_index;
    Some (Z.of_nat peak + index_start)%Z
  else Some rate_index.

(** [vital_signs_fft] (lines 153-158).  [np.multiply] broadcasts its
    operands, the slice assignment its right-hand side, and [1.0 / nFFT] is
    a [ZeroDivisionError] for [nFFT = 0]. *)
Definition vital_signs_fft (data : list complex) (nFFT data_length : nat)
    : option (list Qc) :=
  windowed_signal ←
    np_elementwise (λ x w, Cscale w x) data (blackmanharris data_length);
  let zp2 := np_czeros nFFT in
  zp2 ← py_assign_to zp2 (Z.of_nat data_length) windowed_signal;
  guard (0 < nFFT);;
  Some (map (λ z, 1 / Qc_of_nat nFFT * np_abs z + epsilon_value)%Qc
            (np_fft nFFT zp2)).

(** Lines 259-264 and, with the heart names, 266-271: roll the index
    buffer, repeat the previous newest entry, overwrite it when the peak
    picker returned a bin. *)
Definition rate_index_update (estimation_index fft : list Qc)
    (index_start index_end : Z) : option (list Qc) :=
  let estimation_index := np_roll_back 1 estimation_index in
  previous ← py_getitem estimation_index (-2);
  estimation_index ← py_setitem estimation_index (-1) previous;
  rate_index ← find_signal_peaks fft index_start index_end peak_finding_distance;
  if bool_decide (rate_index ≠ 0%Z)
  then py_setitem estimation_index (-1) (Qc_of_Z rate_index)
  else Some estimation_index.

(** The breath-cycle detector, lines 278-328. *)
Definition detect_breath_cycle (radar_time_stamp filtered_breathing_plot : list Qc)
    (old : BreathPoints) : option BreathPoints :=
  let span := (- Z.of_nat (10 * vital_signs_sample_rate))%Z in
  let recent_time := py_slice_from radar_time_stamp span in
  let recent_breathing := py_slice_from filtered_breathing_plot span in
  if bool_decide (0 < length recent_breathing) then
    let fs := vital_signs_sample_rate in
    let window_length := Z.min 31 (Z.of_nat (length recent_breathing) - 2) in
    let window_length :=
      if bool_decide (window_length `mod` 2 = 0)%Z then (window_length - 1)%Z
      else window_length in
    let smoothed_breathing :=
      if bool_decide (5 < window_length)%Z
      then savgol_filter recent_breathing (Z.to_nat window_length) 3
      else recent_breathing in
    let smoothed_breathing := medfilt smoothed_breathing 5 in
    let signal_amplitude :=
      (np_percentile smoothed_breathing (Qc_of_Z 95)
       - np_percentile smoothed_breathing (Qc_of_Z 5))%Qc in
    let min_height := (signal_amplitude * qc 2 10)%Qc in
    let peaks :=
      find_peaks smoothed_breathing (fs / 2) (Some min_height)
                 (Some (min_height * qc 5 10)%Qc) in
    let valleys :=
      find_peaks (map Qcopp smoothed_breathing) (fs / 2) (Some min_height)
                 (Some (min_height * qc 5 10)%Qc) in
    let in_time := filter (λ idx, idx < length recent_time) peaks in
    let ex_time := filter (λ idx, idx < length recent_time) valleys in
    inhalation_x ← py_take_indices recent_time in_time;
    inhalation_y ← py_take_indices recent_breathing in_time;
    exhalation_x ← py_take_indices recent_time ex_time;
    exhalation_y ← py_take_indices recent_breathing ex_time;
    Some {| inhalation_points_x := inhalation_x;
            inhalation_points_y := inhalation_y;
            exhalation_points_x := exhalation_x;
            exhalation_points_y := exhalation_y |}
  else Some old.

(** *** The stages of one pass of [process_data]

    The body of the loop, cut at its comment banners. *)

(** Lines 171-176: the time stamp of the pass. *)
Definition stamp_time (time_passed : Qc) (radar_time_stamp : list Qc)
    : option (list Qc) :=
  let radar_time_stamp := np_roll_back 1 radar_time_stamp in
  previous ← py_getitem radar_time_stamp (-2);
  py_setitem radar_time_stamp (-1) (previous + time_passed)%Qc.

(** Lines 190-191: the range gate as profile indices. *)
Definition start_index_range (c : Config) : Z :=
  py_int (object_distance_start_range c / max_range c
          * Qc_of_nat fft_size_range_profile / 2)%Qc.
Definition stop_index_range (c : Config) : Z :=
  py_int (object_distance_stop_range c / max_range c
          * Qc_of_nat fft_size_range_profile / 2)%Qc.

(** Lines 184-204: the tracked range bin and the new slow-time sample. *)
Record Tracked := {
  tracked_abs : list Qc;
  tracked_peak_indices : list Qc;
  tracked_peak_index : Z;
  tracked_slow_time : list complex;
  tracked_envelop : list Qc;
}.

Definition track_range_bin (c : Config)
    (range_fft_antennas_buffer : list complex) (b : Buffers) : option Tracked :=
  let range_fft_abs := map np_abs range_fft_antennas_buffer in
  let slow_time_buffer_data := np_roll_back 1 (slow_time_buffer_data b) in
  let I_Q_envelop := np_roll_back 1 (I_Q_envelop b) in
  let range_profile_peak_indices :=
    np_roll_back 1 (range_profile_peak_indices b) in
  gate_peak ←
    np_argmax (py_slice range_fft_abs (start_index_range c)
                        (stop_index_range c));
  range_profile_peak_indices ←
    py_setitem range_profile_peak_indices (-1)
               (Qc_of_Z (Z.of_nat gate_peak + start_index_range c));
  let range_profile_peak_index :=
    py_int (np_mean (py_slice_from range_profile_peak_indices
                       (-2 * Z.of_nat vital_signs_sample_rate))) in
  sample ←
    (if max_index_processing c
     then py_getitem range_fft_antennas_buffer range_profile_peak_index
     else Some (np_cmean (py_slice range_fft_antennas_buffer
                            (start_index_range c) (stop_index_range c))));
  slow_time_buffer_data ← py_setitem slow_time_buffer_data (-1) sample;
  newest ← py_getitem slow_time_buffer_data (-1);
  I_Q_envelop ← py_setitem I_Q_envelop (-1) (np_abs newest);
  Some {| tracked_abs := range_fft_abs;
          tracked_peak_indices := range_profile_peak_indices;
          tracked_peak_index := range_profile_peak_index;
          tracked_slow_time := slow_time_buffer_data;
          tracked_envelop := I_Q_envelop |}.

(** Lines 210-218, "phase unwrap": the new wrapped and unwrapped phase
    buffers, [counter] being its value after line 206. *)
Definition unwrap_phase (counter : nat) (slow_time_buffer_data : list complex)
    (wrapped_phase_plot unwrapped_phase_plot : list Qc)
    : option (list Qc * list Qc) :=
  let back := (- Z.of_nat counter)%Z in
  let window := (- Z.of_nat processing_data_size)%Z in
  let wrapped_phase := map np_angle (py_slice_from slow_time_buffer_data back) in
  let wrapped_phase_plot := np_roll_back counter wrapped_phase_plot in
  wrapped_phase_plot ←
    py_assign_from wrapped_phase_plot back (py_slice_from wrapped_phase back);
  let unwrapped_phase_plot := np_roll_back counter unwrapped_phase_plot in
  unwrapped_phase_plot ←
    py_assign_from unwrapped_phase_plot back
                   (py_slice_from wrapped_phase_plot back);
  let unwrapped_phase :=
    np_unwrap (py_slice_from unwrapped_phase_plot window) in
  unwrapped_phase_plot ←
    py_assign_from unwrapped_phase_plot window unwrapped_phase;
  Some (wrapped_phase_plot, unwrapped_phase_plot).

(** Lines 224-240, "filter": the new breathing and heart buffers. *)
Definition filter_bank (c : Config) (counter : nat)
    (unwrapped_phase_plot filtered_breathing_plot filtered_heart_plot : list Qc)
    : option (list Qc * list Qc) :=
  let back := (- Z.of_nat counter)%Z in
  let window := (- Z.of_nat processing_data_size)%Z in
  let filtered_breathing :=
    lfilter (breathing_b c) (py_slice_from unwrapped_phase_plot window) in
  let window_length := Z.min 51 (Z.of_nat processing_data_size - 2) in
  let window_length :=
    if bool_decide (window_length `mod` 2 = 0)%Z then (window_length - 1)%Z
    else window_length in
  let filtered_breathing :=
    if bool_decide (5 < window_length)%Z
    then savgol_filter filtered_breathing (Z.to_nat window_length) 3
    else filtered_breathing in
  let filtered_breathing := uniform_filter1d filtered_breathing 5 in
  let filtered_breathing_plot := np_roll_back counter filtered_breathing_plot in
  filtered_breathing_plot ←
    py_assign_from filtered_breathing_plot back
                   (py_slice_from filtered_breathing back);
  let '(cycle2, trend) :=
    hpfilter (py_slice_from unwrapped_phase_plot window)
             (Qc_of_nat (3 * vital_signs_sample_rate)) in
  let filtered_heart := lfilter (heart_b c) cycle2 in
  let filtered_heart_plot := np_roll_back counter filtered_heart_plot in
  filtered_heart_plot ←
    py_assign_from filtered_heart_plot back (py_slice_from filtered_heart back);
  Some (filtered_breathing_plot, filtered_heart_plot).

(** Lines 244-254, "Vital Signs FFT". *)
Definition vital_signs_spectra (slow_time_buffer_data : list complex)
    (unwrapped_phase_plot filtered_breathing_plot filtered_heart_plot : list Qc)
    : option Spectra :=
  let window := (- Z.of_nat processing_data_size)%Z in
  buffer_raw_I_Q_fft ←
    vital_signs_fft (py_slice_from slow_time_buffer_data window)
                    fft_size_vital_signs processing_data_size;
  phase_unwrap_fft ←
    vital_signs_fft (map Creal (py_slice_from unwrapped_phase_plot window))
                    fft_size_vital_signs processing_data_size;
  breathing_fft ←
    vital_signs_fft (map Creal (py_slice_from filtered_breathing_plot window))
                    fft_size_vital_signs processing_data_size;
  heart_fft ←
    vital_signs_fft (map Creal (py_slice_from filtered_heart_plot window))
                    fft_size_vital_signs processing_data_size;
  Some {| buffer_raw_I_Q_fft := buffer_raw_I_Q_fft;
          phase_unwrap_fft := phase_unwrap_fft;
          breathing_fft := breathing_fft;
          heart_fft := heart_fft |}.

(** Lines 276-328: the decimated call of the breath-cycle detector. *)
Definition breath_cycle_update (counter : nat)
    (radar_time_stamp filtered_breathing_plot : list Qc) (old : BreathPoints)
    : option BreathPoints :=
  if bool_decide (counter `mod` 5 = 0) && ENABLE_BREATHING_VISUALIZATION
  then detect_breath_cycle radar_time_stamp filtered_breathing_plot old
  else Some old.

(** One pass of the [while True] loop of [process_data] (lines 169-331),
    [current_time] being what [time.time()] returns in it. *)
Definition process_data_pass (current_time : Qc) (st : State) : option State :=
  match data_queue st with
  | [] => Some st
  | _ :: _ =>
    let b := bufs st in
    let c := cfg st in
    let time_passed := (current_time - start_time st)%Qc in
    let start_time' := current_time in
    radar_time_stamp' ← stamp_time time_passed (radar_time_stamp b);
    '(range_fft_antennas_buffer, data_queue') ← calc_range_fft (data_queue st);
    if is_not_None range_fft_antennas_buffer then
      profile ← as_ndarray range_fft_antennas_buffer;
      tracked ← track_range_bin c profile b;
      let counter' := counter st + 1 in
      '(wrapped_phase_plot', unwrapped_phase_plot') ←
        unwrap_phase counter' (tracked_slow_time tracked)
                     (wrapped_phase_plot b) (unwrapped_phase_plot b);
      '(filtered_breathing_plot', filtered_heart_plot') ←
        filter_bank c counter' unwrapped_phase_plot'
                    (filtered_breathing_plot b) (filtered_heart_plot b);
      spectra' ←
        vital_signs_spectra (tracked_slow_time tracked) unwrapped_phase_plot'
                            filtered_breathing_plot' filtered_heart_plot';
      breathing_rate_estimation_index' ←
        rate_index_update (breathing_rate_estimation_index b)
                          (breathing_fft spectra')
                          (index_start_breathing c) (index_end_breathing c);
      heart_rate_estimation_index' ←
        rate_index_update (heart_rate_estimation_index b) (heart_fft spectra')
                          (index_start_heart c) (index_end_heart c);
      points' ←
        breath_cycle_update counter' radar_time_stamp' filtered_breathing_plot'
                            (points st);
      let counter' := 0 in
      Some {| bufs :=
                {| radar_time_stamp := radar_time_stamp';
                   slow_time_buffer_data := tracked_slow_time tracked;
                   I_Q_envelop := tracked_envelop tracked;
                   wrapped_phase_plot := wrapped_phase_plot';
                   unwrapped_phase_plot := unwrapped_phase_plot';
                   filtered_breathing_plot := filtered_breathing_plot';
                   filtered_heart_plot := filtered_heart_plot';
                   range_profile_peak_indices := tracked_peak_indices tracked;
                   breathing_rate_estimation_index :=
                     breathing_rate_estimation_index';
                   heart_rate_estimation_index := heart_rate_estimation_index';
                   breathing_rate_estimation_value :=
                     breathing_rate_estimation_value b;
                   heart_rate_estimation_value :=
                     heart_rate_estimation_value b |};
              spectra := spectra';
              points := points';
              cfg := c;
              range_fft_abs := tracked_abs tracked;
              range_profile_peak_index := tracked_peak_index tracked;
              start_time := start_time';
              data_queue := data_queue';
              counter := counter' |}
    else
      Some {| bufs :=
                {| radar_time_stamp := radar_time_stamp';
                   slow_time_buffer_data := slow_time_buffer_data b;
                   I_Q_envelop := I_Q_envelop b;
                   wrapped_phase_plot := wrapped_phase_plot b;
                   unwrapped_phase_plot := unwrapped_phase_plot b;
                   filtered_breathing_plot := filtered_breathing_plot b;
                   filtered_heart_plot := filtered_heart_plot b;
                   range_profile_peak_indices := range_profile_peak_indices b;
                   breathing_rate_estimation_index :=
                     breathing_rate_estimation_index b;
                   heart_rate_estimation_index := heart_rate_estimation_index b;
                   breathing_rate_estimation_value :=
                     breathing_rate_estimation_value b;
                   heart_rate_estimation_value :=
                     heart_rate_estimation_value b |};
              spectra := spectra st;
              points := points st;
              cfg := c;
              range_fft_abs := range_fft_abs st;
              range_profile_peak_index := range_profile_peak_index st;
              start_time := start_time';
              data_queue := data_queue';
              counter := counter st |}
  end.

(** The producer thread ([read_data], lines 107-112) puts a frame. *)
Definition enqueue_frame (frame : Frame) (st : State) : State :=
  {| bufs := bufs st; spectra := spectra st; points := points st;
     cfg := cfg st; range_fft_abs := range_fft_abs st;
     range_profile_peak_index := range_profile_peak_index st;
     start_time := start_time st;
     data_queue := data_queue st ++ [frame];
     counter := counter st |}.
End processor.

(** ** [update_plots], the 25 ms timer tick (lines 337-513)

    The [setData]/[setText] calls only draw; what is kept of them is the
    array reads that can raise.  The messages handed to the OSC client are
    the output. *)

Definition osc_message : Type := string * Qc.

(** Lines 343-347: the range-profile plot. *)
Definition range_profile_marker (st : State) : option unit :=
  let x_axis_range_profile :=
    np_linspace 0%Qc (max_range (cfg st)) (fft_size_range_profile / 2) in
  _ ← py_getitem x_axis_range_profile (range_profile_peak_index st);
  _ ← py_getitem (range_fft_abs st) (range_profile_peak_index st);
  Some ().

(** Lines 369-373 and 374-378: the peak marker of one spectrum. *)
Definition spectrum_marker (estimation_index fft : list Qc)
    (estimation_start : nat) : option unit :=
  first ← py_getitem estimation_index (Z.of_nat estimation_start);
  if bool_decide (0 < first)%Qc then
    let mean_index :=
      np_mean (py_slice_from estimation_index (Z.of_nat estimation_start)) in
    _ ← py_getitem x_axis_vital_signs_spectrum
          (py_int (Qc_of_nat fft_size_vital_signs / 2 + mean_index)%Qc);
    _ ← py_getitem fft (py_int mean_index);
    Some ()
  else Some ().

(** Lines 383-389 and 391-397: one rate series.  A value is emitted when
    the oldest index of the estimation span is positive. *)
Definition rate_value_update (estimation_index estimation_value : list Qc)
    (estimation_start : nat) : option (list Qc) :=
  first ← py_getitem estimation_index (Z.of_nat estimation_start);
  if bool_decide (0 < first)%Qc then
    let estimation_value := np_roll_back 1 estimation_value in
    let mean_index :=
      np_mean (py_slice_from estimation_index (Z.of_nat estimation_start)) in
    frequency ←
      py_getitem x_axis_vital_signs_spectrum
        (py_round (Qc_of_nat fft_size_vital_signs / 2 + mean_index)%Qc);
    let xb := (frequency * Qc_of_Z 60)%Qc in
    py_setitem estimation_value (-1) (Qc_of_Z (py_round xb - 2))
  else Some estimation_value.

(** Lines 463-475: a rate in Hz from the rate series, 0 when there is no
    positive average. *)
Definition rate_in_hz (estimation_value : list Qc) : Qc :=
  if bool_decide (0 < length estimation_value) then
    let avg_rate :=
      np_mean (py_slice_from estimation_value
                 (- Z.of_nat (estimation_time * vital_signs_sample_rate))) in
    if bool_decide (0 < avg_rate)%Qc then (avg_rate / Qc_of_Z 60)%Qc else 0%Qc
  else 0%Qc.

Definition min_variance_threshold : Qc := qc 1 10000.
Definition min_envelope_threshold : Qc := qc 1 1000.

(** Lines 416-513: the presence test and the messages it sends. *)
Definition breathing_visualization (st : State) : option (list osc_message) :=
  let b := bufs st in
  let c := cfg st in
  if bool_decide (0 < length (filtered_breathing_plot b)) then
    let span := (- Z.of_nat (5 * vital_signs_sample_rate))%Z in
    let recent_breathing := py_slice_from (filtered_breathing_plot b) span in
    if bool_decide (0 < length recent_breathing) then
      let signal_variance := np_var recent_breathing in
      let recent_envelope := py_slice_from (I_Q_envelop b) span in
      let mean_envelope := np_mean recent_envelope in
      if bool_decide (min_variance_threshold < signal_variance)%Qc
         && bool_decide (min_envelope_threshold < mean_envelope)%Qc
      then
        current_breathing ← py_getitem (filtered_breathing_plot b) (-1);
        let baseline := np_mean recent_breathing in
        let amplitude :=
          (np_max (map (λ x, Qcabs (x - baseline)) recent_breathing)
           + qc 1 10000)%Qc in
        let normalized_value := ((current_breathing - baseline) / amplitude)%Qc in
        let circle_size := (Qc_of_Z 50 + Qc_of_Z 40 * normalized_value)%Qc in
        let circle_size := Qcmax (Qc_of_Z 30) (Qcmin (Qc_of_Z 100) circle_size) in
        let osc_value :=
          (qc 1 10 + qc 9 10 * (circle_size - Qc_of_Z 30) / Qc_of_Z 70)%Qc in
        let osc_value := Qcmax (qc 1 10) (Qcmin 1 osc_value) in
        if bool_decide (2 < length recent_breathing) then
          latest ← py_getitem recent_breathing (-1);
          before ← py_getitem recent_breathing (-2);
          let derivative := (latest - before)%Qc in
          if ENABLE_OSC_OUTPUT c && osc_client c then
            let presence := 1%Qc in
            let breathing_hz := rate_in_hz (breathing_rate_estimation_value b) in
            let heart_hz := rate_in_hz (heart_rate_estimation_value b) in
            Some [("/xhz"%string, breathing_hz);
                  ("/yhz"%string, (heart_hz / 2)%Qc);
                  ("/xratio"%string, osc_value);
                  ("/yratio"%string, osc_value);
                  ("/presence"%string, presence)]
          else Some []
        else Some []
      else
        if ENABLE_OSC_OUTPUT c && osc_client c then
          Some [("/presence"%string, 0%Qc);
                ("/xratio"%string, qc 1 10);
                ("/yratio"%string, qc 1 10);
                ("/xhz"%string, 0%Qc);
                ("/yhz"%string, 0%Qc)]
        else Some []
    else Some []
  else Some [].

Definition update_plots (st : State) : option (State * list osc_message) :=
  let b := bufs st in
  _ ← range_profile_marker st;
  _ ← (if ENABLE_VITALSIGNS_SPECTRUM then
         _ ← spectrum_marker (breathing_rate_estimation_index b)
               (breathing_fft (spectra st)) estimation_index_breathing;
         spectrum_marker (heart_rate_estimation_index b)
               (heart_fft (spectra st)) estimation_index_heart
       else Some ());
  '(breathing_value, heart_value) ←
    (if ENABLE_ESTIMATION_PLOT then
       breathing_value ←
         rate_value_update (breathing_rate_estimation_index b)
           (breathing_rate_estimation_value b) estimation_index_breathing;
       heart_value ←
         rate_value_update (heart_rate_estimation_index b)
           (heart_rate_estimation_value b) estimation_index_heart;
       Some (breathing_value, heart_value)
     else Some (breathing_rate_estimation_value b,
                heart_rate_estimation_value b));
  let st' :=
    {| bufs :=
         {| radar_time_stamp := radar_time_stamp b;
            slow_time_buffer_data := slow_time_buffer_data b;
            I_Q_envelop := I_Q_envelop b;
            wrapped_phase_plot := wrapped_phase_plot b;
            unwrapped_phase_plot := unwrapped_phase_plot b;
            filtered_breathing_plot := filtered_breathing_plot b;
            filtered_heart_plot := filtered_heart_plot b;
            range_profile_peak_indices := range_profile_peak_indices b;
            breathing_rate_estimation_index := breathing_rate_estimation_index b;
            heart_rate_estimation_index := heart_rate_estimation_index b;
            breathing_rate_estimation_value := breathing_value;
            heart_rate_estimation_value := heart_value |};
       spectra := spectra st; points := points st; cfg := cfg st;
       range_fft_abs := range_fft_abs st;
       range_profile_peak_index := range_profile_peak_index st;
       start_time := start_time st; data_queue := data_queue st;
       counter := counter st |} in
  messages ←
    (if ENABLE_BREATHING_VISUALIZATION then breathing_visualization st'
     else Some []);
  Some (st', messages).

(** ** Band-edge handlers (lines 665-691) *)

Section handlers.
Context `{DspLibrary}.

(** [firwin(numtaps, [lo, hi], pass_zero=False)]: SciPy raises a
    [ValueError] unless the cutoffs increase strictly inside (0, 1). *)
Definition firwin (numtaps : nat) (lo hi : Qc) : option (list Qc) :=
  if bool_decide (0 < lo)%Qc && bool_decide (lo < hi)%Qc
     && bool_decide (hi < 1)%Qc
  then Some (firwin_taps numtaps lo hi) else None.

(** The test both handlers make on the region (lines 668-669, 685-686). *)
Definition region_accepted (region : Qc * Qc) : bool :=
  bool_decide (region.1 < Qc_of_nat vital_signs_sample_rate / Qc_of_Z 4)%Qc
  && bool_decide (region.2 < Qc_of_nat vital_signs_sample_rate / 2)%Qc
  && bool_decide (0 < region.1)%Qc && bool_decide (0 < region.2)%Qc.

(** Line 674 and its siblings: a band edge as a spectrum index. *)
Definition band_index (edge : Qc) : Z :=
  py_int (edge / Qc_of_nat vital_signs_sample_rate
          * Qc_of_nat fft_size_vital_signs)%Qc.

Definition linear_region_breathing_changed (region : Qc * Qc) (c : Config)
    : option Config :=
  if region_accepted region then
    let low_breathing' := region.1 in
    let high_breathing' := region.2 in
    breathing_b' ←
      firwin filter_order (low_breathing' / nyquist_freq)%Qc
             (high_breathing' / nyquist_freq)%Qc;
    Some {| max_range := max_range c;
            min_range_index := min_range_index c;
            object_distance_start_range := object_distance_start_range c;
            object_distance_stop_range := object_distance_stop_range c;
            max_index_processing := max_index_processing c;
            low_breathing := low_breathing';
            high_breathing := high_breathing';
            low_heart := low_heart c;
            high_heart := high_heart c;
            breathing_b := breathing_b';
            heart_b := heart_b c;
            index_start_breathing := band_index low_breathing';
            index_end_breathing := band_index high_breathing';
            index_start_heart := index_start_heart c;
            index_end_heart := index_end_heart c;
            ENABLE_OSC_OUTPUT := ENABLE_OSC_OUTPUT c;
            osc_client := osc_client c |}
  else Some c.

Definition linear_region_heart_changed (region : Qc * Qc) (c : Config)
    : option Config :=
  if region_accepted region then
    let low_heart' := region.1 in
    let high_heart' := region.2 in
    heart_b' ←
      firwin filter_order (low_heart' / nyquist_freq)%Qc
             (high_heart' / nyquist_freq)%Qc;
    Some {| max_range := max_range c;
            min_range_index := min_range_index c;
            object_distance_start_range := object_distance_start_range c;
            object_distance_stop_range := object_distance_stop_range c;
            max_index_processing := max_index_processing c;
            low_breathing := low_breathing c;
            high_breathing := high_breathing c;
            low_heart := low_heart';
            high_heart := high_heart';
            breathing_b := breathing_b c;
            heart_b := heart_b';
            index_start_breathing := index_start_breathing c;
            index_end_breathing := index_end_breathing c;
            index_start_heart := band_index low_heart';
            index_end_heart := band_index high_heart';
            ENABLE_OSC_OUTPUT := ENABLE_OSC_OUTPUT c;
            osc_client := osc_client c |}
  else Some c.

(** ** Start-up (lines 76-90, 102-103, 859-890) *)

(** The filters and search bounds the module computes when it is loaded;
    [max_range] comes from the device and [osc] tells whether the OSC
    client could be created. *)
Definition initial_config (max_range : Qc) (osc : bool) : option Config :=
  let low_breathing := qc 15 100 in
  let high_breathing := qc 6 10 in
  let low_heart := qc 85 100 in
  let high_heart := qc 24 10 in
  breathing_b ←
    firwin filter_order (low_breathing / nyquist_freq)%Qc
           (high_breathing / nyquist_freq)%Qc;
  heart_b ←
    firwin filter_order (low_heart / nyquist_freq)%Qc
           (high_heart / nyquist_freq)%Qc;
  Some {| max_range := max_range;
          min_range_index :=
            py_int (qc 15 100 * Qc_of_nat fft_size_range_profile / 2)%Qc;
          object_distance_start_range := qc 5 10;
          object_distance_stop_range := qc 6 10;
          max_index_processing := true;
          low_breathing := low_breathing;
          high_breathing := high_breathing;
          low_heart := low_heart;
          high_heart := high_heart;
          breathing_b := breathing_b;
          heart_b := heart_b;
          index_start_breathing := band_index low_breathing;
          index_end_breathing := band_index high_breathing;
          index_start_heart := band_index low_heart;
          index_end_heart := band_index high_heart;
          ENABLE_OSC_OUTPUT := osc;
          osc_client := osc |}.

Definition initial_state (c : Config) (start_time : Qc) : State :=
  {| bufs :=
       {| radar_time_stamp := np_zeros buffer_data_size;
          slow_time_buffer_data := np_czeros buffer_data_size;
          I_Q_envelop := np_zeros buffer_data_size;
          wrapped_phase_plot := np_zeros buffer_data_size;
          unwrapped_phase_plot := np_zeros buffer_data_size;
          filtered_breathing_plot := np_zeros buffer_data_size;
          filtered_heart_plot := np_zeros buffer_data_size;
          range_profile_peak_indices := np_zeros buffer_data_size;
          breathing_rate_estimation_index := np_zeros buffer_data_size;
          heart_rate_estimation_index := np_zeros buffer_data_size;
          breathing_rate_estimation_value := np_zeros buffer_data_size;
          heart_rate_estimation_value := np_zeros buffer_data_size |};
     spectra :=
       {| buffer_raw_I_Q_fft := np_zeros fft_size_vital_signs;
          phase_unwrap_fft := np_zeros fft_size_vital_signs;
          breathing_fft := np_zeros fft_size_vital_signs;
          heart_fft := np_zeros fft_size_vital_signs |};
     points :=
       {| inhalation_points_x := []; inhalation_points_y := [];
          exhalation_points_x := []; exhalation_points_y := [] |};
     cfg := c;
     range_fft_abs := np_zeros (fft_size_range_profile / 2);
     range_profile_peak_index := 0;
     start_time := start_time;
     data_queue := [];
     counter := 0 |}.
End handlers.

(** ** A rational instance of the numeric routines

    Used to run the model on concrete inputs.  [lfilter] is the exact
    direct-form FIR filter; the routines whose true results are irrational
    are replaced by rational ones of the documented shape: a rectangular
    window, the zero-padded identity for the transform, the 1-norm for the
    magnitude, the angle of the nearest half-axis, no smoothing, strict
    interior local maxima as peaks. *)

Module RationalLibrary.

Definition resize (n : nat) (x : list complex) : list complex :=
  take n x ++ np_czeros (n - length x).

Definition norm1 (z : complex) : Qc := (Qcabs (Re z) + Qcabs (Im z))%Qc.

Definition axis_angle (z : complex) : Qc :=
  if bool_decide (0 < Im z)%Qc then (np_pi / 2)%Qc
  else if bool_decide (Im z < 0)%Qc then (- (np_pi / 2))%Qc
  else if bool_decide (Re z < 0)%Qc then np_pi else 0%Qc.

Definition fir_output (b x : list Qc) (n : nat) : Qc :=
  np_sum (imap (λ (k : nat) bk, if bool_decide (k ≤ n)%nat
                        then (bk * default 0 (x !! (n - k)%nat))%Qc else 0%Qc) b).
Definition fir (b x : list Qc) : list Qc := imap (λ n _, fir_output b x n) x.

Definition spread (x : list Qc) (q : Qc) : Qc :=
  match x with
  | [] => 0%Qc
  | v :: x' =>
      let lo := foldl Qcmin v x' in
      let hi := foldl Qcmax v x' in
      (lo + (hi - lo) * q / Qc_of_Z 100)%Qc
  end.

Definition is_local_max (x : list Qc) (i : nat) : bool :=
  match x !! (i - 1), x !! i, x !! (i + 1) with
  | Some l, Some m, Some r =>
      bool_decide (0 < i) && bool_decide (l < m)%Qc && bool_decide (r < m)%Qc
  | _, _, _ => false
  end.
Definition is_high (x : list Qc) (height : option Qc) (i : nat) : bool :=
  match height with
  | Some h => bool_decide (h ≤ default 0 (x !! i))%Qc
  | None => true
  end.
Definition local_maxima (x : list Qc) (distance : nat)
    (height prominence : option Qc) : list nat :=
  filter (λ i, is_local_max x i && is_high x height i) (seq 0 (length x)).

Definition box_taps (numtaps : nat) (lo hi : Qc) : list Qc :=
  replicate numtaps ((hi - lo) / Qc_of_nat numtaps)%Qc.

#[export] Instance library : DspLibrary := {|
  np_fft := resize;
  blackmanharris n := replicate n 1%Qc;
  np_abs := norm1;
  np_angle := axis_angle;
  lfilter := fir;
  savgol_filter x _ _ := x;
  uniform_filter1d x _ := x;
  hpfilter x _ := (x, np_zeros (length x));
  medfilt x _ := x;
  np_percentile := spread;
  find_peaks := local_maxima;
  firwin_taps := box_taps;
|}.

End RationalLibrary.

(** ** Invariants of the processing loop *)

(** Every ring buffer has the capacity it is created with. *)
Definition buffers_sized (b : Buffers) : Prop :=
  length (radar_time_stamp b) = buffer_data_size
  ∧ length (slow_time_buffer_data b) = buffer_data_size
  ∧ length (I_Q_envelop b) = buffer_data_size
  ∧ length (wrapped_phase_plot b) = buffer_data_size
  ∧ length (unwrapped_phase_plot b) = buffer_data_size
  ∧ length (filtered_breathing_plot b) = buffer_data_size
  ∧ length (filtered_heart_plot b) = buffer_data_size
  ∧ length (range_profile_peak_indices b) = buffer_data_size
  ∧ length (breathing_rate_estimation_index b) = buffer_data_size
  ∧ length (heart_rate_estimation_index b) = buffer_data_size
  ∧ length (breathing_rate_estimation_value b) = buffer_data_size
  ∧ length (heart_rate_estimation_value b) = buffer_data_size.

(** Consecutive entries differ by at most [h]. *)
Definition bounded_steps (h : Qc) (p : list Qc) : Prop :=
  Forall (λ d, Qcabs d ≤ h)%Qc (np_diff p).

(** The recompute window of the unwrapped phase holds an unwrapped trace. *)
Definition window_unwrapped (b : Buffers) : Prop :=
  bounded_steps np_pi
    (py_slice_from (unwrapped_phase_plot b) (- Z.of_nat processing_data_size)).

(** The stored peak indices are bins of the range profile. *)
Definition peak_indices_in_profile (b : Buffers) : Prop :=
  Forall (λ x, 0 ≤ x ≤ Qc_of_nat (fft_size_range_profile / 2 - 1))%Qc
         (range_profile_peak_indices b).

(** The range gate selects at least one bin of the profile. *)
Definition gate_valid (c : Config) : Prop :=
  (0 ≤ start_index_range c < stop_index_range c)%Z
  ∧ (start_index_range c < Z.of_nat (fft_size_range_profile / 2))%Z.

(** [frame] is an array: every antenna has [frame_chirps] chirps and every
    chirp [frame_samples] samples. *)
Definition frame_array (frame : Frame) : Prop :=
  Forall (λ mat, length mat = frame_chirps frame
                 ∧ Forall (λ chirp, length chirp = frame_samples frame) mat)
         (frame_data frame).

(** A frame the front end can process: an array with enough antennas, at
    least one chirp, and at least one sample per chirp but no more than
    the transform size.  (The mean of a chirp without samples is NaN, which
    has no rational counterpart.) *)
Definition frame_ok (frame : Frame) : Prop :=
  frame_array frame
  ∧ num_rx_antennas ≤ length (frame_data frame)
  ∧ 1 ≤ frame_chirps frame
  ∧ 1 ≤ frame_samples frame ≤ fft_size_range_profile.

Definition ready (st : State) : Prop :=
  buffers_sized (bufs st)
  ∧ window_unwrapped (bufs st)
  ∧ peak_indices_in_profile (bufs st)
  ∧ gate_valid (cfg st)
  ∧ Forall frame_ok (data_queue st)
  ∧ counter st = 0.

(** [new] is [old] after one push: the oldest entry dropped, [v] appended. *)
Definition pushed {A} (v : A) (old new : list A) : Prop :=
  new = drop 1 old ++ [v].

(** [np_unwrap_period] as one left-to-right scan: [acc] is the correction
    accumulated so far and [prev] the previous wrapped value. *)
Fixpoint unwrap_from (period acc prev : Qc) (l : list Qc) : list Qc :=
  match l with
  | [] => []
  | x :: l' =>
      let acc' := (acc + unwrap_ph_correct period (x - prev))%Qc in
      (x + acc')%Qc :: unwrap_from period acc' x l'
  end.

(** ** What one pass does to a ready state

    [pass_effect t st frame st'] describes [st'] as the result of the pass
    at time [t] that dequeues [frame] in state [st]. *)

Section pass_effect.
Context `{DspLibrary}.

Definition pass_effect (current_time : Qc) (st : State) (frame : Frame)
    (st' : State) : Prop :=
  let b := bufs st in
  let b' := bufs st' in
  let c := cfg st in
  ∃ (profile : list complex) (gate_peak : nat) (sample : complex)
    (previous_time unwrapped_new breathing_new heart_new : Qc)
    (rate_index_br rate_index_hr : Z) (previous_br previous_hr : Qc),
    (* the queue, the configuration and the locals *)
    data_queue st = frame :: data_queue st'
    ∧ cfg st' = c
    ∧ counter st' = 0
    ∧ start_time st' = current_time
    ∧ points st' = points st
    (* the range profile and the tracked bin *)
    ∧ range_fft_of_frame frame = Some profile
    ∧ length profile = fft_size_range_profile / 2
    ∧ range_fft_abs st' = map np_abs profile
    ∧ np_argmax (py_slice (map np_abs profile) (start_index_range c)
                          (stop_index_range c)) = Some gate_peak
    ∧ range_profile_peak_indices b'
      = drop 1 (range_profile_peak_indices b)
        ++ [Qc_of_Z (Z.of_nat gate_peak + start_index_range c)]
    ∧ range_profile_peak_index st'
      = py_int (np_mean (py_slice_from (range_profile_peak_indices b')
                           (-2 * Z.of_nat vital_signs_sample_rate)))
    ∧ (if max_index_processing c
       then py_getitem profile (range_profile_peak_index st') = Some sample
       else sample = np_cmean (py_slice profile (start_index_range c)
                                        (stop_index_range c)))
    (* the slow-time buffers *)
    ∧ last (radar_time_stamp b) = Some previous_time
    ∧ radar_time_stamp b'
      = drop 1 (radar_time_stamp b)
        ++ [(previous_time + (current_time - start_time st))%Qc]
    ∧ slow_time_buffer_data b' = drop 1 (slow_time_buffer_data b) ++ [sample]
    ∧ I_Q_envelop b' = drop 1 (I_Q_envelop b) ++ [np_abs sample]
    ∧ wrapped_phase_plot b'
      = drop 1 (wrapped_phase_plot b) ++ [np_angle sample]
    ∧ unwrapped_phase_plot b'
      = take (buffer_data_size - processing_data_size)
             (drop 1 (unwrapped_phase_plot b))
        ++ np_unwrap (drop (buffer_data_size - processing_data_size)
                           (drop 1 (unwrapped_phase_plot b)
                            ++ [np_angle sample]))
    ∧ unwrapped_phase_plot b'
      = drop 1 (unwrapped_phase_plot b) ++ [unwrapped_new]
    ∧ filtered_breathing_plot b'
      = drop 1 (filtered_breathing_plot b) ++ [breathing_new]
    ∧ filtered_heart_plot b'
      = drop 1 (filtered_heart_plot b) ++ [heart_new]
    (* the rate estimators *)
    ∧ find_signal_peaks (breathing_fft (spectra st'))
        (index_start_breathing c) (index_end_breathing c)
        peak_finding_distance = Some rate_index_br
    ∧ last (breathing_rate_estimation_index b) = Some previous_br
    ∧ breathing_rate_estimation_index b'
      = drop 1 (breathing_rate_estimation_index b)
        ++ [if bool_decide (rate_index_br ≠ 0%Z) then Qc_of_Z rate_index_br
            else previous_br]
    ∧ find_signal_peaks (heart_fft (spectra st'))
        (index_start_heart c) (index_end_heart c)
        peak_finding_distance = Some rate_index_hr
    ∧ last (heart_rate_estimation_index b) = Some previous_hr
    ∧ heart_rate_estimation_index b'
      = drop 1 (heart_rate_estimation_index b)
        ++ [if bool_decide (rate_index_hr ≠ 0%Z) then Qc_of_Z rate_index_hr
            else previous_hr]
    ∧ breathing_rate_estimation_value b' = breathing_rate_estimation_value b
    ∧ heart_rate_estimation_value b' = heart_rate_estimation_value b.
End pass_effect.

(** ** Runs *)

(** What can happen to the state: the producer puts a frame, the
    processing thread makes a pass, the timer fires [update_plots]. *)
Inductive event :=
  | Put (frame : Frame)
  | Pass (current_time : Qc)
  | Tick.

Section runs.
Context `{DspLibrary}.

Definition step (e : event) (st : State) : option State :=
  match e with
  | Put frame => Some (enqueue_frame frame st)
  | Pass current_time => process_data_pass current_time st
  | Tick => fst <$> update_plots st
  end.

Fixpoint run (es : list event) (st : State) : option State :=
  match es with
  | [] => Some st
  | e :: es' => st' ← step e st; run es' st'
  end.

(** The states after each of a sequence of passes. *)
Fixpoint process_data_passes (times : list Qc) (st : State)
    : option (list State) :=
  match times with
  | [] => Some []
  | t :: times' =>
      st' ← process_data_pass t st;
      trace ← process_data_passes times' st';
      Some (st' :: trace)
  end.

(** The two rate estimators. *)
Inductive band := Breathing | Heart.

Definition estimation_index_of (k : band) (b : Buffers) : list Qc :=
  match k with
  | Breathing => breathing_rate_estimation_index b
  | Heart => heart_rate_estimation_index b
  end.

(** The peaks [find_signal_peaks] gets from [find_peaks] in the band
    searched in state [st]. *)
Definition band_peaks (k : band) (st : State) : list nat :=
  let '(fft, index_start, index_end) :=
    match k with
    | Breathing => (breathing_fft (spectra st), index_start_breathing (cfg st),
                    index_end_breathing (cfg st))
    | Heart => (heart_fft (spectra st), index_start_heart (cfg st),
                index_end_heart (cfg st))
    end in
  find_peaks (py_slice fft index_start index_end)
    (Z.to_nat (py_int (Qcmax 1 (peak_finding_distance
                                 * Qc_of_nat fft_size_vital_signs
                                 / Qc_of_nat vital_signs_sample_rate))))
    None None.

(** A step during which the estimator of band [k] sees no peak: any put
    or timer tick, or a pass whose spectrum has no peak in the band. *)
Inductive quiet_step (k : band) : State → State → Prop :=
  | quiet_put st frame : quiet_step k st (enqueue_frame frame st)
  | quiet_tick st st' messages :
      update_plots st = Some (st', messages) → quiet_step k st st'
  | quiet_pass st current_time st' :
      process_data_pass current_time st = Some st' →
      band_peaks k st' = [] → quiet_step k st st'.
End runs.


(** ** First-in first-out reading of a ring buffer *)

(** The values a buffer has received over a trace of states: its newest
    entry in each of them, oldest first. *)
Definition pushed_values {A} (select : Buffers → list A)
    (trace : list State) : list A :=
  omap (λ s, last (select (bufs s))) trace.

(** Over [trace], started in [st], the buffer [select] keeps its capacity
    and ends as its old content without the [length trace] oldest entries,
    followed by the pushed values. *)
Definition fifo_after {A} (select : Buffers → list A) (st : State)
    (trace : list State) : Prop :=
  Forall (λ s, length (select (bufs s)) = buffer_data_size) trace
  ∧ select (bufs (default st (last trace)))
    = drop (length trace) (select (bufs st)) ++ pushed_values select trace
  ∧ length (pushed_values select trace) = length trace.

(** The ten buffers [process_data] updates. *)
Definition slow_time_fifo (st : State) (trace : list State) : Prop :=
  fifo_after radar_time_stamp st trace
  ∧ fifo_after slow_time_buffer_data st trace
  ∧ fifo_after I_Q_envelop st trace
  ∧ fifo_after wrapped_phase_plot st trace
  ∧ fifo_after unwrapped_phase_plot st trace
  ∧ fifo_after filtered_breathing_plot st trace
  ∧ fifo_after filtered_heart_plot st trace
  ∧ fifo_after range_profile_peak_indices st trace
  ∧ fifo_after breathing_rate_estimation_index st trace
  ∧ fifo_after heart_rate_estimation_index st trace.

(** A rate series after a timer tick: as it was, or pushed once. *)
Definition held_or_pushed (old new : list Qc) : Prop :=
  new = old ∨ ∃ v, pushed v old new.

(** ** The range profile as the description states it

    These definitions follow the words of the description (section 4.1),
    not the code; [range_profile_is_antenna_mean] compares them with
    [calc_range_fft]. *)

Section described_range_profile.
Context `{DspLibrary}.

(** "subtract the per-chirp mean (DC removal)" *)
Definition described_dc_removed (chirp : list complex) : list complex :=
  map (λ x, Csub x (np_cmean chirp)) chirp.

(** "apply a Blackman-Harris window across range samples" *)
Definition described_windowed (chirp : list complex) : list complex :=
  zip_with Cscale (blackmanharris (length chirp)) chirp.

(** "zero-pad to fftSizeRangeProfile" *)
Definition described_zero_padded (chirp : list complex) : list complex :=
  chirp ++ np_czeros (fft_size_range_profile - length chirp).

(** "compute a forward FFT, keep the first half of bins, scale by
    2/samplesPerChirp" *)
Definition described_chirp_profile (samples_per_chirp : nat)
    (chirp : list complex) : list complex :=
  map (Cscale (2 / Qc_of_nat samples_per_chirp)%Qc)
      (take (fft_size_range_profile / 2)
            (np_fft fft_size_range_profile
               (described_zero_padded
                  (described_windowed (described_dc_removed chirp))))).

(** The sum of a list of profiles, bin by bin. *)
Definition profile_sum (profiles : list (list complex)) : list complex :=
  foldr (zip_with Cadd) (np_czeros (fft_size_range_profile / 2)) profiles.

(** "sum across chirps within the antenna" *)
Definition described_antenna_profile (samples_per_chirp : nat)
    (antenna : list (list complex)) : list complex :=
  profile_sum (map (described_chirp_profile samples_per_chirp) antenna).

(** "Average the per-antenna results (arithmetic mean)" *)
Definition described_range_profile (frame : Frame) : list complex :=
  let per_antenna :=
    map (described_antenna_profile (frame_samples frame))
        (frame_data frame) in
  map (λ z, Cdiv_real z (Qc_of_nat (length per_antenna)))
      (profile_sum per_antenna).
End described_range_profile.

(** A frame of the configured shape: an array the front end can process
    with exactly [num_rx_antennas] antennas. *)
Definition frame_shaped (frame : Frame) : Prop :=
  frame_ok frame ∧ length (frame_data frame) = num_rx_antennas.

(** ** Rounding and the smoothed peak index *)

(** [z] is [x] rounded to an integer, whatever the rule for ties. *)
Definition is_rounding (x : Qc) (z : Z) : Prop :=
  (Qcabs (x - Qc_of_Z z) ≤ qc 1 2)%Qc.

(** The mean line 197 takes: the last [2 * vital_signs_sample_rate] stored
    peak indices. *)
Definition tracked_mean (b : Buffers) : Qc :=
  np_mean (py_slice_from (range_profile_peak_indices b)
             (-2 * Z.of_nat vital_signs_sample_rate)).

(** C6 as stated, in a state a pass has left. *)
Definition tracked_bin_is_rounded_mean (st : State) : Prop :=
  is_rounding (tracked_mean (bufs st)) (range_profile_peak_index st).

(** [st] with other ring buffers. *)
Definition with_buffers (b : Buffers) (st : State) : State :=
  {| bufs := b; spectra := spectra st; points := points st; cfg := cfg st;
     range_fft_abs := range_fft_abs st;
     range_profile_peak_index := range_profile_peak_index st;
     start_time := start_time st; data_queue := data_queue st;
     counter := counter st |}.

(** ** The displayed rate *)

(** The conversion the description gives for a mean peak bin:
    [binIndex * sampleRate / fftSizeVital * 60], minus 2. *)
Definition described_rate (mean_index : Qc) : Qc :=
  (mean_index * Qc_of_nat vital_signs_sample_rate
   / Qc_of_nat fft_size_vital_signs * Qc_of_Z 60 - 2)%Qc.

(** The frequency [x_axis_vital_signs_spectrum] holds at bin [k]: the axis
    runs from [-sampleRate/2] to [sampleRate/2] in [fft_size_vital_signs]
    points, both ends included. *)
Definition axis_frequency (k : Z) : Qc :=
  (- (Qc_of_nat vital_signs_sample_rate / 2)
   + Qc_of_Z k * (Qc_of_nat vital_signs_sample_rate
                  / Qc_of_nat (fft_size_vital_signs - 1)))%Qc.

(** The rate [rate_value_update] writes for a mean peak bin. *)
Definition displayed_rate (mean_index : Qc) : Z :=
  let bin := py_round (Qc_of_nat fft_size_vital_signs / 2 + mean_index)%Qc in
  (py_round (axis_frequency bin * Qc_of_Z 60) - 2)%Z.

Definition estimation_value_of (k : band) (b : Buffers) : list Qc :=
  match k with
  | Breathing => breathing_rate_estimation_value b
  | Heart => heart_rate_estimation_value b
  end.

Definition estimation_start (k : band) : nat :=
  match k with
  | Breathing => estimation_index_breathing
  | Heart => estimation_index_heart
  end.

(** The mean peak bin over the estimation span of band [k]. *)
Definition estimation_mean (k : band) (b : Buffers) : Qc :=
  np_mean (py_slice_from (estimation_index_of k b)
             (Z.of_nat (estimation_start k))).

(** The estimation span holds bins of the positive half of the spectrum
    and its oldest entry is positive: [update_plots] emits a rate. *)
Definition rate_emitted (k : band) (b : Buffers) : Prop :=
  length (estimation_index_of k b) = buffer_data_size
  ∧ length (estimation_value_of k b) = buffer_data_size
  ∧ Forall (λ x, 0 ≤ x ≤ Qc_of_nat (fft_size_vital_signs / 2 - 1))%Qc
           (py_slice_from (estimation_index_of k b)
              (Z.of_nat (estimation_start k)))
  ∧ ∃ first, estimation_index_of k b !! estimation_start k = Some first
             ∧ (0 < first)%Qc.

(** ** Presence *)

(** The last 5 seconds of a buffer (lines 419 and 427). *)
Definition presence_window (l : list Qc) : list Qc :=
  py_slice_from l (- Z.of_nat (5 * vital_signs_sample_rate)).

(** The test of line 432: the variance of the recent breathing signal and
    the mean of the recent envelope both exceed their thresholds. *)
Definition signal_present (b : Buffers) : Prop :=
  (min_variance_threshold < np_var (presence_window (filtered_breathing_plot b))
   ∧ min_envelope_threshold < np_mean (presence_window (I_Q_envelop b)))%Qc.

(** ** Band edges *)

(** An edge inside [0, sampleRate/2]. *)
Definition edge_in_band (edge : Qc) : Prop :=
  (0 ≤ edge ≤ Qc_of_nat vital_signs_sample_rate / 2)%Qc.

(** What a handler leaves alone: everything but its own band. *)
Definition same_but_breathing (c c' : Config) : Prop :=
  max_range c' = max_range c ∧ min_range_index c' = min_range_index c
  ∧ object_distance_start_range c' = object_distance_start_range c
  ∧ object_distance_stop_range c' = object_distance_stop_range c
  ∧ max_index_processing c' = max_index_processing c
  ∧ low_heart c' = low_heart c ∧ high_heart c' = high_heart c
  ∧ heart_b c' = heart_b c
  ∧ index_start_heart c' = index_start_heart c
  ∧ index_end_heart c' = index_end_heart c
  ∧ ENABLE_OSC_OUTPUT c' = ENABLE_OSC_OUTPUT c
  ∧ osc_client c' = osc_client c.

Definition same_but_heart (c c' : Config) : Prop :=
  max_range c' = max_range c ∧ min_range_index c' = min_range_index c
  ∧ object_distance_start_range c' = object_distance_start_range c
  ∧ object_distance_stop_range c' = object_distance_stop_range c
  ∧ max_index_processing c' = max_index_processing c
  ∧ low_breathing c' = low_breathing c ∧ high_breathing c' = high_breathing c
  ∧ breathing_b c' = breathing_b c
  ∧ index_start_breathing c' = index_start_breathing c
  ∧ index_end_breathing c' = index_end_breathing c
  ∧ ENABLE_OSC_OUTPUT c' = ENABLE_OSC_OUTPUT c
  ∧ osc_client c' = osc_client c.

(** ** The producer thread and the range-gate handler *)

(** One turn of the loop of [read_data] (lines 110-112): the frames the
    device returns are put on the queue one after the other. *)
Definition read_data (frame_contents : list Frame) (st : State) : State :=
  foldl (λ st frame, enqueue_frame frame st) st frame_contents.

(** [region_changed] (lines 565-569): the range gate becomes the region,
    whatever it is. *)
Definition region_changed (region : Qc * Qc) (c : Config) : Config :=
  {| max_range := max_range c;
     min_range_index := min_range_index c;
     object_distance_start_range := region.1;
     object_distance_stop_range := region.2;
     max_index_processing := max_index_processing c;
     low_breathing := low_breathing c;
     high_breathing := high_breathing c;
     low_heart := low_heart c;
     high_heart := high_heart c;
     breathing_b := breathing_b c;
     heart_b := heart_b c;
     index_start_breathing := index_start_breathing c;
     index_end_breathing := index_end_breathing c;
     index_start_heart := index_start_heart c;
     index_end_heart := index_end_heart c;
     ENABLE_OSC_OUTPUT := ENABLE_OSC_OUTPUT c;
     osc_client := osc_client c |}.

(** The configuration is module state: a handler that returns replaces
    it. *)
Definition with_cfg (c : Config) (st : State) : State :=
  {| bufs := bufs st; spectra := spectra st; points := points st; cfg := c;
     range_fft_abs := range_fft_abs st;
     range_profile_peak_index := range_profile_peak_index st;
     start_time := start_time st; data_queue := data_queue st;
     counter := counter st |}.

(** The frame each state of [trace] was computed from, when the passes
    started on [queue]: the queue each pass leaves and the magnitude
    profile it stores. *)
Definition consumed_in_order `{DspLibrary} (queue : list Frame)
    (trace : list State) : Prop :=
  ∀ i s, trace !! i = Some s →
    data_queue s = drop (S i) queue
    ∧ ∃ frame profile,
        queue !! i = Some frame
        ∧ range_fft_of_frame frame = Some profile
        ∧ range_fft_abs s = map np_abs profile.

(** ** The OSC messages *)

(** What the receiver of the messages may rely on, address by address. *)
Definition telemetry_ok (m : osc_message) : Prop :=
  (m.1 = "/presence"%string ∧ (m.2 = 0 ∨ m.2 = 1)%Qc)
  ∨ ((m.1 = "/xratio"%string ∨ m.1 = "/yratio"%string)
     ∧ (qc 1 10 ≤ m.2 ≤ 1)%Qc)
  ∨ ((m.1 = "/xhz"%string ∨ m.1 = "/yhz"%string) ∧ (0 ≤ m.2)%Qc).

(** ** Invariants of the whole program *)

(** The search bounds of both bands lie in the first half of the
    spectrum. *)
Definition bands_in_half_spectrum (c : Config) : Prop :=
  (0 ≤ index_start_breathing c
   ∧ 0 ≤ index_end_breathing c ≤ Z.of_nat (fft_size_vital_signs / 2)
   ∧ 0 ≤ index_start_heart c
   ∧ 0 ≤ index_end_heart c ≤ Z.of_nat (fft_size_vital_signs / 2))%Z.

(** What the timer tick reads: the magnitude profile and the tracked bin
    in it, the two band spectra, and the two index buffers with bins of the
    first half of the spectrum. *)
Definition plot_ready (st : State) : Prop :=
  length (range_fft_abs st) = fft_size_range_profile / 2
  ∧ (0 ≤ range_profile_peak_index st
     < Z.of_nat (fft_size_range_profile / 2))%Z
  ∧ length (breathing_fft (spectra st)) = fft_size_vital_signs
  ∧ length (heart_fft (spectra st)) = fft_size_vital_signs
  ∧ Forall (λ x, 0 ≤ x ≤ Qc_of_nat (fft_size_vital_signs / 2 - 1))%Qc
           (breathing_rate_estimation_index (bufs st))
  ∧ Forall (λ x, 0 ≤ x ≤ Qc_of_nat (fft_size_vital_signs / 2 - 1))%Qc
           (heart_rate_estimation_index (bufs st))
  ∧ bands_in_half_spectrum (cfg st).

Definition healthy (st : State) : Prop := ready st ∧ plot_ready st.

(** What the three threads and the operator do to the module state. *)
Inductive action :=
  | ReadData (frame_contents : list Frame)
  | ProcessData (current_time : Qc)
  | UpdatePlots
  | BreathingRegion (region : Qc * Qc)
  | HeartRegion (region : Qc * Qc)
  | RangeRegion (region : Qc * Qc).

Section actions.
Context `{DspLibrary}.

Definition act (a : action) (st : State) : option State :=
  match a with
  | ReadData frame_contents => Some (read_data frame_contents st)
  | ProcessData current_time => process_data_pass current_time st
  | UpdatePlots => fst <$> update_plots st
  | BreathingRegion region =>
      c ← linear_region_breathing_changed region (cfg st); Some (with_cfg c st)
  | HeartRegion region =>
      c ← linear_region_heart_changed region (cfg st); Some (with_cfg c st)
  | RangeRegion region => Some (with_cfg (region_changed region (cfg st)) st)
  end.

Fixpoint perform (actions : list action) (st : State) : option State :=
  match actions with
  | [] => Some st
  | a :: actions' => st' ← act a st; perform actions' st'
  end.
End actions.

(** The inputs under which the program is meant to run, [c] being the
    start-up configuration: frames of the shape the device is set up for, a
    band region that is not inverted where the handler takes it up, a
    range region that selects at least one bin. *)
Definition admissible (c : Config) (a : action) : Prop :=
  match a with
  | ReadData frame_contents => Forall frame_ok frame_contents
  | ProcessData _ | UpdatePlots => True
  | BreathingRegion region | HeartRegion region =>
      region_accepted region = true → (region.1 < region.2)%Qc
  | RangeRegion region => gate_valid (region_changed region c)
  end.

(** ** The tracked bin and the gate *)

(** A stored peak index inside the range gate of [c]. *)
Definition in_gate (c : Config) (x : Qc) : Prop :=
  (Qc_of_Z (start_index_range c) ≤ x ≤ Qc_of_Z (stop_index_range c - 1))%Qc.

(** The [k] newest stored peak indices lie inside the gate. *)
Definition newest_in_gate (k : nat) (st : State) : Prop :=
  Forall (in_gate (cfg st))
         (drop (buffer_data_size - k) (range_profile_peak_indices (bufs st))).

(** ** The breath-cycle points *)

(** The points ([xs], [ys]) are samples of the curve ([time], [values]). *)
Definition on_curve (time values xs ys : list Qc) : Prop :=
  length xs = length ys
  ∧ ∀ j x y, xs !! j = Some x → ys !! j = Some y →
      ∃ i, time !! i = Some x ∧ values !! i = Some y.

(** ** The unwrapped phase *)

(** [y] is [x] moved by a whole number of periods. *)
Definition congruent (period x y : Qc) : Prop :=
  ∃ k : Z, y = (x + Qc_of_Z k * period)%Qc.

(** ** The held rate index *)

(** The [n] newest entries of [l] are all [v]. *)
Definition newest_are (n : nat) (v : Qc) (l : list Qc) : Prop :=
  drop (length l - n) l = replicate n v.

(** [st] with another breathing index buffer. *)
Definition with_breathing_index (estimation_index : list Qc) (st : State)
    : State :=
  let b := bufs st in
  with_buffers
    {| radar_time_stamp := radar_time_stamp b;
       slow_time_buffer_data := slow_time_buffer_data b;
       I_Q_envelop := I_Q_envelop b;
       wrapped_phase_plot := wrapped_phase_plot b;
       unwrapped_phase_plot := unwrapped_phase_plot b;
       filtered_breathing_plot := filtered_breathing_plot b;
       filtered_heart_plot := filtered_heart_plot b;
       range_profile_peak_indices := range_profile_peak_indices b;
       breathing_rate_estimation_index := estimation_index;
       heart_rate_estimation_index := heart_rate_estimation_index b;
       breathing_rate_estimation_value := breathing_rate_estimation_value b;
       heart_rate_estimation_value := heart_rate_estimation_value b |}
    st.

(** ** Concrete inputs

    A configuration, a frame and a few states on which the model is run
    with the rational library. *)

Module Demo.
Import RationalLibrary.

(** The start-up configuration for a device whose maximum range is
    48/55 m (a 5.5 GHz sweep, 64 samples per chirp). *)
Definition config : Config :=
  {| max_range := qc 48 55;
     min_range_index := 9;
     object_distance_start_range := qc 5 10;
     object_distance_stop_range := qc 6 10;
     max_index_processing := true;
     low_breathing := qc 15 100;
     high_breathing := qc 6 10;
     low_heart := qc 85 100;
     high_heart := qc 24 10;
     breathing_b := box_taps 21 (qc 15 1000) (qc 6 100);
     heart_b := box_taps 21 (qc 85 1000) (qc 24 100);
     index_start_breathing := 12;
     index_end_breathing := 48;
     index_start_heart := 68;
     index_end_heart := 192;
     ENABLE_OSC_OUTPUT := true;
     osc_client := true |}.

(** Three antennas, one chirp of 64 samples each. *)
Definition frame : Frame :=
  {| frame_chirps := 1;
     frame_samples := 64;
     frame_data :=
       replicate 3 [map (λ i, Cx (Qc_of_nat i) 1) (seq 0 64)] |}.

Definition start : State := initial_state config 0%Qc.

(** [start] with [n] frames waiting in the queue. *)
Definition loaded (n : nat) : State :=
  foldr (λ _ st, enqueue_frame frame st) start (seq 0 n).

(** One pass on one waiting frame, and five passes on five. *)
Definition after_one : State :=
  default start (process_data_pass 1%Qc (loaded 1)).
Definition five_passes : list event :=
  [Pass 1%Qc; Pass 2%Qc; Pass (Qc_of_Z 3); Pass (Qc_of_Z 4); Pass (Qc_of_Z 5)].
Definition after_five : State := default start (run five_passes (loaded 5)).

(** A target between two bins: the stored peak indices of the last two
    seconds are 42 (11 times) and 43 (29 times), and one frame waits. *)
Definition hopping : State :=
  let b := bufs (loaded 1) in
  with_buffers
    {| radar_time_stamp := radar_time_stamp b;
       slow_time_buffer_data := slow_time_buffer_data b;
       I_Q_envelop := I_Q_envelop b;
       wrapped_phase_plot := wrapped_phase_plot b;
       unwrapped_phase_plot := unwrapped_phase_plot b;
       filtered_breathing_plot := filtered_breathing_plot b;
       filtered_heart_plot := filtered_heart_plot b;
       range_profile_peak_indices :=
         np_zeros 1960 ++ replicate 11 (Qc_of_Z 42)
         ++ replicate 29 (Qc_of_Z 43);
       breathing_rate_estimation_index := breathing_rate_estimation_index b;
       heart_rate_estimation_index := heart_rate_estimation_index b;
       breathing_rate_estimation_value := breathing_rate_estimation_value b;
       heart_rate_estimation_value := heart_rate_estimation_value b |}
    (loaded 1).
Definition hopped : State := default start (process_data_pass 1%Qc hopping).

(** A breathing peak held at bin 23 (0.2875 Hz) for the whole buffer. *)
Definition steady : State :=
  let b := bufs start in
  with_buffers
    {| radar_time_stamp := radar_time_stamp b;
       slow_time_buffer_data := slow_time_buffer_data b;
       I_Q_envelop := I_Q_envelop b;
       wrapped_phase_plot := wrapped_phase_plot b;
       unwrapped_phase_plot := unwrapped_phase_plot b;
       filtered_breathing_plot := filtered_breathing_plot b;
       filtered_heart_plot := filtered_heart_plot b;
       range_profile_peak_indices := range_profile_peak_indices b;
       breathing_rate_estimation_index :=
         replicate buffer_data_size (Qc_of_Z 23);
       heart_rate_estimation_index := heart_rate_estimation_index b;
       breathing_rate_estimation_value := breathing_rate_estimation_value b;
       heart_rate_estimation_value := heart_rate_estimation_value b |}
    start.
Definition steady_rates : list Qc :=
  default []
    (rate_value_update (breathing_rate_estimation_index (bufs steady))
       (breathing_rate_estimation_value (bufs steady))
       estimation_index_breathing).

(** A breathing peak that moved from bin 22 to bin 23 fifty passes ago: the
    estimation span holds 22 (50 times) and 23 (50 times), and one frame
    waits. *)
Definition settling : State :=
  with_breathing_index
    (np_zeros 1900 ++ replicate 50 (Qc_of_Z 22) ++ replicate 50 (Qc_of_Z 23))
    (loaded 1).
Definition settled : State := default start (process_data_pass 1%Qc settling).

(** The same peak 99 passes after the move. *)
Definition holding : State :=
  with_breathing_index
    (np_zeros 1900 ++ [Qc_of_Z 22] ++ replicate 99 (Qc_of_Z 23))
    (loaded 1).
Definition held : State := default start (process_data_pass 1%Qc holding).

(** A read of two frames, a pass, a tick, a new breathing band, a pass and
    a tick. *)
Definition session : list action :=
  [ReadData [frame; frame]; ProcessData 1%Qc; UpdatePlots;
   BreathingRegion (qc 2 10, qc 5 10); ProcessData 2%Qc; UpdatePlots].
End Demo.

(** * Properties *)

(** ** Python sequences *)

Section python_sequence_facts.
Context {A : Type}.
Implicit Types (l : list A) (v : A).

Lemma py_position_nonneg n i :
  (0 ≤ i < Z.of_nat n)%Z → py_position n i = Some (Z.to_nat i).
Proof.
  intros Hi. unfold py_position.
  rewrite (bool_decide_eq_false_2 (i < 0)%Z) by lia.
  by rewrite bool_decide_eq_true_2.
Qed.

Lemma py_position_from_end n k :
  0 < k ≤ n → py_position n (- Z.of_nat k) = Some (n - k).
Proof.
  intros Hk. unfold py_position.
  rewrite (bool_decide_eq_true_2 (- Z.of_nat k < 0)%Z) by lia.
  rewrite bool_decide_eq_true_2 by lia. f_equal. lia.
Qed.

Lemma py_position_lt n i j : py_position n i = Some j → j < n.
Proof.
  unfold py_position. intros Hj.
  repeat case_bool_decide; simplify_eq; lia.
Qed.

Lemma py_getitem_from_end l k :
  0 < k ≤ length l → py_getitem l (- Z.of_nat k) = l !! (length l - k).
Proof. intros Hk. unfold py_getitem. by rewrite py_position_from_end. Qed.

Lemma py_getitem_last l : l ≠ [] → py_getitem l (-1) = last l.
Proof.
  intros Hl. rewrite last_lookup.
  change (-1)%Z with (- Z.of_nat 1)%Z.
  rewrite (py_getitem_from_end l 1); [f_equal; lia|].
  destruct l; [done|simpl; lia].
Qed.

Lemma py_setitem_from_end l k v :
  0 < k ≤ length l →
  py_setitem l (- Z.of_nat k) v = Some (<[length l - k:=v]> l).
Proof. intros Hk. unfold py_setitem. by rewrite py_position_from_end. Qed.

Lemma length_py_setitem l i v l' :
  py_setitem l i v = Some l' → length l' = length l.
Proof.
  unfold py_setitem. intros Hl'. simplify_option_eq. apply length_insert.
Qed.

Lemma py_setitem_is_Some l i v :
  is_Some (py_getitem l i) → is_Some (py_setitem l i v).
Proof.
  unfold py_getitem, py_setitem. intros [x Hx].
  destruct (py_position (length l) i); simplify_option_eq; eauto.
Qed.

Lemma length_np_roll_back k l : length (np_roll_back k l) = length l.
Proof. apply length_rotate. Qed.

Lemma np_roll_back_1 x l : np_roll_back 1 (x :: l) = l ++ [x].
Proof.
  unfold np_roll_back, rotate. destruct l as [|y l]; [done|].
  rewrite Nat.mod_small by (simpl; lia). done.
Qed.

(** Rolling by one and writing the last entry is a push: the oldest entry
    goes, the new one is appended. *)
Lemma roll_setitem_push l v :
  l ≠ [] → py_setitem (np_roll_back 1 l) (-1) v = Some (drop 1 l ++ [v]).
Proof.
  destruct l as [|x l]; [done|intros _]. rewrite np_roll_back_1.
  change (-1)%Z with (- Z.of_nat 1)%Z.
  rewrite (py_setitem_from_end _ 1) by (rewrite length_app; simpl; lia).
  f_equal. rewrite length_app. simpl.
  replace (length l + 1 - 1) with (length l + 0) by lia.
  by rewrite insert_app_r.
Qed.

Lemma roll_getitem_previous l :
  1 < length l → py_getitem (np_roll_back 1 l) (-2) = last l.
Proof.
  destruct l as [|x l]; [simpl; lia|]. simpl. intros Hl.
  rewrite np_roll_back_1.
  change (-2)%Z with (- Z.of_nat 2)%Z.
  rewrite (py_getitem_from_end _ 2) by (rewrite length_app; simpl; lia).
  rewrite length_app. simpl.
  rewrite lookup_app_l by lia. rewrite last_cons.
  rewrite last_lookup. replace (length l + 1 - 2) with (pred (length l)) by lia.
  destruct (l !! pred (length l)) eqn:E; [done|].
  apply lookup_ge_None in E. lia.
Qed.

Lemma py_slice_bound_from_end n k :
  0 < k → py_slice_bound n (- Z.of_nat k) = n - k.
Proof. intros Hk. unfold py_slice_bound. case_bool_decide; lia. Qed.

Lemma py_slice_bound_nonneg n i :
  (0 ≤ i)%Z → py_slice_bound n i = Z.to_nat i `min` n.
Proof. intros Hk. unfold py_slice_bound. case_bool_decide; lia. Qed.

Lemma py_slice_from_end l k :
  0 < k → py_slice_from l (- Z.of_nat k) = drop (length l - k) l.
Proof. intros Hk. unfold py_slice_from. by rewrite py_slice_bound_from_end. Qed.

Lemma length_py_slice_from_end l k :
  0 < k → length (py_slice_from l (- Z.of_nat k)) = k `min` length l.
Proof. intros Hk. rewrite py_slice_from_end, length_drop by done. lia. Qed.

Lemma py_assign_from_end l k vals :
  0 < k → length vals = k `min` length l →
  py_assign_from l (- Z.of_nat k) vals = Some (take (length l - k) l ++ vals).
Proof.
  intros Hk Hv. unfold py_assign_from.
  rewrite py_slice_bound_from_end by done.
  rewrite bool_decide_eq_true_2 by lia. done.
Qed.

Lemma length_py_assign_from l i vals l' :
  py_assign_from l i vals = Some l' → length l' = length l.
Proof.
  assert (py_slice_bound (length l) i ≤ length l).
  { unfold py_slice_bound. case_bool_decide; lia. }
  unfold py_assign_from. intros Hl'.
  case_bool_decide.
  - simplify_eq. rewrite length_app, length_take. lia.
  - destruct vals as [|v [|??]]; simplify_eq.
    rewrite length_app, length_take, length_replicate. lia.
Qed.

(** Rolling by one and assigning the last entry, as the slice assignments
    of the loop do with [counter = 1]. *)
Lemma roll_assign_push l v :
  l ≠ [] →
  py_assign_from (np_roll_back 1 l) (-1) [v] = Some (drop 1 l ++ [v]).
Proof.
  destruct l as [|x l]; [done|intros _]. rewrite np_roll_back_1.
  change (-1)%Z with (- Z.of_nat 1)%Z.
  rewrite (py_assign_from_end _ 1) by (rewrite ?length_app; cbn [length]; lia).
  f_equal. rewrite length_app. cbn [length].
  by rewrite take_app_length' by lia.
Qed.
End python_sequence_facts.

(** ** Rational arithmetic

    Facts about [Qc] are moved to [Q], where [lra] decides linear goals. *)

Lemma Qc_eq_this (x y : Qc) : x = y ↔ (this x == this y)%Q.
Proof. split; [by intros ->|apply Qc_is_canon]. Qed.
Lemma this_Q2Qc (q : Q) : (this (Q2Qc q) == q)%Q.
Proof. apply Qred_correct. Qed.
Lemma this_plus (x y : Qc) : (this (x + y) == this x + this y)%Q.
Proof. apply Qred_correct. Qed.
Lemma this_mult (x y : Qc) : (this (x * y) == this x * this y)%Q.
Proof. apply Qred_correct. Qed.
Lemma this_opp (x : Qc) : (this (- x) == - this x)%Q.
Proof. apply Qred_correct. Qed.
Lemma this_minus (x y : Qc) : (this (x - y) == this x - this y)%Q.
Proof. unfold Qcminus. rewrite this_plus, this_opp. reflexivity. Qed.
Lemma this_inv (x : Qc) : (this (/ x) == / this x)%Q.
Proof. apply Qred_correct. Qed.
Lemma this_div (x y : Qc) : (this (x / y) == this x / this y)%Q.
Proof. unfold Qcdiv. rewrite this_mult, this_inv. reflexivity. Qed.
Lemma this_of_Z (z : Z) : this (Qc_of_Z z) = inject_Z z.
Proof. reflexivity. Qed.
Lemma this_qc n d : (this (qc n d) == n # d)%Q.
Proof. apply Qred_correct. Qed.
Lemma this_two : (this 2%Qc == 2 # 1)%Q.
Proof. reflexivity. Qed.
Lemma this_one : (this 1%Qc == 1 # 1)%Q.
Proof. reflexivity. Qed.
Lemma this_zero : (this 0%Qc == 0 # 1)%Q.
Proof. reflexivity. Qed.

Ltac qc_consts :=
  repeat match goal with
  | |- context [inject_Z ?z] => change (inject_Z z) with (z # 1)
  | H : context [inject_Z ?z] |- _ => change (inject_Z z) with (z # 1) in H
  | |- context [Qinv (Zpos ?n # ?d)] =>
      let v := eval compute in (Qinv (Zpos n # d)) in
      change (Qinv (Zpos n # d)) with v
  | H : context [Qinv (Zpos ?n # ?d)] |- _ =>
      let v := eval compute in (Qinv (Zpos n # d)) in
      change (Qinv (Zpos n # d)) with v in H
  end.

Ltac qc2q :=
  repeat match goal with
  | H : @eq Qc _ _ |- _ => apply Qc_eq_this in H
  | H : ¬ @eq Qc _ _ |- _ => rewrite Qc_eq_this in H
  | |- @eq Qc _ _ => apply Qc_eq_this
  | |- ¬ @eq Qc _ _ => rewrite Qc_eq_this
  end;
  unfold Qclt, Qcle, Qc_of_nat in *;
  repeat (rewrite ?this_two, ?this_one, ?this_zero, ?this_plus, ?this_minus,
            ?this_mult, ?this_opp, ?this_div, ?this_inv, ?this_of_Z, ?this_qc,
            ?this_Q2Qc in * );
  unfold Qdiv in *; qc_consts.

Lemma Qcabs_le (x h : Qc) : (Qcabs x ≤ h ↔ - h ≤ x ≤ h)%Qc.
Proof.
  unfold Qcabs. case_bool_decide; qc2q; split; intros; try split; lra.
Qed.

Lemma Qcabs_lt (x h : Qc) : (Qcabs x < h ↔ - h < x < h)%Qc.
Proof.
  unfold Qcabs. case_bool_decide; qc2q; split; intros; try split; lra.
Qed.

Lemma Qc_of_Z_le (a b : Z) : (a ≤ b)%Z ↔ (Qc_of_Z a ≤ Qc_of_Z b)%Qc.
Proof. unfold Qcle. rewrite !this_of_Z. by rewrite <-Zle_Qle. Qed.

Lemma Qc_of_Z_lt (a b : Z) : (a < b)%Z ↔ (Qc_of_Z a < Qc_of_Z b)%Qc.
Proof. unfold Qclt. rewrite !this_of_Z. by rewrite <-Zlt_Qlt. Qed.

Lemma Qc_of_Z_plus (a b : Z) : Qc_of_Z (a + b) = (Qc_of_Z a + Qc_of_Z b)%Qc.
Proof.
  apply Qc_is_canon. rewrite this_plus, !this_of_Z.
  by rewrite inject_Z_plus.
Qed.

Lemma Qcfloor_spec (x : Qc) :
  (Qc_of_Z (Qcfloor x) ≤ x < Qc_of_Z (Qcfloor x + 1))%Qc.
Proof.
  unfold Qcfloor, Qcle, Qclt. rewrite !this_of_Z.
  split; [apply Qfloor_le|apply Qlt_floor].
Qed.

Lemma Qcfloor_unique (x : Qc) (z : Z) :
  (Qc_of_Z z ≤ x < Qc_of_Z (z + 1))%Qc → Qcfloor x = z.
Proof.
  intros [Hlo Hhi]. destruct (Qcfloor_spec x) as [Flo Fhi].
  assert (z < Qcfloor x + 1)%Z.
  { apply Qc_of_Z_lt. eapply Qcle_lt_trans; eauto. }
  assert (Qcfloor x < z + 1)%Z.
  { apply Qc_of_Z_lt. eapply Qcle_lt_trans; eauto. }
  lia.
Qed.

Lemma Qcfloor_bounds (x : Qc) (lo hi : Z) :
  (Qc_of_Z lo ≤ x)%Qc → (x ≤ Qc_of_Z hi)%Qc → (lo ≤ Qcfloor x ≤ hi)%Z.
Proof.
  intros Hlo Hhi. destruct (Qcfloor_spec x) as [Flo Fhi]. split.
  - assert (lo < Qcfloor x + 1)%Z; [|lia].
    apply Qc_of_Z_lt. eapply Qcle_lt_trans; eauto.
  - apply Qc_of_Z_le. eapply Qcle_trans; eauto.
Qed.

(** On non-negative numbers [int()] is the floor. *)
Lemma py_int_floor (x : Qc) : (0 ≤ x)%Qc → py_int x = Qcfloor x.
Proof.
  intros Hx. unfold py_int, Qcfloor, Qfloor.
  destruct (this x) as [n d] eqn:E. simpl.
  apply Z.quot_div_nonneg; [|lia].
  unfold Qcle in Hx. rewrite E in Hx. unfold Qle in Hx. simpl in Hx. lia.
Qed.

Lemma py_int_Z (z : Z) : py_int (Qc_of_Z z) = z.
Proof. unfold py_int. simpl. apply Z.quot_1_r. Qed.

(** ** Sums and means of bounded arrays *)

Lemma np_sum_bounds (lo hi : Qc) (l : list Qc) :
  Forall (λ x, lo ≤ x ≤ hi)%Qc l →
  (Qc_of_nat (length l) * lo ≤ np_sum l ≤ Qc_of_nat (length l) * hi)%Qc.
Proof.
  induction 1 as [|x l [Hlo Hhi] _ [IHlo IHhi]].
  - change (Qc_of_nat (length [])) with (Qc_of_Z 0).
    change (np_sum []) with 0%Qc. rewrite Z2Qc_inj_0, !Qcmult_0_l.
    split; apply Qcle_refl.
  - cbn [length np_sum foldr].
    change (foldr Qcplus 0%Qc l) with (np_sum l).
    unfold Qc_of_nat in *. rewrite Nat2Z.inj_succ, <-Z.add_1_r, Qc_of_Z_plus.
    rewrite Z2Qc_inj_1.
    revert IHlo IHhi. generalize (Qc_of_Z (Z.of_nat (length l))). intros n ??.
    qc2q. split; nra.
Qed.

Lemma Qc_of_nat_pos (n : nat) : 0 < n → (0 < Qc_of_nat n)%Qc.
Proof.
  intros Hn. rewrite <-Z2Qc_inj_0. unfold Qc_of_nat.
  apply (proj1 (Qc_of_Z_lt 0 (Z.of_nat n))). lia.
Qed.

Lemma np_mean_bounds (lo hi : Qc) (l : list Qc) :
  l ≠ [] → Forall (λ x, lo ≤ x ≤ hi)%Qc l → (lo ≤ np_mean l ≤ hi)%Qc.
Proof.
  intros Hl Hall. destruct (np_sum_bounds lo hi l Hall) as [Hlo Hhi].
  assert (0 < Qc_of_nat (length l))%Qc as Hn.
  { apply Qc_of_nat_pos. destruct l; [done|simpl; lia]. }
  assert (np_mean l * Qc_of_nat (length l) = np_sum l)%Qc as Hmean.
  { unfold np_mean. field. intros E. rewrite E in Hn.
    by apply Qclt_not_eq in Hn. }
  split; apply (Qcmult_le_mono_pos_r _ _ (Qc_of_nat (length l))); try done;
    rewrite Hmean; by rewrite Qcmult_comm.
Qed.

(** The mean of an array of one repeated value. *)
Lemma np_mean_constant (v : Qc) (l : list Qc) :
  l ≠ [] → Forall (λ x, x = v) l → np_mean l = v.
Proof.
  intros Hl Hall. apply Qcle_antisym.
  - apply (np_mean_bounds v v l Hl).
    eapply Forall_impl; [done|]. intros x ->. split; apply Qcle_refl.
  - apply (np_mean_bounds v v l Hl).
    eapply Forall_impl; [done|]. intros x ->. split; apply Qcle_refl.
Qed.

(** ** [np.argmax] *)

Lemma argmax_from_lt best_i best i l :
  best_i < i → argmax_from best_i best i l < i + length l.
Proof.
  revert best_i best i. induction l as [|x l IH]; intros best_i best i Hi.
  - simpl. lia.
  - cbn [argmax_from length]. case_bool_decide.
    + specialize (IH i x (S i)). lia.
    + specialize (IH best_i best (S i)). lia.
Qed.

Lemma np_argmax_lt l g : np_argmax l = Some g → g < length l.
Proof.
  destruct l as [|x l]; [done|]. intros [= <-].
  pose proof (argmax_from_lt 0 x 1 l). simpl. lia.
Qed.

Lemma np_argmax_is_Some l : l ≠ [] → is_Some (np_argmax l).
Proof. destruct l; [done|]. eauto. Qed.

(** ** Slices *)

Section slice_facts.
Context {A : Type}.
Implicit Types (l : list A).

Lemma length_py_slice l (start stop : Z) :
  (0 ≤ start ≤ stop)%Z →
  length (py_slice l start stop)
  = (Z.to_nat stop `min` length l) - (Z.to_nat start `min` length l).
Proof.
  intros Hs. unfold py_slice.
  rewrite !py_slice_bound_nonneg by lia.
  rewrite length_take, length_drop. lia.
Qed.

Lemma py_slice_nonempty l (start stop : Z) :
  (0 ≤ start < stop)%Z → (start < Z.of_nat (length l))%Z →
  py_slice l start stop ≠ [].
Proof.
  intros Hs Hl Hnil. apply (f_equal length) in Hnil.
  rewrite length_py_slice in Hnil by lia. simpl in Hnil. lia.
Qed.

Lemma py_getitem_nonneg l (i : Z) :
  (0 ≤ i < Z.of_nat (length l))%Z → py_getitem l i = l !! Z.to_nat i.
Proof. intros Hi. unfold py_getitem. by rewrite py_position_nonneg. Qed.

Lemma py_slice_from_nonneg l (i : nat) :
  py_slice_from l (Z.of_nat i) = drop i l.
Proof.
  unfold py_slice_from. rewrite py_slice_bound_nonneg by lia.
  rewrite Nat2Z.id. destruct (decide (i ≤ length l)).
  - by rewrite Nat.min_l.
  - rewrite Nat.min_r by lia. by rewrite !drop_ge by lia.
Qed.
End slice_facts.

(** ** Constants *)

Lemma vital_signs_sample_rate_eq : vital_signs_sample_rate = 20.
Proof. reflexivity. Qed.
Lemma buffer_data_size_eq : buffer_data_size = 2000.
Proof. reflexivity. Qed.
Lemma processing_data_size_eq : processing_data_size = 400.
Proof. reflexivity. Qed.
Lemma fft_size_vital_signs_eq : fft_size_vital_signs = 1600.
Proof. reflexivity. Qed.
Lemma fft_size_range_profile_eq : fft_size_range_profile = 128.
Proof. reflexivity. Qed.
Lemma estimation_index_breathing_eq : estimation_index_breathing = 1900.
Proof. reflexivity. Qed.
Lemma estimation_index_heart_eq : estimation_index_heart = 1900.
Proof. reflexivity. Qed.

(** ** The stages of a pass *)

Section stage_facts.
Context `{DspLibraryLaws}.

Lemma stamp_time_push (time_passed : Qc) (ts : list Qc) :
  1 < length ts →
  ∃ x, last ts = Some x
       ∧ stamp_time time_passed ts = Some (drop 1 ts ++ [(x + time_passed)%Qc]).
Proof.
  intros Hts. unfold stamp_time. rewrite roll_getitem_previous by done.
  destruct (last ts) as [x|] eqn:E.
  - exists x. split; [done|]. simpl. apply roll_setitem_push.
    by intros ->.
  - apply last_None in E. subst. simpl in Hts. lia.
Qed.

Lemma length_sum_rows (n : nat) (rows : list (list complex)) :
  Forall (λ r, length r = n) rows →
  length (foldr (zip_with Cadd) (np_czeros n) rows) = n.
Proof.
  induction 1 as [|r rows Hr _ IH]; simpl.
  - apply length_replicate.
  - rewrite length_zip_with, IH, Hr. lia.
Qed.

Lemma range_fft_of_antenna_ok (samples : nat) (mat : list (list complex)) :
  0 < length mat → samples ≤ fft_size_range_profile →
  ∃ temp, range_fft_of_antenna samples mat = Some temp
          ∧ length temp = fft_size_range_profile / 2.
Proof.
  intros Hrows Hfit. unfold range_fft_of_antenna, np_average_rows.
  rewrite (option_guard_True (0 < length mat)) by exact Hrows.
  cbn [mbind option_bind].
  rewrite (option_guard_True (samples ≤ fft_size_range_profile))
    by exact Hfit.
  eexists. split; [reflexivity|].
  apply length_sum_rows.
  rewrite !Forall_fmap. apply Forall_forall. intros row _. simpl.
  rewrite length_fmap, length_take, length_fmap, length_np_fft.
  rewrite fft_size_range_profile_eq. reflexivity.
Qed.

Lemma frame_ok_antenna (frame : Frame) (i : nat) (mat : list (list complex)) :
  frame_ok frame → frame_data frame !! i = Some mat → 0 < length mat.
Proof.
  intros (Harray & _ & Hchirps & _) Hmat.
  unfold frame_array in Harray. rewrite Forall_lookup in Harray.
  destruct (Harray i mat Hmat) as [Hrows _]. lia.
Qed.

Lemma accumulate_antennas (frame : Frame) (ants : list nat)
    (acc : list complex) :
  frame_ok frame →
  Forall (λ i, i < length (frame_data frame)) ants →
  length acc = fft_size_range_profile / 2 →
  ∃ buf,
    foldl (λ acc iAnt,
             range_fft_antennas_buffer ← acc;
             mat ← frame_data frame !! iAnt;
             temp_range_fft ← range_fft_of_antenna (frame_samples frame) mat;
             Some (zip_with Cadd temp_range_fft range_fft_antennas_buffer))
          (Some acc) ants = Some buf
    ∧ length buf = fft_size_range_profile / 2.
Proof.
  intros Hok Hants. revert acc.
  induction Hants as [|i ants Hi _ IH]; intros acc Hacc; simpl.
  - eauto.
  - destruct (lookup_lt_is_Some_2 _ _ Hi) as [mat Hmat]. rewrite Hmat. simpl.
    destruct (range_fft_of_antenna_ok (frame_samples frame) mat)
      as (temp & -> & Htemp).
    { by eapply frame_ok_antenna. }
    { destruct Hok as (_ & _ & _ & Hsamples). lia. }
    simpl. apply IH. rewrite length_zip_with, Htemp. lia.
Qed.

(** The front end returns a profile of [fft_size_range_profile / 2] bins
    for every frame it can process. *)
Lemma range_fft_of_frame_ok (frame : Frame) :
  frame_ok frame →
  ∃ profile, range_fft_of_frame frame = Some profile
             ∧ length profile = fft_size_range_profile / 2.
Proof.
  intros Hok. pose proof Hok as (_ & Hants & _).
  destruct (accumulate_antennas frame (seq 0 num_rx_antennas)
              (np_czeros (fft_size_range_profile / 2)) Hok)
    as (buf & Hbuf & Hlen).
  { apply Forall_forall. intros i Hi%elem_of_seq. lia. }
  { apply length_replicate. }
  eexists. split.
  - unfold range_fft_of_frame. cbv zeta.
    apply bind_Some. exists buf. split; [exact Hbuf|done].
  - by rewrite length_fmap.
Qed.

(** The tracked bin: the gate maximum is pushed into the peak-index
    buffer, the mean of its last [2 * vital_signs_sample_rate] entries is
    truncated, and the profile sample at that bin is pushed into the
    slow-time buffer with its magnitude. *)
Lemma track_range_bin_ok (c : Config) (profile : list complex) (b : Buffers) :
  buffers_sized b → peak_indices_in_profile b → gate_valid c →
  length profile = fft_size_range_profile / 2 →
  ∃ gate_peak sample peak_indices,
    np_argmax (py_slice (map np_abs profile) (start_index_range c)
                        (stop_index_range c)) = Some gate_peak
    ∧ peak_indices
      = drop 1 (range_profile_peak_indices b)
        ++ [Qc_of_Z (Z.of_nat gate_peak + start_index_range c)]
    ∧ Forall (λ x, 0 ≤ x ≤ Qc_of_nat (fft_size_range_profile / 2 - 1))%Qc
             peak_indices
    ∧ (if max_index_processing c
       then py_getitem profile
              (py_int (np_mean (py_slice_from peak_indices
                                  (-2 * Z.of_nat vital_signs_sample_rate))))
            = Some sample
       else sample = np_cmean (py_slice profile (start_index_range c)
                                        (stop_index_range c)))
    ∧ track_range_bin c profile b
      = Some {| tracked_abs := map np_abs profile;
                tracked_peak_indices := peak_indices;
                tracked_peak_index :=
                  py_int (np_mean (py_slice_from peak_indices
                                     (-2 * Z.of_nat vital_signs_sample_rate)));
                tracked_slow_time :=
                  drop 1 (slow_time_buffer_data b) ++ [sample];
                tracked_envelop := drop 1 (I_Q_envelop b) ++ [np_abs sample] |}.
Proof.
  intros Hsized Hpeaks [Hgate Hstart] Hprofile.
  destruct Hsized as (_ & Hslow & Henv & _ & _ & _ & _ & Hpk & _).
  rewrite buffer_data_size_eq in *.
  assert (py_slice (map np_abs profile) (start_index_range c)
            (stop_index_range c) ≠ []) as Hne.
  { apply py_slice_nonempty; [lia|]. rewrite length_fmap, Hprofile. lia. }
  destruct (np_argmax_is_Some _ Hne) as [gate_peak Hargmax].
  pose proof (np_argmax_lt _ _ Hargmax) as Hlt.
  rewrite length_py_slice, length_fmap, Hprofile in Hlt by lia.
  set (peak_indices := drop 1 (range_profile_peak_indices b)
        ++ [Qc_of_Z (Z.of_nat gate_peak + start_index_range c)]).
  assert (Forall (λ x, 0 ≤ x ≤ Qc_of_nat (fft_size_range_profile / 2 - 1))%Qc
            peak_indices) as Hall.
  { apply Forall_app. split; [by apply Forall_drop|].
    apply Forall_singleton. rewrite <-Z2Qc_inj_0. unfold Qc_of_nat.
    rewrite <-!Qc_of_Z_le. lia. }
  set (mean_index := np_mean (py_slice_from peak_indices
                                (-2 * Z.of_nat vital_signs_sample_rate))).
  assert (0 ≤ mean_index ≤ Qc_of_nat (fft_size_range_profile / 2 - 1))%Qc
    as [Hlo Hhi].
  { apply np_mean_bounds.
    - intros Hnil. apply (f_equal length) in Hnil. revert Hnil.
      change (-2 * Z.of_nat vital_signs_sample_rate)%Z
        with (- Z.of_nat (2 * vital_signs_sample_rate))%Z.
      rewrite length_py_slice_from_end by (rewrite vital_signs_sample_rate_eq; lia).
      unfold peak_indices. rewrite length_app, length_drop, Hpk.
      rewrite vital_signs_sample_rate_eq. simpl. lia.
    - unfold py_slice_from. by apply Forall_drop. }
  assert (0 ≤ py_int mean_index < Z.of_nat (fft_size_range_profile / 2))%Z
    as Hidx.
  { rewrite py_int_floor by done.
    destruct (Qcfloor_bounds mean_index 0
                (Z.of_nat (fft_size_range_profile / 2 - 1)))
      as [Hfloor_lo Hfloor_hi]; [by rewrite Z2Qc_inj_0|done|].
    change (fft_size_range_profile / 2) with 64 in Hfloor_hi |- *. lia. }
  assert (∃ sample,
    (if max_index_processing c
     then py_getitem profile (py_int mean_index)
     else Some (np_cmean (py_slice profile (start_index_range c)
                                   (stop_index_range c)))) = Some sample)
    as [sample Hsample].
  { destruct (max_index_processing c); [|eauto].
    rewrite py_getitem_nonneg by (rewrite Hprofile; lia).
    apply lookup_lt_is_Some_2. rewrite Hprofile. lia. }
  exists gate_peak, sample, peak_indices.
  split_and!; [done|done|done| |].
  { destruct (max_index_processing c); [done|congruence]. }
  unfold track_range_bin. rewrite Hargmax. simpl.
  rewrite roll_setitem_push by (intros E; rewrite E in Hpk; done).
  simpl. fold peak_indices. fold mean_index. rewrite Hsample. simpl.
  rewrite roll_setitem_push by (intros E; rewrite E in Hslow; done).
  simpl.
  rewrite py_getitem_last by (by destruct (drop 1 (slow_time_buffer_data b))).
  rewrite last_snoc. simpl.
  rewrite roll_setitem_push by (intros E; rewrite E in Henv; done).
  done.
Qed.
End stage_facts.

(** ** [np.unwrap] *)

Lemma np_mod_range (x m : Qc) : (0 < m)%Qc → (0 ≤ np_mod x m < m)%Qc.
Proof.
  intros Hm. unfold np_mod.
  destruct (Qcfloor_spec (x / m)) as [Flo Fhi].
  rewrite Qc_of_Z_plus, Z2Qc_inj_1 in Fhi.
  assert (x / m * m = x)%Qc as Hq.
  { field. intros E. rewrite E in Hm. by apply Qclt_not_eq in Hm. }
  revert Flo Fhi Hq. generalize (Qc_of_Z (Qcfloor (x / m))) (x / m)%Qc.
  intros f q Flo Fhi Hq. qc2q. split; nra.
Qed.

Lemma np_mod_0 (m : Qc) : np_mod 0 m = 0%Qc.
Proof.
  unfold np_mod. replace (0 / m)%Qc with 0%Qc by (unfold Qcdiv; ring).
  change (Qcfloor 0) with 0%Z. rewrite Z2Qc_inj_0. ring.
Qed.

Lemma np_mod_self (m : Qc) : (0 < m)%Qc → np_mod m m = 0%Qc.
Proof.
  intros Hm. unfold np_mod.
  replace (m / m)%Qc with 1%Qc.
  - change (Qcfloor 1) with 1%Z. rewrite Z2Qc_inj_1. ring.
  - field. intros E. rewrite E in Hm. by apply Qclt_not_eq in Hm.
Qed.

Lemma unwrap_ddmod_range (period dd : Qc) :
  (0 < period)%Qc →
  (- (period / 2) ≤ unwrap_ddmod period dd ≤ period / 2)%Qc.
Proof.
  intros Hp. unfold unwrap_ddmod.
  destruct (np_mod_range (dd - - (period / 2)) period Hp) as [Hlo Hhi].
  revert Hlo Hhi. generalize (np_mod (dd - - (period / 2)) period).
  intros r Hlo Hhi.
  destruct (bool_decide _ && bool_decide _); qc2q; split; lra.
Qed.

(** A step that is already within half a period gets no correction. *)
Lemma unwrap_ph_correct_small (period dd : Qc) :
  (0 < period)%Qc → (Qcabs dd ≤ period / 2)%Qc →
  unwrap_ph_correct period dd = 0%Qc.
Proof.
  intros Hp Hdd. unfold unwrap_ph_correct. case_bool_decide as Hlt; [done|].
  apply Qcabs_le in Hdd as [Hlo Hhi].
  rewrite Qcabs_lt in Hlt.
  assert (dd = period / 2 ∨ dd = - (period / 2))%Qc as [->| ->].
  { destruct (decide (dd = period / 2)%Qc) as [|Hne1]; [by left|].
    destruct (decide (dd = - (period / 2))%Qc) as [|Hne2]; [by right|].
    exfalso. apply Hlt. clear Hlt. qc2q. split; lra. }
  - unfold unwrap_ddmod.
    replace (period / 2 - - (period / 2))%Qc with period by (qc2q; lra).
    rewrite np_mod_self, Qcplus_0_l by done.
    rewrite bool_decide_eq_true_2 by done.
    rewrite bool_decide_eq_true_2 by (qc2q; lra).
    simpl. ring.
  - unfold unwrap_ddmod.
    replace (- (period / 2) - - (period / 2))%Qc with 0%Qc by (qc2q; lra).
    rewrite np_mod_0, Qcplus_0_l.
    rewrite bool_decide_eq_true_2 by done.
    rewrite bool_decide_eq_false_2 by (qc2q; lra).
    simpl. ring.
Qed.

(** After correction every step is within half a period. *)
Lemma unwrap_ph_correct_step (period dd : Qc) :
  (0 < period)%Qc →
  (Qcabs (dd + unwrap_ph_correct period dd) ≤ period / 2)%Qc.
Proof.
  intros Hp. unfold unwrap_ph_correct. case_bool_decide as Hlt.
  - rewrite Qcplus_0_r. apply Qcabs_lt in Hlt as [??].
    apply Qcabs_le. split; by apply Qclt_le_weak.
  - replace (dd + (unwrap_ddmod period dd - dd))%Qc
      with (unwrap_ddmod period dd) by ring.
    apply Qcabs_le. by apply unwrap_ddmod_range.
Qed.

Lemma np_diff_cons_cons (a b : Qc) (l : list Qc) :
  np_diff (a :: b :: l) = (b - a)%Qc :: np_diff (b :: l).
Proof. reflexivity. Qed.

Lemma bounded_steps_cons_cons (h a b : Qc) (l : list Qc) :
  bounded_steps h (a :: b :: l)
  ↔ (Qcabs (b - a) ≤ h)%Qc ∧ bounded_steps h (b :: l).
Proof. unfold bounded_steps. rewrite np_diff_cons_cons. by rewrite Forall_cons. Qed.

Lemma bounded_steps_tail (h a : Qc) (l : list Qc) :
  bounded_steps h (a :: l) → bounded_steps h l.
Proof.
  destruct l as [|b l]; [intros _; apply Forall_nil_2|].
  by intros [_ ?]%bounded_steps_cons_cons.
Qed.

Lemma bounded_steps_drop (h : Qc) (k : nat) (l : list Qc) :
  bounded_steps h l → bounded_steps h (drop k l).
Proof.
  revert l. induction k as [|k IH]; intros l Hl; [by rewrite drop_0|].
  destruct l as [|a l]; [done|]. simpl. apply IH.
  by eapply bounded_steps_tail.
Qed.

Lemma np_unwrap_period_cons (period x : Qc) (l : list Qc) :
  np_unwrap_period period (x :: l) = x :: unwrap_from period 0 x l.
Proof.
  unfold np_unwrap_period, np_cumsum. simpl. f_equal. unfold np_diff. simpl.
  generalize 0%Qc. revert x.
  induction l as [|y l IH]; intros x acc; [done|].
  simpl. f_equal. apply IH.
Qed.

Lemma length_unwrap_from (period acc prev : Qc) (l : list Qc) :
  length (unwrap_from period acc prev l) = length l.
Proof.
  revert acc prev. induction l as [|x l IH]; intros acc prev; [done|].
  simpl. by rewrite IH.
Qed.

Lemma length_np_unwrap_period (period : Qc) (p : list Qc) :
  length (np_unwrap_period period p) = length p.
Proof.
  destruct p as [|x l]; [done|].
  rewrite np_unwrap_period_cons. simpl. by rewrite length_unwrap_from.
Qed.

Lemma length_np_unwrap (p : list Qc) : length (np_unwrap p) = length p.
Proof. apply length_np_unwrap_period. Qed.

Lemma unwrap_from_bounded (period acc prev : Qc) (l : list Qc) :
  (0 < period)%Qc →
  bounded_steps (period / 2) ((prev + acc)%Qc :: unwrap_from period acc prev l).
Proof.
  intros Hp. revert acc prev.
  induction l as [|x l IH]; intros acc prev; [apply Forall_nil_2|].
  simpl. apply bounded_steps_cons_cons. split; [|apply IH].
  replace (x + (acc + unwrap_ph_correct period (x - prev)) - (prev + acc))%Qc
    with ((x - prev) + unwrap_ph_correct period (x - prev))%Qc by ring.
  by apply unwrap_ph_correct_step.
Qed.

(** The output of [np.unwrap] has no step beyond half a period. *)
Lemma np_unwrap_period_bounded (period : Qc) (p : list Qc) :
  (0 < period)%Qc → bounded_steps (period / 2) (np_unwrap_period period p).
Proof.
  intros Hp. destruct p as [|x l]; [apply Forall_nil_2|].
  rewrite np_unwrap_period_cons.
  rewrite <-(Qcplus_0_r x) at 1. by apply unwrap_from_bounded.
Qed.

Lemma unwrap_from_fixed (period prev : Qc) (l : list Qc) :
  (0 < period)%Qc → bounded_steps (period / 2) (prev :: l) →
  unwrap_from period 0 prev l = l.
Proof.
  intros Hp. revert prev.
  induction l as [|x l IH]; intros prev Hl; [done|].
  apply bounded_steps_cons_cons in Hl as [Hstep Hl]. simpl.
  rewrite unwrap_ph_correct_small by done.
  rewrite !Qcplus_0_r. f_equal. by apply IH.
Qed.

(** [np.unwrap] leaves an unwrapped trace as it is. *)
Lemma np_unwrap_period_fixed (period : Qc) (p : list Qc) :
  (0 < period)%Qc → bounded_steps (period / 2) p →
  np_unwrap_period period p = p.
Proof.
  intros Hp Hb. destruct p as [|x l]; [done|].
  rewrite np_unwrap_period_cons. f_equal. by apply unwrap_from_fixed.
Qed.

Lemma unwrap_from_snoc (period acc prev w : Qc) (l : list Qc) :
  ∃ w', unwrap_from period acc prev (l ++ [w])
        = unwrap_from period acc prev l ++ [w'].
Proof.
  revert acc prev. induction l as [|x l IH]; intros acc prev; simpl.
  - eauto.
  - destruct (IH (acc + unwrap_ph_correct period (x - prev))%Qc x)
      as [w' ->]. eauto.
Qed.

(** Unwrapping an unwrapped trace extended by one new value only places
    the new value. *)
Lemma np_unwrap_period_snoc (period w : Qc) (p : list Qc) :
  (0 < period)%Qc → p ≠ [] → bounded_steps (period / 2) p →
  ∃ w', np_unwrap_period period (p ++ [w]) = p ++ [w'].
Proof.
  intros Hp Hne Hb. destruct p as [|x l]; [done|].
  rewrite <-app_comm_cons, np_unwrap_period_cons.
  destruct (unwrap_from_snoc period 0 x w l) as [w' ->].
  exists w'. by rewrite unwrap_from_fixed.
Qed.

Lemma np_pi_pos : (0 < 2 * np_pi)%Qc.
Proof. done. Qed.

Lemma np_pi_half : (2 * np_pi / 2)%Qc = np_pi.
Proof. by apply Qc_is_canon. Qed.

Section stage_facts_phase.
Context `{DspLibraryLaws}.

Lemma py_slice_from_last_snoc {A} (l : list A) (x : A) :
  py_slice_from (l ++ [x]) (- Z.of_nat 1) = [x].
Proof.
  rewrite py_slice_from_end by lia. rewrite length_app. cbn [length].
  by rewrite drop_app_length' by lia.
Qed.

(** The phase stage with [counter = 1]: the wrapped phase of the newest
    sample is pushed into both phase buffers, then the last
    [processing_data_size] entries of the unwrapped buffer are replaced
    by their unwrapping. *)
Lemma unwrap_phase_one (slow : list complex) (z : complex)
    (wrapped unwrapped : list Qc) :
  length wrapped = buffer_data_size → length unwrapped = buffer_data_size →
  unwrap_phase 1 (slow ++ [z]) wrapped unwrapped
  = Some (drop 1 wrapped ++ [np_angle z],
          take (buffer_data_size - processing_data_size) (drop 1 unwrapped)
          ++ np_unwrap (drop (buffer_data_size - processing_data_size)
                             (drop 1 unwrapped ++ [np_angle z]))).
Proof.
  rewrite buffer_data_size_eq, processing_data_size_eq.
  intros Hw Hu. unfold unwrap_phase.
  rewrite py_slice_from_last_snoc. cbn [map fmap list_fmap].
  change [np_angle z] with ([] ++ [np_angle z]) at 1.
  rewrite py_slice_from_last_snoc.
  rewrite (roll_assign_push wrapped) by (intros E; by rewrite E in Hw).
  cbn [mbind option_bind]. rewrite py_slice_from_last_snoc.
  rewrite (roll_assign_push unwrapped) by (intros E; by rewrite E in Hu).
  cbn [mbind option_bind].
  rewrite processing_data_size_eq.
  assert (length (drop 1 unwrapped ++ [np_angle z]) = 2000) as Hlen.
  { rewrite length_app, length_drop, Hu. simpl. lia. }
  rewrite py_slice_from_end by lia.
  rewrite py_assign_from_end.
  - cbn [mbind option_bind]. rewrite Hlen.
    rewrite take_app_le by (rewrite length_drop; lia). done.
  - lia.
  - rewrite length_np_unwrap, length_drop. lia.
Qed.

(** On an unwrapped window the recomputation only places the newest
    value: the stage is a push. *)
Lemma unwrap_window_push (unwrapped : list Qc) (a : Qc) :
  length unwrapped = buffer_data_size →
  bounded_steps np_pi
    (drop (buffer_data_size - processing_data_size) unwrapped) →
  ∃ w',
    take (buffer_data_size - processing_data_size) (drop 1 unwrapped)
    ++ np_unwrap (drop (buffer_data_size - processing_data_size)
                       (drop 1 unwrapped ++ [a]))
    = drop 1 unwrapped ++ [w']
    ∧ bounded_steps np_pi
        (drop (buffer_data_size - processing_data_size)
              (drop 1 unwrapped ++ [w'])).
Proof.
  rewrite buffer_data_size_eq, processing_data_size_eq.
  intros Hu Hb.
  rewrite drop_app_le by (rewrite length_drop; lia).
  destruct (np_unwrap_period_snoc (2 * np_pi) a
              (drop (2000 - 400) (drop 1 unwrapped))) as [w' Hw'].
  - apply np_pi_pos.
  - intros E. apply (f_equal length) in E. rewrite !length_drop in E.
    simpl in E. lia.
  - rewrite np_pi_half, drop_drop.
    replace (1 + (2000 - 400)) with ((2000 - 400) + 1) by lia.
    rewrite <-drop_drop. by apply bounded_steps_drop.
  - exists w'. unfold np_unwrap. rewrite Hw'. split.
    + by rewrite app_assoc, take_drop.
    + rewrite drop_app_le by (rewrite length_drop; lia).
      rewrite <-Hw', <-np_pi_half. apply np_unwrap_period_bounded, np_pi_pos.
Qed.

(** The filter stage with [counter = 1] pushes the newest filtered sample
    into each of the two filtered buffers. *)
Lemma filter_bank_one (c : Config) (unwrapped fb fh : list Qc) :
  length unwrapped = buffer_data_size →
  length fb = buffer_data_size → length fh = buffer_data_size →
  ∃ vb vh,
    filter_bank c 1 unwrapped fb fh
    = Some (drop 1 fb ++ [vb], drop 1 fh ++ [vh]).
Proof.
  rewrite buffer_data_size_eq. intros Hu Hb Hh. unfold filter_bank.
  rewrite processing_data_size_eq.
  set (window := py_slice_from unwrapped (- Z.of_nat 400)).
  assert (length window = 400) as Hwin.
  { unfold window. rewrite length_py_slice_from_end by lia. lia. }
  match goal with
  | |- context [uniform_filter1d ?x 5] => set (filtered_breathing := x)
  end.
  assert (length (uniform_filter1d filtered_breathing 5) = 400) as Hfb.
  { rewrite length_uniform_filter1d. unfold filtered_breathing.
    case_bool_decide; rewrite ?length_savgol_filter, length_lfilter; done. }
  destruct (hpfilter window (Qc_of_nat (3 * vital_signs_sample_rate)))
    as [cycle2 trend] eqn:Ehp.
  assert (length (lfilter (heart_b c) cycle2) = 400) as Hfh.
  { rewrite length_lfilter.
    pose proof (length_hpfilter_cycle window
                  (Qc_of_nat (3 * vital_signs_sample_rate))) as Hc.
    rewrite Ehp in Hc. simpl in Hc. lia. }
  destruct (uniform_filter1d filtered_breathing 5) as [|b0 lb _] eqn:Eb
    using rev_ind; [done|].
  destruct (lfilter (heart_b c) cycle2) as [|h0 lh _] eqn:Eh
    using rev_ind; [done|].
  exists b0, h0.
  rewrite !py_slice_from_last_snoc.
  rewrite (roll_assign_push fb) by (intros E; by rewrite E in Hb).
  cbn [mbind option_bind].
  rewrite (roll_assign_push fh) by (intros E; by rewrite E in Hh).
  done.
Qed.
End stage_facts_phase.

Section stage_facts_rate.
Context `{DspLibraryLaws}.

Lemma py_setitem_last_snoc {A} (l : list A) (x v : A) :
  py_setitem (l ++ [x]) (-1) v = Some (l ++ [v]).
Proof.
  change (-1)%Z with (- Z.of_nat 1)%Z.
  rewrite py_setitem_from_end by (rewrite length_app; cbn [length]; lia).
  f_equal. rewrite length_app. cbn [length].
  replace (length l + 1 - 1) with (length l + 0) by lia.
  by rewrite insert_app_r.
Qed.

(** The window applied to [data]: entry by entry, a one-entry [data]
    being repeated along the window. *)
Lemma windowed_signal_ok (data : list complex) (n : nat) :
  length data = n ∨ length data = 1 →
  ∃ windowed,
    np_elementwise (λ x w, Cscale w x) data (blackmanharris n) = Some windowed
    ∧ length windowed = n.
Proof.
  intros Hdata. unfold np_elementwise. rewrite length_blackmanharris.
  destruct (decide (length data = n)) as [Hn|Hn].
  - rewrite bool_decide_eq_true_2 by exact Hn.
    eexists. split; [reflexivity|].
    rewrite length_zip_with, length_blackmanharris. lia.
  - rewrite bool_decide_eq_false_2 by exact Hn.
    destruct Hdata as [?|Hone]; [done|].
    destruct data as [|x [|? ?]]; [done| |done].
    eexists. split; [reflexivity|].
    by rewrite length_fmap, length_blackmanharris.
Qed.

Lemma vital_signs_fft_returns (data : list complex) (nFFT n : nat) :
  length data = n ∨ length data = 1 → n ≤ nFFT → 0 < nFFT →
  ∃ s, vital_signs_fft data nFFT n = Some s ∧ length s = nFFT.
Proof.
  intros Hdata Hfit Hpos. unfold vital_signs_fft.
  destruct (windowed_signal_ok data n Hdata) as (windowed & -> & Hw).
  cbn [mbind option_bind]. unfold py_assign_to.
  assert (py_slice_bound (length (np_czeros nFFT)) (Z.of_nat n) = n) as ->.
  { rewrite py_slice_bound_nonneg by lia.
    unfold np_czeros. rewrite length_replicate. lia. }
  rewrite bool_decide_eq_true_2 by exact Hw.
  cbn [mbind option_bind].
  rewrite (option_guard_True (0 < nFFT)) by exact Hpos.
  eexists. split; [reflexivity|].
  by rewrite length_fmap, length_np_fft.
Qed.

Lemma vital_signs_fft_ok (data : list complex) :
  length data = processing_data_size →
  ∃ s, vital_signs_fft data fft_size_vital_signs processing_data_size = Some s
       ∧ length s = fft_size_vital_signs.
Proof.
  intros Hdata. apply vital_signs_fft_returns; [by left|..].
  - rewrite processing_data_size_eq, fft_size_vital_signs_eq. lia.
  - rewrite fft_size_vital_signs_eq. lia.
Qed.

Lemma vital_signs_spectra_ok (slow : list complex) (u fb fh : list Qc) :
  length slow = buffer_data_size → length u = buffer_data_size →
  length fb = buffer_data_size → length fh = buffer_data_size →
  ∃ sp, vital_signs_spectra slow u fb fh = Some sp
        ∧ length (breathing_fft sp) = fft_size_vital_signs
        ∧ length (heart_fft sp) = fft_size_vital_signs.
Proof.
  intros Hs Hu Hb Hh. unfold vital_signs_spectra.
  assert (0 < processing_data_size) by (rewrite processing_data_size_eq; lia).
  assert (processing_data_size `min` buffer_data_size = processing_data_size).
  { rewrite processing_data_size_eq, buffer_data_size_eq. lia. }
  destruct (vital_signs_fft_ok
              (py_slice_from slow (- Z.of_nat processing_data_size)))
    as (s1 & -> & _).
  { rewrite length_py_slice_from_end by done. by rewrite Hs. }
  destruct (vital_signs_fft_ok
              (map Creal (py_slice_from u (- Z.of_nat processing_data_size))))
    as (s2 & -> & _).
  { rewrite length_fmap, length_py_slice_from_end by done. by rewrite Hu. }
  destruct (vital_signs_fft_ok
              (map Creal (py_slice_from fb (- Z.of_nat processing_data_size))))
    as (s3 & -> & Hs3).
  { rewrite length_fmap, length_py_slice_from_end by done. by rewrite Hb. }
  destruct (vital_signs_fft_ok
              (map Creal (py_slice_from fh (- Z.of_nat processing_data_size))))
    as (s4 & -> & Hs4).
  { rewrite length_fmap, length_py_slice_from_end by done. by rewrite Hh. }
  cbn [mbind option_bind]. eauto.
Qed.

(** The peak picker returns: a bin, or 0 for "no peak". *)
Lemma find_signal_peaks_total (fft : list Qc) (index_start index_end : Z)
    (distance : Qc) :
  is_Some (find_signal_peaks fft index_start index_end distance).
Proof.
  unfold find_signal_peaks.
  set (region := py_slice fft index_start index_end).
  match goal with
  | |- context [find_peaks region ?d None None] =>
      set (peaks := find_peaks region d None None);
      pose proof (find_peaks_lt region d None None) as Hlt; fold peaks in Hlt
  end.
  case_bool_decide as Hne; [|eauto].
  assert (is_Some (py_take_indices region peaks)) as [heights Hheights].
  { unfold py_take_indices. apply mapM_is_Some.
    eapply Forall_impl; [exact Hlt|]. intros i Hi. simpl.
    by apply lookup_lt_is_Some_2. }
  rewrite Hheights. cbn [mbind option_bind].
  assert (length heights = length peaks) as Hlen.
  { unfold py_take_indices in Hheights. symmetry. by eapply length_mapM. }
  destruct (np_argmax heights) as [best|] eqn:Ebest.
  - cbn [mbind option_bind].
    apply np_argmax_lt in Ebest. rewrite Hlen in Ebest.
    destruct (lookup_lt_is_Some_2 _ _ Ebest) as [peak ->].
    cbn [mbind option_bind]. eauto.
  - destruct heights; [simpl in Hlen; lia|done].
Qed.

(** Without a peak in the searched band the peak picker returns 0. *)
Lemma find_signal_peaks_no_peak (fft : list Qc) (index_start index_end : Z)
    (distance : Qc) :
  find_peaks (py_slice fft index_start index_end)
    (Z.to_nat (py_int (Qcmax 1 (distance * Qc_of_nat fft_size_vital_signs
                                 / Qc_of_nat vital_signs_sample_rate))))
    None None = [] →
  find_signal_peaks fft index_start index_end distance = Some 0%Z.
Proof. intros Hnone. unfold find_signal_peaks. by rewrite Hnone. Qed.

(** The rate-index stage is a push of the picked bin, or of the previous
    newest entry when the picker returned 0. *)
Lemma rate_index_update_ok (idx fft : list Qc) (index_start index_end : Z) :
  1 < length idx →
  ∃ rate_index previous,
    find_signal_peaks fft index_start index_end peak_finding_distance
    = Some rate_index
    ∧ last idx = Some previous
    ∧ rate_index_update idx fft index_start index_end
      = Some (drop 1 idx
              ++ [if bool_decide (rate_index ≠ 0%Z) then Qc_of_Z rate_index
                  else previous]).
Proof.
  intros Hidx.
  destruct (find_signal_peaks_total fft index_start index_end
              peak_finding_distance) as [rate_index Hrate].
  destruct (last idx) as [previous|] eqn:Elast.
  2:{ apply last_None in Elast. subst. simpl in Hidx. lia. }
  exists rate_index, previous. split_and!; [done..|].
  unfold rate_index_update.
  rewrite roll_getitem_previous, Elast by done. cbn [mbind option_bind].
  rewrite roll_setitem_push
    by (intros E; rewrite E in Hidx; simpl in Hidx; lia).
  cbn [mbind option_bind]. rewrite Hrate. cbn [mbind option_bind].
  case_bool_decide; [|done]. apply py_setitem_last_snoc.
Qed.

(** With [counter = 1] the detector is not called. *)
Lemma breath_cycle_update_one (ts fb : list Qc) (old : BreathPoints) :
  breath_cycle_update 1 ts fb old = Some old.
Proof. reflexivity. Qed.
End stage_facts_rate.

(** ** One pass on a ready state *)

Section pass_facts.
Context `{DspLibraryLaws}.

Lemma length_push {A} (l : list A) (v : A) (n : nat) :
  length l = n → 0 < n → length (drop 1 l ++ [v]) = n.
Proof. intros <- ?. rewrite length_app, length_drop. simpl. lia. Qed.

(** A pass on a ready state with a frame in the queue returns, in a ready
    state, with the effect described by [pass_effect]. *)
Lemma process_data_pass_ready (current_time : Qc) (st : State)
    (frame : Frame) (rest : list Frame) :
  ready st → data_queue st = frame :: rest →
  ∃ st', process_data_pass current_time st = Some st'
         ∧ ready st' ∧ pass_effect current_time st frame st'
         ∧ data_queue st' = rest.
Proof.
  intros (Hsized & Hwin & Hpeaks & Hgate & Hframes & Hcounter) Hqueue.
  pose proof Hsized as (Hts & Hslow & Henv & Hw & Hu & Hfb & Hfh & Hpk & Hbi
                        & Hhi & Hbv & Hhv).
  assert (0 < buffer_data_size) as Hpos by (rewrite buffer_data_size_eq; lia).
  assert (1 < buffer_data_size) as Hpos2 by (rewrite buffer_data_size_eq; lia).
  rewrite Hqueue in Hframes. apply Forall_cons in Hframes as [Hframe Hrest].
  destruct (stamp_time_push (current_time - start_time st)
              (radar_time_stamp (bufs st))) as (previous_time & Hlast & Hstamp);
    [by rewrite Hts|].
  destruct (range_fft_of_frame_ok frame Hframe) as (profile & Hprofile & Hlen).
  destruct (track_range_bin_ok (cfg st) profile (bufs st) Hsized Hpeaks Hgate
              Hlen)
    as (gate_peak & sample & peak_indices & Hargmax & Hpi & Hpiall & Hsample
        & Htrack).
  pose proof (unwrap_phase_one (drop 1 (slow_time_buffer_data (bufs st)))
                sample _ _ Hw Hu) as Hphase.
  destruct (unwrap_window_push (unwrapped_phase_plot (bufs st))
              (np_angle sample) Hu) as (unwrapped_new & Hpush & Hwin').
  { unfold window_unwrapped in Hwin.
    rewrite py_slice_from_end, Hu in Hwin
      by (rewrite processing_data_size_eq; lia). done. }
  set (unwrapped' := drop 1 (unwrapped_phase_plot (bufs st)) ++ [unwrapped_new]).
  assert (length unwrapped' = buffer_data_size) as Hu'
    by (by apply length_push).
  destruct (filter_bank_one (cfg st) unwrapped'
              (filtered_breathing_plot (bufs st))
              (filtered_heart_plot (bufs st)) Hu' Hfb Hfh)
    as (breathing_new & heart_new & Hfilter).
  destruct (vital_signs_spectra_ok
              (drop 1 (slow_time_buffer_data (bufs st)) ++ [sample])
              unwrapped'
              (drop 1 (filtered_breathing_plot (bufs st)) ++ [breathing_new])
              (drop 1 (filtered_heart_plot (bufs st)) ++ [heart_new]))
    as (sp & Hsp & _); [by apply length_push..|].
  destruct (rate_index_update_ok (breathing_rate_estimation_index (bufs st))
              (breathing_fft sp) (index_start_breathing (cfg st))
              (index_end_breathing (cfg st)))
    as (rate_br & previous_br & Hrate_br & Hlast_br & Hupd_br);
    [by rewrite Hbi|].
  destruct (rate_index_update_ok (heart_rate_estimation_index (bufs st))
              (heart_fft sp) (index_start_heart (cfg st))
              (index_end_heart (cfg st)))
    as (rate_hr & previous_hr & Hrate_hr & Hlast_hr & Hupd_hr);
    [by rewrite Hhi|].
  eexists. split.
  { unfold process_data_pass. rewrite Hqueue, Hstamp.
    cbn [mbind option_bind calc_range_fft]. rewrite Hprofile.
    cbn [mbind option_bind is_not_None as_ndarray]. rewrite Htrack.
    cbn [mbind option_bind tracked_slow_time tracked_envelop tracked_abs
         tracked_peak_indices tracked_peak_index].
    rewrite Hcounter. change (0 + 1) with 1. rewrite Hphase, Hpush.
    cbn [mbind option_bind]. fold unwrapped'. rewrite Hfilter.
    cbn [mbind option_bind]. rewrite Hsp. cbn [mbind option_bind].
    rewrite Hupd_br. cbn [mbind option_bind].
    rewrite Hupd_hr. cbn [mbind option_bind].
    rewrite breath_cycle_update_one. cbn [mbind option_bind]. reflexivity. }
  split_and!.
  - (* ready *)
    unfold ready. cbn [bufs cfg data_queue counter]. split_and!; try done.
    + unfold buffers_sized.
      cbn [radar_time_stamp slow_time_buffer_data I_Q_envelop
           wrapped_phase_plot unwrapped_phase_plot filtered_breathing_plot
           filtered_heart_plot range_profile_peak_indices
           breathing_rate_estimation_index heart_rate_estimation_index
           breathing_rate_estimation_value heart_rate_estimation_value].
      rewrite Hpi. split_and!; try done; by apply length_push.
    + unfold window_unwrapped. cbn [bufs unwrapped_phase_plot].
      rewrite py_slice_from_end, Hu'
        by (rewrite processing_data_size_eq; lia). done.
  - (* effect *)
    unfold pass_effect.
    exists profile, gate_peak, sample, previous_time, unwrapped_new,
      breathing_new, heart_new, rate_br, rate_hr, previous_br, previous_hr.
    cbn [bufs cfg data_queue counter start_time points spectra range_fft_abs
         range_profile_peak_index
         radar_time_stamp slow_time_buffer_data I_Q_envelop
         wrapped_phase_plot unwrapped_phase_plot filtered_breathing_plot
         filtered_heart_plot range_profile_peak_indices
         breathing_rate_estimation_index heart_rate_estimation_index
         breathing_rate_estimation_value heart_rate_estimation_value].
    rewrite <-Hpi. by split_and!.
  - done.
Qed.
End pass_facts.

(** ** What a pass that returns has done, whatever the state *)

Section pass_inversion.
Context `{DspLibrary}.

Lemma process_data_pass_empty (current_time : Qc) (st : State) :
  data_queue st = [] → process_data_pass current_time st = Some st.
Proof. intros Hq. unfold process_data_pass. by rewrite Hq. Qed.

Lemma process_data_pass_inv (current_time : Qc) (st st' : State) :
  process_data_pass current_time st = Some st' →
  (data_queue st = [] ∧ st' = st)
  ∨ (data_queue st ≠ []
     ∧ cfg st' = cfg st
     ∧ counter st' = 0
     ∧ breath_cycle_update (counter st + 1) (radar_time_stamp (bufs st'))
         (filtered_breathing_plot (bufs st')) (points st) = Some (points st')
     ∧ rate_index_update (breathing_rate_estimation_index (bufs st))
         (breathing_fft (spectra st')) (index_start_breathing (cfg st))
         (index_end_breathing (cfg st))
       = Some (breathing_rate_estimation_index (bufs st'))
     ∧ rate_index_update (heart_rate_estimation_index (bufs st))
         (heart_fft (spectra st')) (index_start_heart (cfg st))
         (index_end_heart (cfg st))
       = Some (heart_rate_estimation_index (bufs st'))
     ∧ breathing_rate_estimation_value (bufs st')
       = breathing_rate_estimation_value (bufs st)
     ∧ heart_rate_estimation_value (bufs st')
       = heart_rate_estimation_value (bufs st)).
Proof.
  intros Hp. unfold process_data_pass in Hp.
  destruct (data_queue st) as [|frame rest] eqn:Hq.
  { left. by simplify_eq. }
  right. split; [done|].
  apply bind_Some in Hp as (ts' & Hts & Hp).
  apply bind_Some in Hp as ([v q'] & Hcalc & Hp).
  cbn [calc_range_fft] in Hcalc.
  apply bind_Some in Hcalc as (profile & Hprofile & [= <- <-]).
  cbn [is_not_None] in Hp.
  apply bind_Some in Hp as (profile' & [= <-] & Hp).
  apply bind_Some in Hp as (tracked & Htracked & Hp).
  apply bind_Some in Hp as ([w u] & Hphase & Hp).
  apply bind_Some in Hp as ([fb fh] & Hfilter & Hp).
  apply bind_Some in Hp as (sp & Hsp & Hp).
  apply bind_Some in Hp as (bi & Hbi & Hp).
  apply bind_Some in Hp as (hi & Hhi & Hp).
  apply bind_Some in Hp as (pts & Hpts & [= <-]).
  by cbn.
Qed.
End pass_inversion.

(** ** The rational library has the documented shapes *)

Lemma length_fir (b x : list Qc) : length (RationalLibrary.fir b x) = length x.
Proof. apply length_imap. Qed.

#[export] Instance rational_library_laws :
  @DspLibraryLaws RationalLibrary.library.
Proof.
  split; simpl.
  - intros n x. unfold RationalLibrary.resize, np_czeros.
    rewrite length_app, length_take, length_replicate. lia.
  - intros n. apply length_replicate.
  - apply length_fir.
  - done.
  - done.
  - done.
  - intros x d h p. unfold RationalLibrary.local_maxima.
    apply Forall_forall. intros i Hi%list_elem_of_filter.
    destruct Hi as [_ Hi%elem_of_seq]. lia.
Qed.

(** ** Ready states *)

Lemma bounded_steps_zeros (h : Qc) (n : nat) :
  (0 ≤ h)%Qc → bounded_steps h (np_zeros n).
Proof.
  intros Hh. unfold bounded_steps, np_zeros.
  induction n as [|n IH]; [apply Forall_nil_2|].
  destruct n as [|n]; [apply Forall_nil_2|].
  change (replicate (S (S n)) 0%Qc) with (0%Qc :: 0%Qc :: replicate n 0%Qc).
  rewrite np_diff_cons_cons. apply Forall_cons. split; [|exact IH].
  unfold Qcabs. by case_bool_decide.
Qed.

Lemma initial_state_ready (c : Config) (start_time : Qc) :
  gate_valid c → ready (initial_state c start_time).
Proof.
  intros Hgate. unfold ready, initial_state.
  cbn [bufs cfg data_queue counter]. split_and!; [| | |done..].
  - unfold buffers_sized.
    cbn [radar_time_stamp slow_time_buffer_data I_Q_envelop
         wrapped_phase_plot unwrapped_phase_plot filtered_breathing_plot
         filtered_heart_plot range_profile_peak_indices
         breathing_rate_estimation_index heart_rate_estimation_index
         breathing_rate_estimation_value heart_rate_estimation_value].
    unfold np_zeros, np_czeros. by rewrite !length_replicate.
  - unfold window_unwrapped. cbn [unwrapped_phase_plot].
    unfold py_slice_from. apply bounded_steps_drop.
    by apply bounded_steps_zeros.
  - unfold peak_indices_in_profile. cbn [range_profile_peak_indices].
    apply Forall_replicate.
    split; [done|]. rewrite <-Z2Qc_inj_0. unfold Qc_of_nat.
    apply (proj1 (Qc_of_Z_le _ _)). lia.
Qed.

Lemma enqueue_frame_ready (frame : Frame) (st : State) :
  frame_ok frame → ready st → ready (enqueue_frame frame st).
Proof.
  intros Hframe (? & ? & ? & ? & Hq & ?). unfold ready.
  cbn [enqueue_frame bufs cfg data_queue counter].
  split_and!; try done. apply Forall_app. split; [done|].
  by apply Forall_singleton.
Qed.

Lemma demo_gate_valid : gate_valid Demo.config.
Proof. by vm_compute. Qed.

Lemma demo_frame_ok : frame_ok Demo.frame.
Proof.
  unfold frame_ok, frame_array, Demo.frame.
  cbn [frame_data frame_chirps frame_samples].
  split_and!; try (vm_compute; lia).
  apply Forall_replicate. split; [reflexivity|].
  apply Forall_singleton. by rewrite length_fmap, length_seq.
Qed.

Lemma demo_loaded_ready (n : nat) : ready (Demo.loaded n).
Proof.
  unfold Demo.loaded. induction (seq 0 n) as [|i l IH]; simpl.
  - apply initial_state_ready, demo_gate_valid.
  - apply enqueue_frame_ready; [apply demo_frame_ok|done].
Qed.

Lemma demo_initial_config :
  @initial_config RationalLibrary.library (qc 48 55) true = Some Demo.config.
Proof. by vm_compute. Qed.

(** ** What a timer tick that returns has done *)

Lemma update_plots_inv (st st' : State) (messages : list osc_message) :
  update_plots st = Some (st', messages) →
  points st' = points st ∧ counter st' = counter st ∧ cfg st' = cfg st
  ∧ data_queue st' = data_queue st ∧ spectra st' = spectra st
  ∧ radar_time_stamp (bufs st') = radar_time_stamp (bufs st)
  ∧ slow_time_buffer_data (bufs st') = slow_time_buffer_data (bufs st)
  ∧ I_Q_envelop (bufs st') = I_Q_envelop (bufs st)
  ∧ wrapped_phase_plot (bufs st') = wrapped_phase_plot (bufs st)
  ∧ unwrapped_phase_plot (bufs st') = unwrapped_phase_plot (bufs st)
  ∧ filtered_breathing_plot (bufs st') = filtered_breathing_plot (bufs st)
  ∧ filtered_heart_plot (bufs st') = filtered_heart_plot (bufs st)
  ∧ range_profile_peak_indices (bufs st')
    = range_profile_peak_indices (bufs st)
  ∧ breathing_rate_estimation_index (bufs st')
    = breathing_rate_estimation_index (bufs st)
  ∧ heart_rate_estimation_index (bufs st')
    = heart_rate_estimation_index (bufs st)
  ∧ rate_value_update (breathing_rate_estimation_index (bufs st))
      (breathing_rate_estimation_value (bufs st)) estimation_index_breathing
    = Some (breathing_rate_estimation_value (bufs st'))
  ∧ rate_value_update (heart_rate_estimation_index (bufs st))
      (heart_rate_estimation_value (bufs st)) estimation_index_heart
    = Some (heart_rate_estimation_value (bufs st'))
  ∧ breathing_visualization st' = Some messages.
Proof.
  intros Hu. unfold update_plots in Hu.
  apply bind_Some in Hu as (? & _ & Hu).
  apply bind_Some in Hu as (? & _ & Hu).
  apply bind_Some in Hu as ([bv hv] & Hrates & Hu).
  cbn [ENABLE_ESTIMATION_PLOT] in Hrates.
  apply bind_Some in Hrates as (bv' & Hbv & Hrates).
  apply bind_Some in Hrates as (hv' & Hhv & [= <- <-]).
  apply bind_Some in Hu as (msgs & Hmsgs & [= <- <-]).
  cbn [ENABLE_BREATHING_VISUALIZATION] in Hmsgs.
  by cbn.
Qed.

(** ** C1: the breath-cycle detector *)

Section breath_cycle.
Context `{DspLibrary}.

Lemma step_keeps_points (e : event) (st st' : State) :
  counter st = 0 → step e st = Some st' →
  points st' = points st ∧ counter st' = 0.
Proof.
  intros Hc Hstep. destruct e as [frame|current_time|]; simpl in Hstep.
  - by simplify_eq.
  - apply process_data_pass_inv in Hstep
      as [[_ ->]|(_ & _ & Hc' & Hpts & _)]; [done|].
    rewrite Hc in Hpts. change (0 + 1) with 1 in Hpts.
    rewrite breath_cycle_update_one in Hpts. by simplify_eq.
  - apply fmap_Some in Hstep as ([st1 msgs] & Hu & ->).
    apply update_plots_inv in Hu as (Hp & Hc' & _). simpl.
    by rewrite Hp, Hc'.
Qed.

(** C1, as the code behaves: [counter] is 1 at the test
    [counter % 5 == 0] of every pass, because line 331 resets it after
    every pass.  The breath-cycle detector is therefore called on no cycle
    at all, and the inhalation/exhalation point lists keep the value they
    have, over any sequence of puts, passes and timer ticks. *)
Theorem breath_cycle_points_never_change (es : list event) (st st' : State) :
  counter st = 0 → run es st = Some st' →
  points st' = points st ∧ counter st' = 0.
Proof.
  revert st. induction es as [|e es IH]; intros st Hc Hrun; simpl in Hrun.
  - by simplify_eq.
  - apply bind_Some in Hrun as (st1 & Hstep & Hrun).
    destruct (step_keeps_points e st st1 Hc Hstep) as [Hp Hc1].
    destruct (IH st1 Hc1 Hrun) as [Hp' Hc']. split; [congruence|done].
Qed.
End breath_cycle.

Lemma Some_default {A} (d : A) (o : option A) :
  is_Some o → o = Some (default d o).
Proof. by intros [x ->]. Qed.

Section passes_return.
Context `{DspLibraryLaws}.

(** A pass on a ready state returns, whether a frame waits or not. *)
Lemma step_pass_ready (current_time : Qc) (st : State) :
  ready st → ∃ st', step (Pass current_time) st = Some st' ∧ ready st'.
Proof.
  intros Hready. cbn [step].
  destruct (data_queue st) as [|frame rest] eqn:Hq.
  - exists st. by rewrite process_data_pass_empty.
  - destruct (process_data_pass_ready current_time st frame rest Hready Hq)
      as (st' & Hpass & Hready' & _).
    by exists st'.
Qed.

Lemma run_passes_ready (times : list Qc) (st : State) :
  ready st → ∃ st', run (Pass <$> times) st = Some st' ∧ ready st'.
Proof.
  revert st. induction times as [|t times IH]; intros st Hready.
  - by exists st.
  - destruct (step_pass_ready t st Hready) as (st1 & Hstep & Hready1).
    destruct (IH st1 Hready1) as (st' & Hrun & Hready').
    exists st'. split; [|done].
    rewrite fmap_cons. cbn [run]. rewrite Hstep. exact Hrun.
Qed.
End passes_return.

Lemma demo_five_passes :
  @run RationalLibrary.library Demo.five_passes (Demo.loaded 5)
  = Some Demo.after_five.
Proof.
  apply Some_default.
  destruct (run_passes_ready (H := RationalLibrary.library)
              [1%Qc; 2%Qc; Qc_of_Z 3; Qc_of_Z 4; Qc_of_Z 5] (Demo.loaded 5)
              (demo_loaded_ready 5)) as (st' & Hrun & _).
  exists st'. exact Hrun.
Qed.

(** Five passes on five waiting frames: the point lists are those of the
    start-up state. *)
Lemma breath_cycle_points_never_change_witness :
  counter (Demo.loaded 5) = 0
  ∧ @run RationalLibrary.library Demo.five_passes (Demo.loaded 5)
    = Some Demo.after_five
  ∧ points Demo.after_five = points (Demo.loaded 5)
  ∧ counter Demo.after_five = 0.
Proof.
  split; [reflexivity|]. split; [exact demo_five_passes|].
  apply (breath_cycle_points_never_change (H := RationalLibrary.library)
           Demo.five_passes (Demo.loaded 5) Demo.after_five).
  - reflexivity.
  - exact demo_five_passes.
Defined.

(** ** C2: an empty queue *)

Section empty_queue.
Context `{DspLibrary}.

(** C2, amended: with an empty queue the loop skips the pass on its own
    test of the queue (line 170): the pass returns and leaves every buffer,
    the spectra, the counter, the time reference and the queue as they
    are.  It does not rely on the front end for this: what
    [calc_range_fft] returns on an empty queue, the pair [(None, None)], is
    a value the test [is not None] of line 180 takes for an output. *)
Theorem empty_queue_skips_cycle (current_time : Qc) (st : State) :
  (data_queue st = [] → process_data_pass current_time st = Some st)
  ∧ calc_range_fft [] = Some (PyTuple2 PyNone PyNone, [])
  ∧ is_not_None (PyTuple2 PyNone PyNone) = true.
Proof.
  split; [|done]. intros Hqueue. unfold process_data_pass. by rewrite Hqueue.
Qed.
End empty_queue.

(** C2 as stated fails for the front end: on an empty queue
    [calc_range_fft] returns the pair [(None, None)] (line 138), which the
    test [range_fft_antennas_buffer is not None] (line 180) takes for an
    output and on which the stage after the test, [np.abs], fails. *)
Lemma empty_queue_value_taken_for_output :
  @calc_range_fft RationalLibrary.library []
  = Some (PyTuple2 PyNone PyNone, [])
  ∧ is_not_None (PyTuple2 PyNone PyNone) = true
  ∧ as_ndarray (PyTuple2 PyNone PyNone) = None.
Proof. done. Qed.

Lemma empty_queue_skips_cycle_witness :
  data_queue Demo.start = []
  ∧ @process_data_pass RationalLibrary.library 1%Qc Demo.start
    = Some Demo.start.
Proof.
  split; [reflexivity|].
  exact (proj1 (empty_queue_skips_cycle (H := RationalLibrary.library) 1%Qc
                  Demo.start) eq_refl).
Defined.

(** ** Sample-and-hold of the rate index *)

Section sample_and_hold.
Context `{DspLibrary}.

Lemma py_getitem_before_last_length {A} (l : list A) (x : A) :
  py_getitem l (-2) = Some x → 1 < length l.
Proof.
  unfold py_getitem. intros Hx.
  apply bind_Some in Hx as (j & Hj & _). unfold py_position in Hj.
  repeat case_bool_decide; simplify_eq; lia.
Qed.

(** When [find_peaks] returns no peak, the index stage repeats the previous
    newest entry. *)
Lemma rate_index_update_hold (idx fft idx' : list Qc)
    (index_start index_end : Z) :
  rate_index_update idx fft index_start index_end = Some idx' →
  find_peaks (py_slice fft index_start index_end)
    (Z.to_nat (py_int (Qcmax 1 (peak_finding_distance
                                 * Qc_of_nat fft_size_vital_signs
                                 / Qc_of_nat vital_signs_sample_rate))))
    None None = [] →
  last idx' = last idx.
Proof.
  intros Hupd Hnone. unfold rate_index_update in Hupd.
  apply bind_Some in Hupd as (previous & Hprev & Hupd).
  apply bind_Some in Hupd as (idx2 & Hset & Hupd).
  apply bind_Some in Hupd as (rate_index & Hrate & Hupd).
  rewrite (find_signal_peaks_no_peak _ _ _ _ Hnone) in Hrate.
  injection Hrate as <-.
  rewrite bool_decide_eq_false_2 in Hupd by (intros Hne; by apply Hne).
  injection Hupd as <-.
  assert (1 < length idx) as Hlen.
  { apply py_getitem_before_last_length in Hprev.
    by rewrite length_np_roll_back in Hprev. }
  rewrite roll_getitem_previous in Hprev by done.
  rewrite roll_setitem_push in Hset
    by (intros E; rewrite E in Hlen; simpl in Hlen; lia).
  injection Hset as <-. by rewrite last_snoc.
Qed.

Lemma quiet_step_hold (k : band) (st st' : State) :
  quiet_step k st st' →
  last (estimation_index_of k (bufs st'))
  = last (estimation_index_of k (bufs st)).
Proof.
  intros [st0 frame|st0 st1 messages Hu|st0 current_time st1 Hp Hnone].
  - done.
  - apply update_plots_inv in Hu
      as (_ & _ & _ & _ & _ & _ & _ & _ & _ & _ & _ & _ & _ & Hb & Hh & _).
    destruct k; simpl; congruence.
  - apply process_data_pass_inv in Hp
      as [[_ ->]|(_ & Hcfg & _ & _ & Hb & Hh & _)]; [done|].
    unfold band_peaks in Hnone. rewrite Hcfg in Hnone.
    destruct k; simpl; eapply rate_index_update_hold; eauto.
Qed.

End sample_and_hold.

Lemma demo_one_pass :
  @process_data_pass RationalLibrary.library 1%Qc (Demo.loaded 1)
  = Some Demo.after_one.
Proof.
  apply Some_default.
  destruct (process_data_pass_ready (H := RationalLibrary.library) 1%Qc
              (Demo.loaded 1) Demo.frame [] (demo_loaded_ready 1) eq_refl)
    as (st' & Hpass & _).
  exists st'. exact Hpass.
Qed.

Lemma demo_one_pass_quiet (k : band) :
  @band_peaks RationalLibrary.library k Demo.after_one = [].
Proof. destruct k; vm_cast_no_check (eq_refl (@nil nat)). Qed.

(** ** C4: the ring buffers *)

Lemma fifo_after_nil {A} (select : Buffers → list A) (st : State) :
  fifo_after select st [].
Proof.
  unfold fifo_after. simpl. split_and!; [done| |done].
  by rewrite drop_0, app_nil_r.
Qed.

Lemma fifo_after_cons {A} (select : Buffers → list A) (st st1 : State)
    (trace : list State) (v : A) :
  length (select (bufs st)) = buffer_data_size →
  S (length trace) ≤ buffer_data_size →
  pushed v (select (bufs st)) (select (bufs st1)) →
  fifo_after select st1 trace →
  fifo_after select st (st1 :: trace).
Proof.
  intros Hlen Hn Hpush (Hall & Hfinal & Hpv).
  assert (last (select (bufs st1)) = Some v) as Hlast.
  { rewrite Hpush. apply last_snoc. }
  assert (pushed_values select (st1 :: trace)
          = v :: pushed_values select trace) as Hvalues.
  { unfold pushed_values. simpl. by rewrite Hlast. }
  unfold fifo_after. split_and!.
  - apply Forall_cons. split; [|done].
    rewrite Hpush. apply length_push; [done|lia].
  - rewrite Hvalues.
    replace (default st (last (st1 :: trace)))
      with (default st1 (last trace))
      by (rewrite last_cons; by destruct (last trace)).
    rewrite Hfinal, Hpush.
    rewrite drop_app_le by (rewrite length_drop; lia).
    rewrite drop_drop. cbn [length].
    replace (1 + length trace) with (S (length trace)) by lia.
    by rewrite <-app_assoc.
  - rewrite Hvalues. simpl. by rewrite Hpv.
Qed.

Lemma rate_value_update_held_or_pushed (idx value value' : list Qc)
    (start : nat) :
  value ≠ [] → rate_value_update idx value start = Some value' →
  held_or_pushed value value'.
Proof.
  intros Hne Hupd. unfold rate_value_update in Hupd.
  apply bind_Some in Hupd as (first & _ & Hupd).
  case_bool_decide; [|left; by simplify_eq].
  apply bind_Some in Hupd as (frequency & _ & Hupd).
  rewrite roll_setitem_push in Hupd by done.
  right. eexists. unfold pushed. by simplify_eq.
Qed.

Lemma length_held_or_pushed (old new : list Qc) (n : nat) :
  length old = n → 0 < n → held_or_pushed old new → length new = n.
Proof.
  intros Hold Hn [->|[v ->]]; [done|]. by apply length_push.
Qed.

Section ring_buffers.
Context `{DspLibraryLaws}.

(** A timer tick keeps every capacity and pushes at most one value on
    each rate series. *)
Lemma update_plots_sized (st st' : State) (messages : list osc_message) :
  buffers_sized (bufs st) → update_plots st = Some (st', messages) →
  buffers_sized (bufs st')
  ∧ held_or_pushed (breathing_rate_estimation_value (bufs st))
                   (breathing_rate_estimation_value (bufs st'))
  ∧ held_or_pushed (heart_rate_estimation_value (bufs st))
                   (heart_rate_estimation_value (bufs st')).
Proof.
  intros (Hts & Hslow & Henv & Hw & Hu & Hfb & Hfh & Hpk & Hbi & Hhi & Hbv
          & Hhv) Hup.
  apply update_plots_inv in Hup
    as (_ & _ & _ & _ & _ & Ets & Eslow & Eenv & Ew & Eu & Efb & Efh & Epk
        & Ebi & Ehi & Ubv & Uhv & _).
  assert (0 < buffer_data_size) as Hpos by (rewrite buffer_data_size_eq; lia).
  apply rate_value_update_held_or_pushed in Ubv;
    [|intros E; rewrite E in Hbv; simpl in Hbv; lia].
  apply rate_value_update_held_or_pushed in Uhv;
    [|intros E; rewrite E in Hhv; simpl in Hhv; lia].
  split_and!; [|done..]. unfold buffers_sized.
  rewrite Ets, Eslow, Eenv, Ew, Eu, Efb, Efh, Epk, Ebi, Ehi.
  split_and!; try done.
  - exact (length_held_or_pushed _ _ _ Hbv Hpos Ubv).
  - exact (length_held_or_pushed _ _ _ Hhv Hpos Uhv).
Qed.

Lemma pass_effect_pushes (current_time : Qc) (st : State) (frame : Frame)
    (st' : State) :
  pass_effect current_time st frame st' →
  (∃ v, pushed v (radar_time_stamp (bufs st)) (radar_time_stamp (bufs st')))
  ∧ (∃ v, pushed v (slow_time_buffer_data (bufs st))
                   (slow_time_buffer_data (bufs st')))
  ∧ (∃ v, pushed v (I_Q_envelop (bufs st)) (I_Q_envelop (bufs st')))
  ∧ (∃ v, pushed v (wrapped_phase_plot (bufs st))
                   (wrapped_phase_plot (bufs st')))
  ∧ (∃ v, pushed v (unwrapped_phase_plot (bufs st))
                   (unwrapped_phase_plot (bufs st')))
  ∧ (∃ v, pushed v (filtered_breathing_plot (bufs st))
                   (filtered_breathing_plot (bufs st')))
  ∧ (∃ v, pushed v (filtered_heart_plot (bufs st))
                   (filtered_heart_plot (bufs st')))
  ∧ (∃ v, pushed v (range_profile_peak_indices (bufs st))
                   (range_profile_peak_indices (bufs st')))
  ∧ (∃ v, pushed v (breathing_rate_estimation_index (bufs st))
                   (breathing_rate_estimation_index (bufs st')))
  ∧ (∃ v, pushed v (heart_rate_estimation_index (bufs st))
                   (heart_rate_estimation_index (bufs st')))
  ∧ breathing_rate_estimation_value (bufs st')
    = breathing_rate_estimation_value (bufs st)
  ∧ heart_rate_estimation_value (bufs st')
    = heart_rate_estimation_value (bufs st).
Proof.
  intros (profile & gate_peak & sample & previous_time & unwrapped_new
          & breathing_new & heart_new & rate_br & rate_hr & previous_br
          & previous_hr & _ & _ & _ & _ & _ & _ & _ & _ & _ & Hpk & _ & _ & _
          & Hts & Hslow & Henv & Hw & _ & Hu & Hfb & Hfh & _ & _ & Hbi & _ & _
          & Hhi & Hbv & Hhv).
  unfold pushed. split_and!; eauto.
Qed.

Lemma process_data_passes_fifo (times : list Qc) (st : State) :
  ready st → length times ≤ length (data_queue st) →
  length times ≤ buffer_data_size →
  ∃ trace,
    process_data_passes times st = Some trace
    ∧ length trace = length times
    ∧ Forall ready trace
    ∧ slow_time_fifo st trace
    ∧ Forall (λ s, breathing_rate_estimation_value (bufs s)
                   = breathing_rate_estimation_value (bufs st)
                   ∧ heart_rate_estimation_value (bufs s)
                     = heart_rate_estimation_value (bufs st)) trace.
Proof.
  revert st. induction times as [|t times IH]; intros st Hready Hq Hn.
  { exists []. split_and!; try done.
    unfold slow_time_fifo. split_and!; apply fifo_after_nil. }
  destruct (data_queue st) as [|frame rest] eqn:Hqueue;
    [simpl in Hq; lia|].
  destruct (process_data_pass_ready t st frame rest Hready Hqueue)
    as (st1 & Hpass & Hready1 & Heffect & Hrest).
  destruct (IH st1 Hready1) as (trace & Hpasses & Hlen & Hall & Hfifo & Hval).
  { rewrite Hrest. simpl in Hq. lia. }
  { simpl in Hn. lia. }
  exists (st1 :: trace). simpl. rewrite Hpass. simpl. rewrite Hpasses. simpl.
  apply pass_effect_pushes in Heffect
    as ([? P1] & [? P2] & [? P3] & [? P4] & [? P5] & [? P6] & [? P7] & [? P8]
        & [? P9] & [? P10] & Hbv & Hhv).
  destruct Hready as ((Hts & Hslow & Henv & Hw & Hu & Hfb & Hfh & Hpk & Hbi
                       & Hhi & _) & _).
  destruct Hfifo as (F1 & F2 & F3 & F4 & F5 & F6 & F7 & F8 & F9 & F10).
  assert (S (length trace) ≤ buffer_data_size)
    by (rewrite Hlen; simpl in Hn; lia).
  split_and!; [done|by rewrite Hlen|by apply Forall_cons| |].
  - unfold slow_time_fifo. split_and!; eapply fifo_after_cons; eauto.
  - apply Forall_cons. split; [done|].
    eapply Forall_impl; [exact Hval|]. intros s [-> ->]. done.
Qed.

(** C4: from a ready state with at least N frames waiting, N passes
    (N at most the capacity) all return; after each of them every ring
    buffer has the capacity [buffer_data_size]; each of the ten buffers of
    the processing loop ends as its former content without its N oldest
    entries followed by the N pushed values, oldest first, while the two
    rate series are left alone; and a timer tick in any of these states
    keeps every capacity and pushes at most one value on each rate
    series. *)
Theorem ring_buffer_invariant (times : list Qc) (st : State) :
  ready st → length times ≤ length (data_queue st) →
  length times ≤ buffer_data_size →
  ∃ trace,
    process_data_passes times st = Some trace
    ∧ length trace = length times
    ∧ Forall (λ s, buffers_sized (bufs s)) (st :: trace)
    ∧ slow_time_fifo st trace
    ∧ Forall (λ s, breathing_rate_estimation_value (bufs s)
                   = breathing_rate_estimation_value (bufs st)
                   ∧ heart_rate_estimation_value (bufs s)
                     = heart_rate_estimation_value (bufs st)) trace
    ∧ Forall (λ s, ∀ s' messages,
                update_plots s = Some (s', messages) →
                buffers_sized (bufs s')
                ∧ held_or_pushed (breathing_rate_estimation_value (bufs s))
                                 (breathing_rate_estimation_value (bufs s'))
                ∧ held_or_pushed (heart_rate_estimation_value (bufs s))
                                 (heart_rate_estimation_value (bufs s')))
             (st :: trace).
Proof.
  intros Hready Hq Hn.
  destruct (process_data_passes_fifo times st Hready Hq Hn)
    as (trace & Hpasses & Hlen & Hall & Hfifo & Hval).
  assert (Forall (λ s, buffers_sized (bufs s)) (st :: trace)) as Hsized.
  { apply Forall_cons. split; [by destruct Hready|].
    eapply Forall_impl; [exact Hall|]. by intros s [? _]. }
  exists trace. split_and!; try done.
  eapply Forall_impl; [exact Hsized|]. intros s Hs s' messages.
  by apply update_plots_sized.
Qed.
End ring_buffers.

(** One pass on one waiting frame. *)
Lemma ring_buffer_invariant_witness :
  ready (Demo.loaded 1)
  ∧ length [1%Qc] ≤ length (data_queue (Demo.loaded 1))
  ∧ length [1%Qc] ≤ buffer_data_size
  ∧ ∃ trace,
      @process_data_passes RationalLibrary.library [1%Qc] (Demo.loaded 1)
      = Some trace
      ∧ length trace = 1
      ∧ Forall (λ s, buffers_sized (bufs s)) (Demo.loaded 1 :: trace)
      ∧ slow_time_fifo (Demo.loaded 1) trace.
Proof.
  assert (length [1%Qc] ≤ length (data_queue (Demo.loaded 1))) as Hq
    by (vm_compute; lia).
  assert (length [1%Qc] ≤ buffer_data_size) as Hn by (vm_compute; lia).
  split_and!; [apply demo_loaded_ready|exact Hq|exact Hn|].
  destruct (ring_buffer_invariant (H := RationalLibrary.library)
              [1%Qc] (Demo.loaded 1) (demo_loaded_ready 1) Hq Hn)
    as (trace & Hpasses & Hlen & Hsized & Hfifo & _).
  exists trace. split_and!; assumption.
Defined.

(** ** C10: the unwrapped-phase buffer outside the recompute window *)

Section unwrap_frame.
Context `{DspLibraryLaws}.

(** C10: a pass on a ready state returns, and in the unwrapped-phase
    buffer it leaves every entry outside the trailing window of
    [processing_data_size] entries is the entry that stood one place later
    before the pass: the roll moved it, the unwrapping did not touch it.
    The trailing window is the unwrapping of the rolled window ending in
    the newest wrapped phase, and on the whole the buffer has received one
    value. *)
Theorem unwrap_outside_window_retained (current_time : Qc) (st : State)
    (frame : Frame) (rest : list Frame) :
  ready st → data_queue st = frame :: rest →
  ∃ st' wrapped_new unwrapped_new,
    process_data_pass current_time st = Some st'
    ∧ last (wrapped_phase_plot (bufs st')) = Some wrapped_new
    ∧ (∀ i, i < buffer_data_size - processing_data_size →
            unwrapped_phase_plot (bufs st') !! i
            = unwrapped_phase_plot (bufs st) !! S i)
    ∧ drop (buffer_data_size - processing_data_size)
           (unwrapped_phase_plot (bufs st'))
      = np_unwrap (drop (buffer_data_size - processing_data_size)
                        (drop 1 (unwrapped_phase_plot (bufs st))
                         ++ [wrapped_new]))
    ∧ unwrapped_phase_plot (bufs st')
      = drop 1 (unwrapped_phase_plot (bufs st)) ++ [unwrapped_new].
Proof.
  intros Hready Hqueue.
  destruct (process_data_pass_ready current_time st frame rest Hready Hqueue)
    as (st' & Hpass & _ & Heffect & _).
  destruct Heffect
    as (profile & gate_peak & sample & previous_time & unwrapped_new
        & breathing_new & heart_new & rate_br & rate_hr & previous_br
        & previous_hr & _ & _ & _ & _ & _ & _ & _ & _ & _ & _ & _ & _ & _
        & _ & _ & _ & Hw & Hu1 & Hu2 & _).
  destruct Hready as ((_ & _ & _ & _ & Hu & _) & _).
  exists st', (np_angle sample), unwrapped_new.
  assert (length (take (buffer_data_size - processing_data_size)
                       (drop 1 (unwrapped_phase_plot (bufs st))))
          = buffer_data_size - processing_data_size) as Hlen.
  { rewrite length_take, length_drop, Hu.
    rewrite buffer_data_size_eq, processing_data_size_eq. lia. }
  split_and!; [done| | | |done].
  - rewrite Hw. apply last_snoc.
  - intros i Hi. rewrite Hu1.
    rewrite lookup_app_l by (by rewrite Hlen).
    rewrite lookup_take_lt by done. by rewrite lookup_drop.
  - rewrite Hu1. by apply drop_app_length'.
Qed.
End unwrap_frame.

Lemma unwrap_outside_window_retained_witness :
  ready (Demo.loaded 1)
  ∧ data_queue (Demo.loaded 1) = [Demo.frame]
  ∧ ∃ st',
      @process_data_pass RationalLibrary.library 1%Qc (Demo.loaded 1)
      = Some st'
      ∧ ∀ i, i < buffer_data_size - processing_data_size →
             unwrapped_phase_plot (bufs st') !! i
             = unwrapped_phase_plot (bufs (Demo.loaded 1)) !! S i.
Proof.
  split_and!; [apply demo_loaded_ready|reflexivity|].
  destruct (unwrap_outside_window_retained (H := RationalLibrary.library)
              1%Qc (Demo.loaded 1) Demo.frame [] (demo_loaded_ready 1)
              eq_refl)
    as (st' & _ & _ & Hpass & _ & Hframe & _).
  exists st'. split; assumption.
Defined.

(** ** C5: the range profile *)

Lemma Cadd_comm (a b : complex) : Cadd a b = Cadd b a.
Proof. unfold Cadd. f_equal; ring. Qed.

Lemma Cadd_assoc (a b c : complex) : Cadd a (Cadd b c) = Cadd (Cadd a b) c.
Proof. unfold Cadd. simpl. f_equal; ring. Qed.

Lemma Cscale_div_real (z : complex) (s : Qc) :
  Cscale 2 (Cdiv_real z s) = Cscale (2 / s) z.
Proof. unfold Cscale, Cdiv_real, Qcdiv. simpl. f_equal; ring. Qed.

Lemma profile_add_comm (a b : list complex) :
  zip_with Cadd a b = zip_with Cadd b a.
Proof.
  revert b. induction a as [|x a IH]; intros [|y b]; simpl; try done.
  by rewrite Cadd_comm, IH.
Qed.

Lemma profile_add_assoc (a b c : list complex) :
  zip_with Cadd a (zip_with Cadd b c) = zip_with Cadd (zip_with Cadd a b) c.
Proof.
  revert b c. induction a as [|x a IH]; intros [|y b] [|z c]; simpl; try done.
  by rewrite Cadd_assoc, IH.
Qed.

(** Accumulating [temp + buffer] antenna after antenna gives the sum. *)
Lemma accumulate_is_sum (acc : list complex) (profiles : list (list complex)) :
  foldl (λ buffer temp, zip_with Cadd temp buffer) acc profiles
  = foldr (zip_with Cadd) acc profiles.
Proof.
  revert acc. induction profiles as [|p profiles IH]; intros acc; [done|].
  simpl. rewrite IH. clear IH.
  induction profiles as [|q profiles IH]; simpl; [done|].
  rewrite IH, !profile_add_assoc. by rewrite (profile_add_comm q p).
Qed.

Section range_profile.
Context `{DspLibraryLaws}.

Lemma range_fft_of_antenna_described (samples : nat)
    (antenna : list (list complex)) :
  0 < length antenna → samples ≤ fft_size_range_profile →
  Forall (λ chirp, length chirp = samples) antenna →
  range_fft_of_antenna samples antenna
  = Some (described_antenna_profile samples antenna).
Proof.
  intros Hrows Hfit Hshape.
  unfold range_fft_of_antenna, np_average_rows, described_antenna_profile,
    profile_sum.
  rewrite (option_guard_True (0 < length antenna)) by exact Hrows.
  cbn [mbind option_bind].
  rewrite (option_guard_True (samples ≤ fft_size_range_profile))
    by exact Hfit.
  cbn [mbind option_bind].
  do 2 f_equal. rewrite zip_with_fmap_r, zip_with_diag, <-!list_fmap_compose.
  apply Forall_fmap_ext_1. eapply Forall_impl; [exact Hshape|].
  intros chirp Hlen. simpl.
  unfold described_chirp_profile, described_zero_padded, described_windowed,
    described_dc_removed.
  rewrite !length_zip_with, !length_fmap, length_blackmanharris, Hlen.
  rewrite Nat.min_id.
  change (fft_size_range_profile `div` 2) with 64.
  rewrite <-fmap_take, <-list_fmap_compose.
  apply list_fmap_ext. intros i z _. simpl. apply Cscale_div_real.
Qed.

Lemma accumulate_over_antennas
    (f : list (list complex) → option (list complex))
    (g : list (list complex) → list complex)
    (before data : list (list (list complex))) (acc : list complex) :
  Forall (λ mat, f mat = Some (g mat)) data →
  foldl (λ acc iAnt,
           range_fft_antennas_buffer ← acc;
           mat ← (before ++ data) !! iAnt;
           temp_range_fft ← f mat;
           Some (zip_with Cadd temp_range_fft range_fft_antennas_buffer))
        (Some acc) (seq (length before) (length data))
  = Some (foldl (λ buffer temp, zip_with Cadd temp buffer) acc (map g data)).
Proof.
  intros Hdata. revert before acc.
  induction Hdata as [|mat data Hmat _ IH]; intros before acc.
  { done. }
  cbn [length seq foldl map]. rewrite list_lookup_middle by done.
  cbn [mbind option_bind]. rewrite Hmat. cbn [mbind option_bind].
  specialize (IH (before ++ [mat]) (zip_with Cadd (g mat) acc)).
  rewrite <-app_assoc, length_app in IH. cbn [length app] in IH.
  rewrite Nat.add_1_r in IH. exact IH.
Qed.

(** C5: for a frame of the configured shape at the head of the queue,
    [calc_range_fft] dequeues it and returns the range profile of the
    description: the arithmetic mean over the receive antennas of the sum
    over chirps of the first [fft_size_range_profile / 2] bins of the FFT
    of the DC-removed, Blackman-Harris-windowed, zero-padded chirp, scaled
    by [2 / samples_per_chirp]. *)
Theorem range_profile_is_antenna_mean (frame : Frame) (queue : list Frame) :
  frame_shaped frame →
  calc_range_fft (frame :: queue)
  = Some (PyArray (described_range_profile frame), queue).
Proof.
  intros [(Harray & _ & Hchirps & Hsamples) Hants].
  assert (range_fft_of_frame frame = Some (described_range_profile frame))
    as Hprofile; [|by (cbn [calc_range_fft]; rewrite Hprofile)].
  unfold range_fft_of_frame. cbv zeta. rewrite <-Hants.
  pose proof (accumulate_over_antennas
                (range_fft_of_antenna (frame_samples frame))
                (described_antenna_profile (frame_samples frame)) []
                (frame_data frame)
                (np_czeros (fft_size_range_profile / 2))) as Hacc.
  cbn [app length] in Hacc. rewrite Hacc; clear Hacc.
  - cbn [mbind option_bind].
    rewrite accumulate_is_sum. unfold described_range_profile, profile_sum.
    by rewrite length_fmap.
  - eapply Forall_impl; [exact Harray|].
    intros antenna [Hrows Hantenna].
    apply range_fft_of_antenna_described; [lia|lia|exact Hantenna].
Qed.
End range_profile.

Lemma demo_frame_shaped : frame_shaped Demo.frame.
Proof. split; [exact demo_frame_ok|reflexivity]. Qed.

Lemma range_profile_is_antenna_mean_witness :
  frame_shaped Demo.frame
  ∧ @calc_range_fft RationalLibrary.library [Demo.frame]
    = Some (PyArray (@described_range_profile RationalLibrary.library
                       Demo.frame), []).
Proof.
  split; [exact demo_frame_shaped|].
  exact (range_profile_is_antenna_mean (H := RationalLibrary.library)
           Demo.frame [] demo_frame_shaped).
Defined.

(** ** C6: the tracked range bin *)

Lemma demo_hopping_ready : ready Demo.hopping.
Proof.
  destruct (demo_loaded_ready 1) as (Hs & Hw & _ & Hg & Hf & Hc).
  destruct Hs as (? & ? & ? & ? & ? & ? & ? & _ & ? & ? & ? & ?).
  unfold ready, buffers_sized, window_unwrapped, peak_indices_in_profile,
    Demo.hopping, with_buffers.
  cbn [bufs cfg data_queue counter radar_time_stamp slow_time_buffer_data
       I_Q_envelop wrapped_phase_plot unwrapped_phase_plot
       filtered_breathing_plot filtered_heart_plot range_profile_peak_indices
       breathing_rate_estimation_index heart_rate_estimation_index
       breathing_rate_estimation_value heart_rate_estimation_value].
  assert (length (np_zeros 1960 ++ replicate 11 (Qc_of_Z 42)
                  ++ replicate 29 (Qc_of_Z 43)) = buffer_data_size) as Hlen.
  { unfold np_zeros. rewrite !length_app, !length_replicate.
    by rewrite buffer_data_size_eq. }
  split; [by repeat (split; [assumption|])|].
  split; [exact Hw|]. split; [|done].
  unfold np_zeros. rewrite !Forall_app.
  split; [|split]; apply Forall_replicate; split; by vm_compute.
Qed.

Lemma demo_hopping_pass :
  @process_data_pass RationalLibrary.library 1%Qc Demo.hopping
  = Some Demo.hopped.
Proof.
  apply Some_default.
  destruct (process_data_pass_ready (H := RationalLibrary.library) 1%Qc
              Demo.hopping Demo.frame [] demo_hopping_ready eq_refl)
    as (st' & Hpass & _).
  exists st'. exact Hpass.
Qed.

Lemma demo_hopped_mean : tracked_mean (bufs Demo.hopped) = qc 171 4.
Proof. apply Qc_is_canon. vm_compute. reflexivity. Qed.

Lemma demo_hopped_bin : range_profile_peak_index Demo.hopped = 42%Z.
Proof. vm_cast_no_check (eq_refl 42%Z). Qed.

(** C6 as stated fails: with stored peak indices 42 (10 times) and 43
    (30 times) the mean is 42.75, which rounds to 43, and the pass tracks
    bin 42. *)
Lemma tracked_bin_not_rounded :
  @process_data_pass RationalLibrary.library 1%Qc Demo.hopping
  = Some Demo.hopped
  ∧ tracked_mean (bufs Demo.hopped) = qc 171 4
  ∧ range_profile_peak_index Demo.hopped = 42%Z
  ∧ ¬ tracked_bin_is_rounded_mean Demo.hopped.
Proof.
  split; [exact demo_hopping_pass|].
  split; [exact demo_hopped_mean|].
  split; [exact demo_hopped_bin|].
  unfold tracked_bin_is_rounded_mean, is_rounding.
  rewrite demo_hopped_mean, demo_hopped_bin. by vm_compute.
Qed.

Section tracked_bin.
Context `{DspLibraryLaws}.

(** C6, amended: a pass on a ready state returns; the index it stores in
    the peak-index buffer is the argmax of the range-profile magnitude
    inside the range gate plus the gate's start index, and the range bin it
    tracks is the arithmetic mean of the last [2 * vital_signs_sample_rate]
    entries of that buffer truncated to an integer, that is its floor (the
    entries are bins, hence not negative); with [max_index_processing] the
    sample pushed into the slow-time buffer is the range profile at that
    bin. *)
Theorem tracked_bin_is_truncated_mean (current_time : Qc) (st : State)
    (frame : Frame) (rest : list Frame) :
  ready st → data_queue st = frame :: rest →
  ∃ st' profile gate_peak,
    process_data_pass current_time st = Some st'
    ∧ range_fft_of_frame frame = Some profile
    ∧ np_argmax (py_slice (map np_abs profile) (start_index_range (cfg st))
                          (stop_index_range (cfg st))) = Some gate_peak
    ∧ range_profile_peak_indices (bufs st')
      = drop 1 (range_profile_peak_indices (bufs st))
        ++ [Qc_of_Z (Z.of_nat gate_peak + start_index_range (cfg st))]
    ∧ range_profile_peak_index st' = py_int (tracked_mean (bufs st'))
    ∧ (Qc_of_Z (range_profile_peak_index st') ≤ tracked_mean (bufs st')
       < Qc_of_Z (range_profile_peak_index st' + 1))%Qc
    ∧ (max_index_processing (cfg st) = true →
       last (slow_time_buffer_data (bufs st'))
       = profile !! Z.to_nat (range_profile_peak_index st')).
Proof.
  intros Hready Hqueue.
  destruct (process_data_pass_ready current_time st frame rest Hready Hqueue)
    as (st' & Hpass & Hready' & Heffect & _).
  destruct Heffect
    as (profile & gate_peak & sample & previous_time & unwrapped_new
        & breathing_new & heart_new & rate_br & rate_hr & previous_br
        & previous_hr & _ & _ & _ & _ & _ & Hprofile & Hlen & _ & Hgate & Hpk
        & Hidx & Hsample & _ & _ & Hslow & _).
  destruct Hready' as ((_ & _ & _ & _ & _ & _ & _ & Hpklen & _) & _ & Hbins & _).
  exists st', profile, gate_peak.
  assert (0 ≤ tracked_mean (bufs st')
          ≤ Qc_of_nat (fft_size_range_profile / 2 - 1))%Qc as [Hlo Hhi].
  { unfold tracked_mean. apply np_mean_bounds.
    - intros Hnil. apply (f_equal length) in Hnil. revert Hnil.
      change (-2 * Z.of_nat vital_signs_sample_rate)%Z
        with (- Z.of_nat (2 * vital_signs_sample_rate))%Z.
      rewrite length_py_slice_from_end
        by (rewrite vital_signs_sample_rate_eq; lia).
      rewrite Hpklen, vital_signs_sample_rate_eq, buffer_data_size_eq.
      simpl. lia.
    - unfold py_slice_from. by apply Forall_drop. }
  assert (range_profile_peak_index st' = Qcfloor (tracked_mean (bufs st')))
    as Hfloor.
  { rewrite Hidx. by apply py_int_floor. }
  split; [done|]. split; [done|]. split; [exact Hgate|].
  split; [exact Hpk|]. split; [exact Hidx|]. split.
  - rewrite Hfloor. apply Qcfloor_spec.
  - intros Hmax. rewrite Hmax in Hsample. rewrite Hslow, last_snoc.
    rewrite <-Hsample. apply py_getitem_nonneg.
    rewrite Hfloor, Hlen.
    destruct (Qcfloor_bounds (tracked_mean (bufs st')) 0
                (Z.of_nat (fft_size_range_profile / 2 - 1)))
      as [Hfloor_lo Hfloor_hi]; [by rewrite Z2Qc_inj_0|done|].
    change (fft_size_range_profile / 2) with 64 in Hfloor_hi |- *. lia.
Qed.
End tracked_bin.

Lemma tracked_bin_is_truncated_mean_witness :
  ready (Demo.loaded 1)
  ∧ data_queue (Demo.loaded 1) = [Demo.frame]
  ∧ ∃ st' gate_peak,
      @process_data_pass RationalLibrary.library 1%Qc (Demo.loaded 1)
      = Some st'
      ∧ last (range_profile_peak_indices (bufs st'))
        = Some (Qc_of_Z (Z.of_nat gate_peak
                         + start_index_range (cfg (Demo.loaded 1))))
      ∧ range_profile_peak_index st' = py_int (tracked_mean (bufs st')).
Proof.
  split_and!; [apply demo_loaded_ready|reflexivity|].
  destruct (tracked_bin_is_truncated_mean (H := RationalLibrary.library)
              1%Qc (Demo.loaded 1) Demo.frame [] (demo_loaded_ready 1)
              eq_refl)
    as (st' & profile & gate_peak & Hpass & _ & _ & Hpushed & Hbin & _).
  exists st', gate_peak. split; [exact Hpass|]. split; [|exact Hbin].
  rewrite Hpushed. apply last_snoc.
Defined.

(** ** C7: the displayed rate *)

Lemma py_round_spec (x : Qc) : is_rounding x (py_round x).
Proof.
  unfold is_rounding, py_round.
  destruct (Qcfloor_spec x) as [Flo Fhi].
  rewrite Qc_of_Z_plus, Z2Qc_inj_1 in Fhi.
  rewrite Qcabs_le.
  revert Flo Fhi. generalize (Qcfloor x) as f. intros f Flo Fhi.
  repeat case_bool_decide; try destruct (Z.even f);
    rewrite ?Qc_of_Z_plus, ?Z2Qc_inj_1;
    set (q := Qc_of_Z f) in *; clearbody q; qc2q; split; lra.
Qed.

Lemma np_linspace_lookup (start stop : Qc) (num i : nat) :
  i < num →
  np_linspace start stop num !! i
  = Some (start + Qc_of_nat i * ((stop - start) / Qc_of_nat (num - 1)))%Qc.
Proof.
  intros Hi. unfold np_linspace.
  change (map ?f ?l) with (f <$> l).
  rewrite list_lookup_fmap, lookup_seq_lt by done. done.
Qed.

Lemma x_axis_lookup (k : Z) :
  (0 ≤ k < Z.of_nat fft_size_vital_signs)%Z →
  py_getitem x_axis_vital_signs_spectrum k = Some (axis_frequency k).
Proof.
  intros Hk.
  assert (length x_axis_vital_signs_spectrum = fft_size_vital_signs) as Hlen.
  { unfold x_axis_vital_signs_spectrum, np_linspace.
    by rewrite length_map, length_seq. }
  rewrite py_getitem_nonneg by (by rewrite Hlen).
  unfold x_axis_vital_signs_spectrum.
  rewrite np_linspace_lookup by lia. f_equal. unfold axis_frequency.
  replace (Qc_of_nat (Z.to_nat k)) with (Qc_of_Z k)
    by (unfold Qc_of_nat; by rewrite Z2Nat.id by lia).
  change (Qc_of_nat vital_signs_sample_rate) with (Qc_of_Z 20).
  change (Qc_of_nat (fft_size_vital_signs - 1)) with (Qc_of_Z 1599).
  generalize (Qc_of_Z k). intros q. qc2q. lra.
Qed.

Lemma estimation_start_eq (k : band) : estimation_start k = 1900.
Proof. by destruct k. Qed.

Lemma Qc_of_Z_minus (a b : Z) : Qc_of_Z (a - b) = (Qc_of_Z a - Qc_of_Z b)%Qc.
Proof.
  apply Qc_is_canon. rewrite this_minus, !this_of_Z.
  unfold Z.sub, Qminus. by rewrite inject_Z_plus, inject_Z_opp.
Qed.

Lemma py_round_between (x : Qc) (lo hi : Z) :
  (Qc_of_Z lo - qc 1 2 < x)%Qc → (x < Qc_of_Z hi + qc 1 2)%Qc →
  (lo ≤ py_round x ≤ hi)%Z.
Proof.
  intros Hlo Hhi. pose proof (py_round_spec x) as Hr.
  unfold is_rounding in Hr. rewrite Qcabs_le in Hr. destruct Hr as [Hr1 Hr2].
  split.
  - apply Z.lt_pred_le, Qc_of_Z_lt. rewrite <-Z.sub_1_r.
    rewrite Qc_of_Z_minus, Z2Qc_inj_1.
    revert Hlo Hhi Hr1 Hr2.
    generalize (Qc_of_Z lo), (Qc_of_Z hi), (Qc_of_Z (py_round x)).
    intros; qc2q; lra.
  - apply Z.lt_succ_r, Qc_of_Z_lt. unfold Z.succ.
    rewrite Qc_of_Z_plus, Z2Qc_inj_1.
    revert Hlo Hhi Hr1 Hr2.
    generalize (Qc_of_Z lo), (Qc_of_Z hi), (Qc_of_Z (py_round x)).
    intros; qc2q; lra.
Qed.

Lemma estimation_bin_range (m : Qc) :
  (0 ≤ m ≤ Qc_of_nat (fft_size_vital_signs / 2 - 1))%Qc →
  (800 ≤ py_round (Qc_of_nat fft_size_vital_signs / 2 + m) ≤ 1599)%Z.
Proof.
  intros [Mlo Mhi].
  change (Qc_of_nat (fft_size_vital_signs / 2 - 1)) with (Qc_of_Z 799) in Mhi.
  change (Qc_of_nat fft_size_vital_signs) with (Qc_of_Z 1600).
  apply py_round_between; qc2q; lra.
Qed.

Lemma rate_value_update_emitted (k : band) (b : Buffers) :
  rate_emitted k b →
  rate_value_update (estimation_index_of k b) (estimation_value_of k b)
    (estimation_start k)
  = Some (drop 1 (estimation_value_of k b)
          ++ [Qc_of_Z (displayed_rate (estimation_mean k b))]).
Proof.
  intros (Hidx & Hval & Hall & first & Hfirst & Hpos).
  pose proof (estimation_start_eq k) as Hstart.
  unfold rate_value_update.
  rewrite (py_getitem_nonneg (estimation_index_of k b))
    by (rewrite Hidx, Hstart, buffer_data_size_eq; lia).
  rewrite Nat2Z.id, Hfirst. cbn [mbind option_bind].
  rewrite bool_decide_eq_true_2 by done.
  fold (estimation_mean k b).
  assert (800 ≤ py_round (Qc_of_nat fft_size_vital_signs / 2
                          + estimation_mean k b) ≤ 1599)%Z as Hbin.
  { apply estimation_bin_range, np_mean_bounds; [|done].
    rewrite py_slice_from_nonneg.
    intros E. apply (f_equal length) in E.
    rewrite length_drop, Hidx, Hstart, buffer_data_size_eq in E.
    cbn [length] in E. lia. }
  rewrite x_axis_lookup
    by (change (Z.of_nat fft_size_vital_signs) with 1600%Z; lia).
  cbn [mbind option_bind].
  rewrite roll_setitem_push; [unfold displayed_rate; reflexivity|].
  intros E. rewrite E, buffer_data_size_eq in Hval. discriminate Hval.
Qed.

Lemma displayed_rate_near_described (m : Qc) :
  (0 ≤ m ≤ Qc_of_nat (fft_size_vital_signs / 2 - 1))%Qc →
  (- qc 1 2 ≤ Qc_of_Z (displayed_rate m) - described_rate m ≤ qc 7 4)%Qc.
Proof.
  intros [Mlo Mhi].
  change (Qc_of_nat (fft_size_vital_signs / 2 - 1)) with (Qc_of_Z 799) in Mhi.
  unfold displayed_rate, described_rate, axis_frequency.
  change (Qc_of_nat fft_size_vital_signs) with (Qc_of_Z 1600).
  change (Qc_of_nat vital_signs_sample_rate) with (Qc_of_Z 20).
  change (Qc_of_nat (fft_size_vital_signs - 1)) with (Qc_of_Z 1599).
  set (bin := py_round (Qc_of_Z 1600 / 2 + m)).
  pose proof (py_round_spec (Qc_of_Z 1600 / 2 + m)) as Hbin.
  fold bin in Hbin. unfold is_rounding in Hbin. rewrite Qcabs_le in Hbin.
  set (xb := ((- (Qc_of_Z 20 / 2) + Qc_of_Z bin * (Qc_of_Z 20 / Qc_of_Z 1599))
              * Qc_of_Z 60)%Qc) in *.
  pose proof (py_round_spec xb) as Hr.
  unfold is_rounding in Hr. rewrite Qcabs_le in Hr.
  rewrite Qc_of_Z_minus.
  subst xb. revert Hbin Hr Mlo Mhi.
  generalize (Qc_of_Z bin) as q.
  generalize (Qc_of_Z (py_round ((- (Qc_of_Z 20 / 2) + Qc_of_Z bin * (Qc_of_Z 20 / Qc_of_Z 1599))
              * Qc_of_Z 60)%Qc)) as r.
  intros r q [H1 H2] [H3 H4] Mlo Mhi. qc2q. split; lra.
Qed.

Lemma demo_steady_emitted : rate_emitted Breathing (bufs Demo.steady).
Proof.
  unfold rate_emitted.
  change (estimation_index_of Breathing (bufs Demo.steady))
    with (replicate buffer_data_size (Qc_of_Z 23)).
  change (estimation_value_of Breathing (bufs Demo.steady))
    with (np_zeros buffer_data_size).
  split; [apply length_replicate|]. split; [apply length_replicate|]. split.
  - rewrite py_slice_from_nonneg. apply Forall_drop, Forall_replicate.
    split; by vm_compute.
  - exists (Qc_of_Z 23). split; [|by vm_compute].
    apply lookup_replicate_2.
    rewrite estimation_start_eq, buffer_data_size_eq. lia.
Qed.

Lemma demo_steady_mean :
  estimation_mean Breathing (bufs Demo.steady) = Qc_of_Z 23.
Proof.
  unfold estimation_mean.
  change (estimation_index_of Breathing (bufs Demo.steady))
    with (replicate buffer_data_size (Qc_of_Z 23)).
  rewrite py_slice_from_nonneg, estimation_start_eq, buffer_data_size_eq.
  rewrite drop_replicate. apply np_mean_constant.
  - change (2000 - 1900) with 100. discriminate.
  - by apply Forall_replicate.
Qed.

Lemma demo_steady_displayed : displayed_rate (Qc_of_Z 23) = 16%Z.
Proof. by vm_compute. Qed.

Lemma demo_steady_described : described_rate (Qc_of_Z 23) = qc 61 4.
Proof. apply Qc_is_canon. by vm_compute. Qed.

(** C7 as stated fails: with the breathing peak held at bin 23 the rate
    written is 16, while [23 * 20 / 1600 * 60 - 2] is [61/4]. *)
Lemma displayed_rate_not_described :
  rate_emitted Breathing (bufs Demo.steady)
  ∧ rate_value_update (breathing_rate_estimation_index (bufs Demo.steady))
      (breathing_rate_estimation_value (bufs Demo.steady))
      estimation_index_breathing
    = Some Demo.steady_rates
  ∧ last Demo.steady_rates = Some (Qc_of_Z 16)
  ∧ described_rate (estimation_mean Breathing (bufs Demo.steady)) = qc 61 4
  ∧ last Demo.steady_rates
    ≠ Some (described_rate (estimation_mean Breathing (bufs Demo.steady))).
Proof.
  pose proof (rate_value_update_emitted Breathing _ demo_steady_emitted)
    as Hupd.
  rewrite demo_steady_mean, demo_steady_displayed in Hupd.
  change (estimation_index_of Breathing (bufs Demo.steady))
    with (breathing_rate_estimation_index (bufs Demo.steady)) in Hupd.
  change (estimation_value_of Breathing (bufs Demo.steady))
    with (breathing_rate_estimation_value (bufs Demo.steady)) in Hupd.
  change (estimation_start Breathing) with estimation_index_breathing in Hupd.
  assert (last Demo.steady_rates = Some (Qc_of_Z 16)) as Hlast.
  { unfold Demo.steady_rates. rewrite Hupd. cbn [default].
    apply last_snoc. }
  split; [exact demo_steady_emitted|]. split.
  { unfold Demo.steady_rates. by rewrite Hupd. }
  split; [exact Hlast|]. split.
  { rewrite demo_steady_mean. exact demo_steady_described. }
  rewrite Hlast, demo_steady_mean, demo_steady_described.
  by intros [= E].
Qed.

(** C7, amended: when a rate is emitted for a band, the value pushed on
    its rate series is the frequency the spectrum axis holds at the rounded
    bin [fft_size_vital_signs / 2 + mean peak bin], times 60, rounded to an
    integer, minus 2; a timer tick that returns leaves exactly that series.
    The value lies between 1/2 below and 7/4 above
    [mean * sampleRate / fftSizeVital * 60 - 2].  Both bands. *)
Theorem displayed_rate_is_rounded_axis_frequency (k : band) (st : State) :
  rate_emitted k (bufs st) →
  rate_value_update (estimation_index_of k (bufs st))
    (estimation_value_of k (bufs st)) (estimation_start k)
  = Some (drop 1 (estimation_value_of k (bufs st))
          ++ [Qc_of_Z (displayed_rate (estimation_mean k (bufs st)))])
  ∧ (∀ st' messages,
       update_plots st = Some (st', messages) →
       estimation_value_of k (bufs st')
       = drop 1 (estimation_value_of k (bufs st))
         ++ [Qc_of_Z (displayed_rate (estimation_mean k (bufs st)))])
  ∧ (- qc 1 2
     ≤ Qc_of_Z (displayed_rate (estimation_mean k (bufs st)))
       - described_rate (estimation_mean k (bufs st))
     ≤ qc 7 4)%Qc.
Proof.
  intros Hem. pose proof (rate_value_update_emitted k _ Hem) as Hupd.
  split; [exact Hupd|]. split.
  - intros st' messages Htick.
    apply update_plots_inv in Htick
      as (_ & _ & _ & _ & _ & _ & _ & _ & _ & _ & _ & _ & _ & _ & _
          & Hb & Hh & _).
    destruct k; cbn [estimation_value_of estimation_index_of estimation_start]
      in *; congruence.
  - destruct Hem as (Hidx & _ & Hall & _).
    apply displayed_rate_near_described, np_mean_bounds; [|done].
    rewrite py_slice_from_nonneg. intros E. apply (f_equal length) in E.
    rewrite length_drop, Hidx, estimation_start_eq, buffer_data_size_eq in E.
    cbn [length] in E. lia.
Qed.

Lemma displayed_rate_is_rounded_axis_frequency_witness :
  rate_emitted Breathing (bufs Demo.steady)
  ∧ rate_value_update (estimation_index_of Breathing (bufs Demo.steady))
      (estimation_value_of Breathing (bufs Demo.steady))
      (estimation_start Breathing)
    = Some (drop 1 (estimation_value_of Breathing (bufs Demo.steady))
            ++ [Qc_of_Z (displayed_rate
                           (estimation_mean Breathing (bufs Demo.steady)))]).
Proof.
  split; [exact demo_steady_emitted|].
  exact (proj1 (displayed_rate_is_rounded_axis_frequency Breathing Demo.steady
                  demo_steady_emitted)).
Defined.

(** ** C8: presence *)

Lemma length_presence_window (l : list Qc) :
  length l = buffer_data_size → length (presence_window l) = 100.
Proof.
  intros Hl. unfold presence_window.
  rewrite length_py_slice_from_end, Hl, buffer_data_size_eq
    by (rewrite vital_signs_sample_rate_eq; lia).
  rewrite vital_signs_sample_rate_eq. lia.
Qed.

Lemma py_getitem_is_Some {A} (l : list A) (k : nat) :
  0 < k ≤ length l → is_Some (py_getitem l (- Z.of_nat k)).
Proof.
  intros Hk. rewrite py_getitem_from_end by done.
  apply lookup_lt_is_Some. lia.
Qed.

(** C8: with the OSC client on, a timer tick reports presence 1 exactly
    when the variance of the last 5 seconds of the filtered breathing
    signal exceeds 0.0001 and the mean of the last 5 seconds of the envelope
    exceeds 0.001; otherwise the messages are presence 0, both ratios 0.1
    and both rates 0, whatever the rate series hold. *)
Theorem presence_gate (st : State) :
  buffers_sized (bufs st) →
  ENABLE_OSC_OUTPUT (cfg st) = true → osc_client (cfg st) = true →
  ∃ messages,
    breathing_visualization st = Some messages
    ∧ (("/presence"%string, 1%Qc) ∈ messages ↔ signal_present (bufs st))
    ∧ (¬ signal_present (bufs st) →
       messages = [("/presence"%string, 0%Qc); ("/xratio"%string, qc 1 10);
                   ("/yratio"%string, qc 1 10); ("/xhz"%string, 0%Qc);
                   ("/yhz"%string, 0%Qc)]).
Proof.
  intros Hsized Hosc Hclient.
  destruct Hsized as (_ & _ & _ & _ & _ & Hfb & _).
  pose proof (length_presence_window _ Hfb) as Hrecent.
  unfold breathing_visualization, signal_present.
  fold (presence_window (filtered_breathing_plot (bufs st))).
  fold (presence_window (I_Q_envelop (bufs st))).
  rewrite Hosc, Hclient, Hrecent, Hfb, buffer_data_size_eq.
  rewrite (bool_decide_eq_true_2 (0 < 2000)) by lia.
  rewrite (bool_decide_eq_true_2 (0 < 100)) by lia.
  rewrite (bool_decide_eq_true_2 (2 < 100)) by lia.
  cbn [andb].
  destruct (py_getitem_is_Some (filtered_breathing_plot (bufs st)) 1)
    as [current Hcurrent]; [rewrite Hfb, buffer_data_size_eq; lia|].
  destruct (py_getitem_is_Some
              (presence_window (filtered_breathing_plot (bufs st))) 1)
    as [latest Hlatest]; [rewrite Hrecent; lia|].
  destruct (py_getitem_is_Some
              (presence_window (filtered_breathing_plot (bufs st))) 2)
    as [before Hbefore]; [rewrite Hrecent; lia|].
  change (- Z.of_nat 1)%Z with (-1)%Z in *.
  change (- Z.of_nat 2)%Z with (-2)%Z in *.
  rewrite Hcurrent, Hlatest. cbn [mbind option_bind].
  rewrite Hbefore. cbn [mbind option_bind].
  repeat case_bool_decide; cbn [andb]; eexists; (split; [reflexivity|]).
  - split; [split; [intros _; by split|intros _; set_solver]|].
    intros Hno. destruct Hno. by split.
  - split; [split; [|intros [_ ?]; done]|done].
    rewrite !elem_of_cons, elem_of_nil.
    intros [E|[E|[E|[E|[E|[]]]]]]; by inversion E.
  - split; [split; [|intros [? _]; done]|done].
    rewrite !elem_of_cons, elem_of_nil.
    intros [E|[E|[E|[E|[E|[]]]]]]; by inversion E.
  - split; [split; [|intros [? _]; done]|done].
    rewrite !elem_of_cons, elem_of_nil.
    intros [E|[E|[E|[E|[E|[]]]]]]; by inversion E.
Qed.

Lemma presence_gate_witness :
  buffers_sized (bufs Demo.start)
  ∧ ENABLE_OSC_OUTPUT (cfg Demo.start) = true
  ∧ osc_client (cfg Demo.start) = true
  ∧ ∃ messages,
      breathing_visualization Demo.start = Some messages
      ∧ (("/presence"%string, 1%Qc) ∈ messages
         ↔ signal_present (bufs Demo.start))
      ∧ (¬ signal_present (bufs Demo.start) →
         messages = [("/presence"%string, 0%Qc); ("/xratio"%string, qc 1 10);
                     ("/yratio"%string, qc 1 10); ("/xhz"%string, 0%Qc);
                     ("/yhz"%string, 0%Qc)]).
Proof.
  destruct (initial_state_ready Demo.config 0%Qc demo_gate_valid)
    as [Hsized _].
  split; [exact Hsized|]. split; [reflexivity|]. split; [reflexivity|].
  exact (presence_gate Demo.start Hsized eq_refl eq_refl).
Defined.

(** ** C9: band edges *)

Lemma demo_region_in_band :
  edge_in_band (qc 6 1) ∧ edge_in_band (qc 8 1) ∧ (qc 6 1 < qc 8 1)%Qc.
Proof. by vm_compute. Qed.

(** C9 as stated fails.  The region (6 Hz, 8 Hz) has both edges inside
    [0, sampleRate/2] and is not inverted, yet the breathing handler leaves
    the configuration as it was; the inverted region (3 Hz, 2 Hz) passes
    the handler's test and [firwin] raises. *)
Lemma band_change_not_as_described :
  (edge_in_band (qc 6 1) ∧ edge_in_band (qc 8 1) ∧ (qc 6 1 < qc 8 1)%Qc
   ∧ @linear_region_breathing_changed RationalLibrary.library
       (qc 6 1, qc 8 1) Demo.config = Some Demo.config
   ∧ index_start_breathing Demo.config ≠ band_index (qc 6 1))
  ∧ ((qc 2 1 < qc 3 1)%Qc
     ∧ @linear_region_breathing_changed RationalLibrary.library
         (qc 3 1, qc 2 1) Demo.config = None).
Proof. by vm_compute. Qed.

Section band_edges.
Context `{DspLibrary}.

Lemma region_accepted_spec (region : Qc * Qc) :
  region_accepted region = true
  ↔ (0 < region.1 < Qc_of_nat vital_signs_sample_rate / Qc_of_Z 4
     ∧ 0 < region.2 < Qc_of_nat vital_signs_sample_rate / 2)%Qc.
Proof.
  unfold region_accepted. rewrite !andb_true_iff, !bool_decide_eq_true.
  tauto.
Qed.

Lemma region_out_of_band_rejected (region : Qc * Qc) :
  ¬ (edge_in_band region.1 ∧ edge_in_band region.2) →
  region_accepted region = false.
Proof.
  intros Hout. apply not_true_is_false. rewrite region_accepted_spec.
  intros [[L1 L2] [U1 U2]]. apply Hout. unfold edge_in_band.
  change (Qc_of_nat vital_signs_sample_rate) with (Qc_of_Z 20) in *.
  clear Hout. destruct region as [lo hi]. cbn [fst snd] in *.
  split; split; qc2q; lra.
Qed.

Lemma nyquist_freq_eq : nyquist_freq = Qc_of_Z 10.
Proof. apply Qc_is_canon. by vm_compute. Qed.

Lemma firwin_band (lo hi : Qc) :
  (0 < lo)%Qc → (lo < hi)%Qc →
  (hi < Qc_of_nat vital_signs_sample_rate / 2)%Qc →
  firwin filter_order (lo / nyquist_freq) (hi / nyquist_freq)
  = Some (firwin_taps filter_order (lo / nyquist_freq) (hi / nyquist_freq)).
Proof.
  intros Hlo Hlt Hhi. unfold firwin. rewrite nyquist_freq_eq.
  change (Qc_of_nat vital_signs_sample_rate) with (Qc_of_Z 20) in *.
  rewrite !bool_decide_eq_true_2; [done|qc2q; lra..].
Qed.

Lemma firwin_inverted (lo hi : Qc) :
  (hi ≤ lo)%Qc →
  firwin filter_order (lo / nyquist_freq) (hi / nyquist_freq) = None.
Proof.
  intros Hinv. unfold firwin. rewrite nyquist_freq_eq.
  rewrite (bool_decide_eq_false_2 (lo / _ < hi / _)%Qc);
    [by rewrite andb_false_r|].
  qc2q; lra.
Qed.

(** C9, amended: a region with an edge outside [0, sampleRate/2], and more
    generally any region whose lower edge is not strictly between 0 and
    sampleRate/4 or whose upper edge is not strictly between 0 and
    sampleRate/2, is ignored by both handlers: they return, and the
    configuration is the one before.  A region that passes this test with
    its lower edge below its upper edge rebuilds the filter of the band from
    the two edges over the Nyquist frequency, and recomputes the two search
    indices of the band, leaving the other band alone.  (A region that
    passes the test with its edges inverted is not ignored: [firwin]
    raises.) *)
Theorem band_change_guard (region : Qc * Qc) (c : Config) :
  (¬ (edge_in_band region.1 ∧ edge_in_band region.2) →
   region_accepted region = false)
  ∧ (region_accepted region = false →
     linear_region_breathing_changed region c = Some c
     ∧ linear_region_heart_changed region c = Some c)
  ∧ (region_accepted region = true → (region.1 < region.2)%Qc →
     (∃ c', linear_region_breathing_changed region c = Some c'
            ∧ breathing_b c'
              = firwin_taps filter_order (region.1 / nyquist_freq)
                  (region.2 / nyquist_freq)
            ∧ index_start_breathing c' = band_index region.1
            ∧ index_end_breathing c' = band_index region.2
            ∧ low_breathing c' = region.1 ∧ high_breathing c' = region.2
            ∧ same_but_breathing c c')
     ∧ (∃ c', linear_region_heart_changed region c = Some c'
              ∧ heart_b c'
                = firwin_taps filter_order (region.1 / nyquist_freq)
                    (region.2 / nyquist_freq)
              ∧ index_start_heart c' = band_index region.1
              ∧ index_end_heart c' = band_index region.2
              ∧ low_heart c' = region.1 ∧ high_heart c' = region.2
              ∧ same_but_heart c c'))
  ∧ (region_accepted region = true → (region.2 ≤ region.1)%Qc →
     linear_region_breathing_changed region c = None
     ∧ linear_region_heart_changed region c = None).
Proof.
  split; [apply region_out_of_band_rejected|]. split.
  { intros Hrej. unfold linear_region_breathing_changed,
      linear_region_heart_changed. by rewrite Hrej. }
  split.
  - intros Hacc Hlt.
    pose proof (proj1 (region_accepted_spec region) Hacc) as [[L1 L2] [U1 U2]].
    unfold linear_region_breathing_changed, linear_region_heart_changed.
    rewrite Hacc, firwin_band by done. cbn [mbind option_bind].
    split; eexists; (split; [reflexivity|]); by repeat split.
  - intros Hacc Hinv.
    unfold linear_region_breathing_changed, linear_region_heart_changed.
    by rewrite Hacc, firwin_inverted.
Qed.
End band_edges.

(** The start-up breathing band moved to (0.2 Hz, 0.5 Hz). *)
Lemma band_change_guard_witness :
  region_accepted (qc 2 10, qc 5 10) = true
  ∧ (qc 2 10 < qc 5 10)%Qc
  ∧ ∃ c', @linear_region_breathing_changed RationalLibrary.library
            (qc 2 10, qc 5 10) Demo.config = Some c'
          ∧ index_start_breathing c' = 16%Z
          ∧ index_end_breathing c' = 40%Z.
Proof.
  assert (region_accepted (qc 2 10, qc 5 10) = true) as Hacc by by vm_compute.
  assert (qc 2 10 < qc 5 10)%Qc as Hlt by by vm_compute.
  split; [exact Hacc|]. split; [exact Hlt|].
  destruct (band_change_guard (H := RationalLibrary.library)
              (qc 2 10, qc 5 10) Demo.config)
    as (_ & _ & Hrebuild & _).
  destruct (Hrebuild Hacc Hlt) as [(c' & Hc' & _ & Hstart & Hend & _) _].
  exists c'. split; [exact Hc'|]. split.
  - rewrite Hstart. by vm_compute.
  - rewrite Hend. by vm_compute.
Defined.

(** * Further properties of the code *)

(** ** The queue between [read_data] and [process_data] *)

Lemma read_data_queue (frame_contents : list Frame) (st : State) :
  data_queue (read_data frame_contents st) = data_queue st ++ frame_contents
  ∧ bufs (read_data frame_contents st) = bufs st
  ∧ cfg (read_data frame_contents st) = cfg st
  ∧ counter (read_data frame_contents st) = counter st
  ∧ start_time (read_data frame_contents st) = start_time st.
Proof.
  revert st. unfold read_data.
  induction frame_contents as [|frame frames IH]; intros st; cbn [foldl].
  - by rewrite app_nil_r.
  - destruct (IH (enqueue_frame frame st)) as (-> & -> & -> & -> & ->).
    cbn [enqueue_frame data_queue bufs cfg counter start_time].
    by rewrite <-app_assoc.
Qed.

Lemma read_data_ready (frame_contents : list Frame) (st : State) :
  Forall frame_ok frame_contents → ready st →
  ready (read_data frame_contents st).
Proof.
  revert st. unfold read_data.
  induction frame_contents as [|frame frames IH]; intros st Hok Hready;
    cbn [foldl]; [done|].
  apply Forall_cons in Hok as [Hframe Hframes].
  apply IH; [done|]. by apply enqueue_frame_ready.
Qed.

Section queue_order.
Context `{DspLibraryLaws}.

Lemma process_data_passes_in_order (times : list Qc) (st : State) :
  ready st → length times ≤ length (data_queue st) →
  ∃ trace,
    process_data_passes times st = Some trace
    ∧ length trace = length times
    ∧ consumed_in_order (data_queue st) trace.
Proof.
  revert st. induction times as [|t times IH]; intros st Hready Hlen.
  - exists []. split; [done|]. split; [done|]. intros i s Hs. done.
  - destruct (data_queue st) as [|frame rest] eqn:Hq;
      [cbn [length] in Hlen; lia|].
    destruct (process_data_pass_ready t st frame rest Hready Hq)
      as (st1 & Hpass & Hready1 & Heffect & Hq1).
    destruct (IH st1 Hready1) as (trace & Htrace & Hlt & Horder).
    { rewrite Hq1. cbn [length] in Hlen. lia. }
    exists (st1 :: trace). cbn [process_data_passes].
    rewrite Hpass. cbn [mbind option_bind]. rewrite Htrace.
    cbn [mbind option_bind].
    split; [done|]. split; [cbn [length]; by rewrite Hlt|].
    intros [|i] s Hs.
    + injection Hs as <-.
      destruct Heffect as (profile & gate_peak & sample & ? & ? & ? & ? & ?
                           & ? & ? & ? & _ & _ & _ & _ & _ & Hprofile & _
                           & Habs & _).
      split; [by rewrite Hq1|]. exists frame, profile. by split.
    + destruct (Horder i s Hs) as (Hqs & frame' & profile & Hf & Hp & Ha).
      rewrite Hq1 in Hqs, Hf. split; [done|]. by exists frame', profile.
Qed.

(** Frames are processed in the order [read_data] put them: after the
    frames of one device read have been put behind those still waiting,
    the k-th pass that follows computes its range profile from the k-th
    frame of the queue and leaves the queue without its first k frames. *)
Theorem frames_processed_in_order (frame_contents : list Frame)
    (times : list Qc) (st : State) :
  ready st → Forall frame_ok frame_contents →
  length times ≤ length (data_queue st ++ frame_contents) →
  ∃ trace,
    process_data_passes times (read_data frame_contents st) = Some trace
    ∧ length trace = length times
    ∧ consumed_in_order (data_queue st ++ frame_contents) trace.
Proof.
  intros Hready Hok Hlen.
  destruct (read_data_queue frame_contents st) as (Hq & _).
  rewrite <-Hq in Hlen |- *.
  by apply process_data_passes_in_order; [apply read_data_ready|].
Qed.
End queue_order.

Lemma frames_processed_in_order_witness :
  ready Demo.start
  ∧ Forall frame_ok [Demo.frame; Demo.frame]
  ∧ length [1%Qc; 2%Qc]
    ≤ length (data_queue Demo.start ++ [Demo.frame; Demo.frame])
  ∧ ∃ trace,
      @process_data_passes RationalLibrary.library [1%Qc; 2%Qc]
        (read_data [Demo.frame; Demo.frame] Demo.start) = Some trace
      ∧ length trace = 2.
Proof.
  assert (ready Demo.start) as Hready by apply (demo_loaded_ready 0).
  assert (Forall frame_ok [Demo.frame; Demo.frame]) as Hok
    by (repeat constructor; apply demo_frame_ok).
  assert (length [1%Qc; 2%Qc]
          ≤ length (data_queue Demo.start ++ [Demo.frame; Demo.frame]))
    as Hlen by (vm_compute; lia).
  split; [exact Hready|]. split; [exact Hok|]. split; [exact Hlen|].
  destruct (frames_processed_in_order (H := RationalLibrary.library)
              [Demo.frame; Demo.frame] [1%Qc; 2%Qc] Demo.start Hready Hok
              Hlen)
    as (trace & Htrace & Hlt & _).
  exists trace. by split.
Defined.

(** ** The time axis *)

Section time_axis.
Context `{DspLibraryLaws}.

Lemma pass_stamps_time (current_time : Qc) (st st' : State) (frame : Frame)
    (previous : Qc) :
  pass_effect current_time st frame st' →
  last (radar_time_stamp (bufs st)) = Some previous →
  last (radar_time_stamp (bufs st'))
  = Some (previous + (current_time - start_time st))%Qc
  ∧ start_time st' = current_time.
Proof.
  intros (profile & gate_peak & sample & previous_time & ? & ? & ? & ? & ?
          & ? & ? & _ & _ & _ & Hstart & _ & _ & _ & _ & _ & _ & _ & _
          & Hprev & Hstamp & _) Hlast.
  rewrite Hstamp, last_snoc. split; [|done]. congruence.
Qed.

(** The newest time stamp follows the clock: after passes at the times
    [times], each with a frame waiting, it has advanced by the time of the
    last pass minus [start_time], whatever the times in between were, and
    [start_time] is the time of the last pass. *)
Theorem time_axis_follows_clock (times : list Qc) (st : State)
    (previous : Qc) :
  ready st → length times ≤ length (data_queue st) →
  last (radar_time_stamp (bufs st)) = Some previous →
  ∃ trace,
    process_data_passes times st = Some trace
    ∧ last (radar_time_stamp (bufs (default st (last trace))))
      = Some (previous + (default (start_time st) (last times)
                          - start_time st))%Qc
    ∧ start_time (default st (last trace))
      = default (start_time st) (last times).
Proof.
  revert st previous.
  induction times as [|t times IH]; intros st previous Hready Hlen Hlast.
  - exists []. split; [done|]. cbn [last default]. split; [|done].
    rewrite Hlast. f_equal. ring.
  - destruct (data_queue st) as [|frame rest] eqn:Hq;
      [cbn [length] in Hlen; lia|].
    destruct (process_data_pass_ready t st frame rest Hready Hq)
      as (st1 & Hpass & Hready1 & Heffect & Hq1).
    destruct (pass_stamps_time t st st1 frame previous Heffect Hlast)
      as [Hlast1 Hstart1].
    assert (length times ≤ length (data_queue st1)) as Hlen1
      by (rewrite Hq1; cbn [length] in Hlen; lia).
    destruct (IH st1 _ Hready1 Hlen1 Hlast1)
      as (trace & Htrace & Hstamp & Hstart).
    exists (st1 :: trace). cbn [process_data_passes].
    rewrite Hpass. cbn [mbind option_bind]. rewrite Htrace.
    cbn [mbind option_bind]. split; [done|].
    assert (default st (last (st1 :: trace)) = default st1 (last trace))
      as -> by (rewrite last_cons; by destruct (last trace)).
    assert (default (start_time st) (last (t :: times))
            = default t (last times)) as ->
      by (rewrite last_cons; by destruct (last times)).
    rewrite Hstart1 in Hstamp, Hstart. rewrite Hstamp, Hstart.
    split; [|done]. f_equal. ring.
Qed.
End time_axis.

(** Two passes, at times 1 and 3, on two waiting frames. *)
Lemma time_axis_follows_clock_witness :
  ready (Demo.loaded 2)
  ∧ length [1%Qc; Qc_of_Z 3] ≤ length (data_queue (Demo.loaded 2))
  ∧ last (radar_time_stamp (bufs (Demo.loaded 2))) = Some 0%Qc
  ∧ ∃ trace,
      @process_data_passes RationalLibrary.library [1%Qc; Qc_of_Z 3]
        (Demo.loaded 2) = Some trace
      ∧ last (radar_time_stamp (bufs (default (Demo.loaded 2) (last trace))))
        = Some (0 + (Qc_of_Z 3 - 0))%Qc.
Proof.
  assert (length [1%Qc; Qc_of_Z 3] ≤ length (data_queue (Demo.loaded 2)))
    as Hlen by (vm_compute; lia).
  assert (last (radar_time_stamp (bufs (Demo.loaded 2))) = Some 0%Qc)
    as Hlast by reflexivity.
  split; [apply demo_loaded_ready|]. split; [exact Hlen|].
  split; [exact Hlast|].
  destruct (time_axis_follows_clock (H := RationalLibrary.library)
              [1%Qc; Qc_of_Z 3] (Demo.loaded 2) 0%Qc (demo_loaded_ready 2)
              Hlen Hlast)
    as (trace & Htrace & Hstamp & _).
  exists trace. split; [exact Htrace|exact Hstamp].
Defined.

(** ** The range gate *)

Lemma Qcfloor_mono (x y : Qc) : (x ≤ y)%Qc → (Qcfloor x ≤ Qcfloor y)%Z.
Proof.
  intros Hxy. destruct (Qcfloor_spec x) as [Hx _].
  destruct (Qcfloor_spec y) as [_ Hy].
  assert (Qcfloor x < Qcfloor y + 1)%Z; [|lia].
  apply Qc_of_Z_lt. eapply Qcle_lt_trans; [|exact Hy].
  by eapply Qcle_trans.
Qed.

Lemma py_int_mono (x y : Qc) :
  (0 ≤ x)%Qc → (x ≤ y)%Qc → (0 ≤ py_int x ≤ py_int y)%Z.
Proof.
  intros Hx Hxy. rewrite !py_int_floor by (by eauto using Qcle_trans).
  split; [|by apply Qcfloor_mono].
  change 0%Z with (Qcfloor 0). by apply Qcfloor_mono.
Qed.

Lemma py_slice_empty {A} (l : list A) (start stop : Z) :
  (0 ≤ stop ≤ start)%Z → py_slice l start stop = [].
Proof.
  intros Hs. unfold py_slice. rewrite !py_slice_bound_nonneg by lia.
  replace (_ - _) with 0 by lia. done.
Qed.

(** The bin of a gate edge grows with the edge. *)
Lemma gate_index_mono (c : Config) (lo hi : Qc) :
  (0 < max_range c)%Qc → (0 ≤ lo ≤ hi)%Qc →
  (0 ≤ py_int (lo / max_range c * Qc_of_nat fft_size_range_profile / 2)
   ≤ py_int (hi / max_range c * Qc_of_nat fft_size_range_profile / 2))%Z.
Proof.
  intros Hmax [Hlo Hhi].
  change (Qc_of_nat fft_size_range_profile) with (Qc_of_Z 128).
  assert (0 < / max_range c)%Qc as Hinv.
  { unfold Qclt in *. rewrite this_inv, this_zero in *.
    by apply Qinv_lt_0_compat. }
  unfold Qcdiv. revert Hinv. generalize (/ max_range c)%Qc. intros k Hk.
  apply py_int_mono; qc2q; nra.
Qed.

Section range_gate.
Context `{DspLibrary}.

(** A gate that selects no bin makes the pass raise: [np.argmax] of an
    empty slice. *)
Lemma empty_gate_raises (current_time : Qc) (st : State) :
  data_queue st ≠ [] →
  (0 ≤ stop_index_range (cfg st) ≤ start_index_range (cfg st))%Z →
  process_data_pass current_time st = None.
Proof.
  intros Hq Hgate. unfold process_data_pass.
  destruct (data_queue st) as [|frame rest]; [done|]. cbv zeta.
  destruct (stamp_time _ _); cbn [mbind option_bind]; [|done].
  cbn [calc_range_fft].
  destruct (range_fft_of_frame frame) as [profile|];
    cbn [mbind option_bind is_not_None as_ndarray]; [|done].
  unfold track_range_bin. rewrite !py_slice_empty by done.
  reflexivity.
Qed.

(** [region_changed] takes any region.  When the region is inverted (or
    just empty), the next pass that finds a frame raises, where the band
    handlers would have been asked to ignore the change. *)
Theorem inverted_gate_raises (region : Qc * Qc) (current_time : Qc)
    (st : State) :
  data_queue st ≠ [] → (0 < max_range (cfg st))%Qc →
  (0 ≤ region.2 ≤ region.1)%Qc →
  process_data_pass current_time
    (with_cfg (region_changed region (cfg st)) st) = None.
Proof.
  intros Hq Hmax Hregion. apply empty_gate_raises; [done|].
  cbn [with_cfg cfg]. unfold start_index_range, stop_index_range.
  cbn [region_changed object_distance_start_range object_distance_stop_range
       max_range].
  by apply gate_index_mono.
Qed.
End range_gate.

(** The start-up gate (0.5 m, 0.6 m) turned round. *)
Lemma inverted_gate_raises_witness :
  data_queue (Demo.loaded 1) ≠ []
  ∧ (0 < max_range (cfg (Demo.loaded 1)))%Qc
  ∧ (0 ≤ (qc 6 10, qc 5 10).2 ≤ (qc 6 10, qc 5 10).1)%Qc
  ∧ @process_data_pass RationalLibrary.library 1%Qc
      (with_cfg (region_changed (qc 6 10, qc 5 10) (cfg (Demo.loaded 1)))
         (Demo.loaded 1)) = None.
Proof.
  assert (data_queue (Demo.loaded 1) ≠ []) as Hq by discriminate.
  assert (0 < max_range (cfg (Demo.loaded 1)))%Qc as Hmax by by vm_compute.
  assert (0 ≤ (qc 6 10, qc 5 10).2 ≤ (qc 6 10, qc 5 10).1)%Qc as Hregion
    by (split; by vm_compute).
  split; [exact Hq|]. split; [exact Hmax|]. split; [exact Hregion|].
  exact (inverted_gate_raises (H := RationalLibrary.library)
           (qc 6 10, qc 5 10) 1%Qc (Demo.loaded 1) Hq Hmax Hregion).
Defined.

(** ** The peak picker *)

Lemma argmax_from_spec (best_i : nat) (best : Qc) (i : nat) (l : list Qc) :
  ∃ m, (best ≤ m)%Qc ∧ Forall (λ x, x ≤ m)%Qc l
       ∧ ((argmax_from best_i best i l = best_i ∧ m = best)
          ∨ (i ≤ argmax_from best_i best i l
             ∧ l !! (argmax_from best_i best i l - i) = Some m)).
Proof.
  revert best_i best i. induction l as [|x l IH]; intros best_i best i.
  - exists best. split; [apply Qcle_refl|]. split; [done|]. by left.
  - cbn [argmax_from]. case_bool_decide as Hlt.
    + destruct (IH i x (S i)) as (m & Hm & Hall & Hcase).
      exists m. split; [|split].
      * apply Qclt_le_weak. by eapply Qclt_le_trans.
      * by constructor.
      * right. destruct Hcase as [[-> ->]|[Hle Hlook]].
        -- split; [done|]. by rewrite Nat.sub_diag.
        -- split; [lia|].
           replace (argmax_from i x (S i) l - i)
             with (S (argmax_from i x (S i) l - S i)) by lia.
           done.
    + destruct (IH best_i best (S i)) as (m & Hm & Hall & Hcase).
      exists m. split; [done|]. split.
      * constructor; [|done]. apply Qcnot_lt_le in Hlt.
        by eapply Qcle_trans.
      * destruct Hcase as [[-> ->]|[Hle Hlook]]; [by left|].
        right. split; [lia|].
        replace (argmax_from best_i best (S i) l - i)
          with (S (argmax_from best_i best (S i) l - S i)) by lia.
        done.
Qed.

(** [np.argmax] returns a position of the largest entry. *)
Lemma np_argmax_max (l : list Qc) (g : nat) :
  np_argmax l = Some g →
  ∃ m, l !! g = Some m ∧ Forall (λ x, x ≤ m)%Qc l.
Proof.
  destruct l as [|x l]; [done|]. intros [= <-].
  destruct (argmax_from_spec 0 x 1 l) as (m & Hm & Hall & Hcase).
  exists m. split; [|by constructor].
  destruct Hcase as [[-> ->]|[Hle Hlook]]; [done|].
  destruct (argmax_from 0 x 1 l) as [|j]; [lia|].
  cbn [lookup list_lookup]. by replace (S j - 1) with j in Hlook by lia.
Qed.

Lemma py_slice_lookup {A} (l : list A) (start stop : Z) (i : nat) (x : A) :
  (0 ≤ start)%Z → (0 ≤ stop)%Z →
  py_slice l start stop !! i = Some x →
  l !! (Z.to_nat start + i) = Some x
  ∧ (Z.of_nat (Z.to_nat start + i) < stop)%Z.
Proof.
  intros Hstart Hstop. unfold py_slice.
  rewrite !py_slice_bound_nonneg by done. intros Hx.
  apply lookup_take_Some in Hx as [Hx Hi].
  rewrite lookup_drop in Hx.
  assert (Z.to_nat start `min` length l + i < length l) as Hlt
    by (by eapply lookup_lt_Some).
  replace (Z.to_nat start `min` length l) with (Z.to_nat start) in * by lia.
  split; [done|]. lia.
Qed.

Section peak_picker.
Context `{DspLibraryLaws}.

(** [find_signal_peaks] returns 0 when [find_peaks] finds nothing in the
    band; otherwise it returns a bin of the band, inside the spectrum, at
    which [find_peaks] found a peak, and no peak found is higher. *)
Theorem find_signal_peaks_in_band (fft : list Qc) (index_start index_end : Z)
    (distance : Qc) :
  (0 ≤ index_start)%Z → (0 ≤ index_end)%Z →
  ∃ rate_index,
    find_signal_peaks fft index_start index_end distance = Some rate_index
    ∧ let signal_region := py_slice fft index_start index_end in
      let peaks :=
        find_peaks signal_region
          (Z.to_nat (py_int (Qcmax 1 (distance * Qc_of_nat fft_size_vital_signs
                                       / Qc_of_nat vital_signs_sample_rate))))
          None None in
      (peaks = [] ∧ rate_index = 0%Z)
      ∨ ∃ peak height,
          peak ∈ peaks
          ∧ rate_index = (Z.of_nat peak + index_start)%Z
          ∧ (index_start ≤ rate_index < index_end)%Z
          ∧ fft !! Z.to_nat rate_index = Some height
          ∧ ∀ other other_height,
              other ∈ peaks → signal_region !! other = Some other_height →
              (other_height ≤ height)%Qc.
Proof.
  intros Hstart Hend.
  destruct (find_signal_peaks_total fft index_start index_end distance)
    as [rate_index Hfind].
  exists rate_index. split; [done|]. cbv zeta.
  unfold find_signal_peaks in Hfind. cbv zeta in Hfind.
  destruct (find_peaks _ _ None None) as [|p peaks] eqn:Hpeaks.
  { left. split; [done|]. cbn [length] in Hfind.
    rewrite bool_decide_eq_false_2 in Hfind by lia. by injection Hfind. }
  right. rewrite bool_decide_eq_true_2 in Hfind by (cbn [length]; lia).
  apply bind_Some in Hfind as (heights & Hheights & Hfind).
  apply bind_Some in Hfind as (best & Hbest & Hfind).
  apply bind_Some in Hfind as (peak & Hpeak & [= <-]).
  unfold py_take_indices in Hheights. apply mapM_Some in Hheights.
  destruct (np_argmax_max heights best Hbest) as (height & Hheight & Hmax).
  destruct (Forall2_lookup_l _ _ _ _ _ Hheights Hpeak)
    as (height' & Hheight' & Hregion).
  assert (height' = height) as -> by congruence.
  destruct (py_slice_lookup fft index_start index_end peak height Hstart Hend
              Hregion) as [Hfft Hlt].
  exists peak, height. split; [by eapply list_elem_of_lookup_2|].
  split; [done|]. split; [lia|]. split.
  { by replace (Z.to_nat (Z.of_nat peak + index_start))
      with (Z.to_nat index_start + peak) by lia. }
  intros other other_height Hother Hoh.
  apply list_elem_of_lookup in Hother as [k Hk].
  destruct (Forall2_lookup_l _ _ _ _ _ Hheights Hk) as (h & Hh & Hreg).
  assert (h = other_height) as -> by congruence.
  by eapply (Forall_lookup_1 _ _ _ _ Hmax).
Qed.
End peak_picker.

(** A spectrum with peaks 3 at bin 1 and 5 at bin 3. *)
Lemma find_signal_peaks_in_band_witness :
  (0 ≤ 0)%Z ∧ (0 ≤ 5)%Z
  ∧ @find_signal_peaks RationalLibrary.library
      [1%Qc; Qc_of_Z 3; 2%Qc; Qc_of_Z 5; 1%Qc] 0 5 peak_finding_distance
    = Some 3%Z.
Proof.
  split; [lia|]. split; [lia|].
  destruct (find_signal_peaks_in_band (H := RationalLibrary.library)
              [1%Qc; Qc_of_Z 3; 2%Qc; Qc_of_Z 5; 1%Qc] 0 5
              peak_finding_distance) as (rate_index & Hfind & _); [lia..|].
  rewrite Hfind. f_equal.
  assert (@find_signal_peaks RationalLibrary.library
            [1%Qc; Qc_of_Z 3; 2%Qc; Qc_of_Z 5; 1%Qc] 0 5 peak_finding_distance
          = Some 3%Z) as Hrun by (by vm_compute).
  congruence.
Defined.

(** ** The vital-signs spectrum *)

Lemma Qcabs_nonneg (x : Qc) : (0 ≤ Qcabs x)%Qc.
Proof. unfold Qcabs. case_bool_decide; qc2q; lra. Qed.

Lemma norm1_nonneg (z : complex) : (0 ≤ RationalLibrary.norm1 z)%Qc.
Proof.
  unfold RationalLibrary.norm1.
  pose proof (Qcabs_nonneg (Re z)). pose proof (Qcabs_nonneg (Im z)).
  revert H H0. generalize (Qcabs (Re z)), (Qcabs (Im z)). intros; qc2q; lra.
Qed.

Lemma Qc_of_nat_inv_nonneg (n : nat) : (0 ≤ 1 / Qc_of_nat n)%Qc.
Proof.
  destruct n as [|n].
  - by vm_compute.
  - pose proof (Qc_of_nat_pos (S n) ltac:(lia)) as Hpos.
    unfold Qcdiv. rewrite Qcmult_1_l.
    unfold Qcle, Qclt in *. rewrite this_inv, this_zero in *.
    by apply Qlt_le_weak, Qinv_lt_0_compat.
Qed.

Section spectrum.
Context `{DspLibraryLaws}.

Lemma vital_signs_fft_inv (data : list complex) (nFFT n : nat)
    (s : list Qc) :
  vital_signs_fft data nFFT n = Some s →
  0 < nFFT
  ∧ ∃ zp2, s = map (λ z, 1 / Qc_of_nat nFFT * np_abs z + epsilon_value)%Qc
                   (np_fft nFFT zp2).
Proof.
  unfold vital_signs_fft. intros Hs.
  apply bind_Some in Hs as (windowed & _ & Hs).
  apply bind_Some in Hs as (zp2 & _ & Hs).
  apply bind_Some in Hs as (Hpos & _ & [= <-]).
  split; [exact Hpos|by exists zp2].
Qed.

(** [vital_signs_fft] returns for [data] of [data_length] entries, and for
    a single entry, which NumPy repeats along the window, when the window
    fits in [nFFT > 0]; what it returns has [nFFT] bins and, magnitudes
    being non-negative, no bin below [epsilon_value].  It raises for
    [nFFT = 0], for [data_length] entries that do not fit in [nFFT], and
    for a [data] and a window of different lengths above 1. *)
Theorem vital_signs_fft_floor (data : list complex) (nFFT data_length : nat) :
  (∀ z, 0 ≤ np_abs z)%Qc →
  (∀ fft_result,
     vital_signs_fft data nFFT data_length = Some fft_result →
     0 < nFFT ∧ length fft_result = nFFT
     ∧ Forall (λ x, epsilon_value ≤ x)%Qc fft_result)
  ∧ (length data = data_length ∨ length data = 1 →
     data_length ≤ nFFT → 0 < nFFT →
     is_Some (vital_signs_fft data nFFT data_length))
  ∧ (nFFT = 0
     ∨ (length data = data_length ∧ nFFT < data_length)
     ∨ (1 < length data ∧ 1 < data_length ∧ length data ≠ data_length) →
     vital_signs_fft data nFFT data_length = None).
Proof.
  intros Habs. split_and!.
  - intros fft_result Hrun.
    apply vital_signs_fft_inv in Hrun as (Hpos & zp2 & ->).
    split; [exact Hpos|]. split.
    + by rewrite length_map, length_np_fft.
    + apply Forall_forall. intros x Hx.
      apply list_elem_of_fmap in Hx as (z & -> & _).
      pose proof (Qc_of_nat_inv_nonneg nFFT) as Hk.
      pose proof (Habs z) as Hz. revert Hk Hz.
      generalize (1 / Qc_of_nat nFFT)%Qc, (np_abs z), epsilon_value.
      intros k a e Hk Ha. qc2q. nra.
  - intros Hdata Hfit Hpos.
    destruct (vital_signs_fft_returns data nFFT data_length Hdata Hfit Hpos)
      as (s & -> & _).
    by eexists.
  - intros Hbad.
    destruct (vital_signs_fft data nFFT data_length) as [s|] eqn:Hrun;
      [exfalso|reflexivity].
    unfold vital_signs_fft in Hrun.
    apply bind_Some in Hrun as (windowed & Hw & Hrun).
    apply bind_Some in Hrun as (zp2 & Hzp & Hrun).
    apply bind_Some in Hrun as (Hpos & _ & _).
    unfold np_elementwise in Hw. rewrite length_blackmanharris in Hw.
    destruct Hbad as [->|[[Hlen Hfit]|(Hdata & Hwin & Hne)]]; [lia| |].
    + rewrite bool_decide_eq_true_2 in Hw by exact Hlen.
      assert (length windowed = data_length) as Hwl.
      { injection Hw as <-. rewrite length_zip_with, length_blackmanharris.
        lia. }
      assert (py_slice_bound (length (np_czeros nFFT)) (Z.of_nat data_length)
              = nFFT) as Hb.
      { rewrite py_slice_bound_nonneg by lia.
        unfold np_czeros. rewrite length_replicate. lia. }
      unfold py_assign_to in Hzp. cbv zeta in Hzp. rewrite Hb in Hzp.
      rewrite bool_decide_eq_false_2 in Hzp by lia.
      destruct windowed as [|? [|? ?]]; cbn [length] in Hwl; [done|lia|done].
    + rewrite bool_decide_eq_false_2 in Hw by exact Hne.
      pose proof (length_blackmanharris data_length) as Hwl.
      destruct data as [|x [|? ?]]; cbn [length] in Hdata; [lia..|].
      destruct (blackmanharris data_length) as [|w [|? ?]];
        cbn [length] in Hwl; [lia..|done].
Qed.
End spectrum.

(** A single entry under a window of 4, padded to 8 bins. *)
Lemma vital_signs_fft_floor_witness :
  (∀ z, 0 ≤ @np_abs RationalLibrary.library z)%Qc
  ∧ ∃ fft_result,
      @vital_signs_fft RationalLibrary.library [Cx 1 2] 8 4 = Some fft_result
      ∧ 0 < 8 ∧ length fft_result = 8
      ∧ Forall (λ x, epsilon_value ≤ x)%Qc fft_result.
Proof.
  split; [exact norm1_nonneg|].
  destruct (vital_signs_fft_floor (H := RationalLibrary.library)
              [Cx 1 2] 8 4 norm1_nonneg) as (Hfloor & Hreturns & _).
  destruct (Hreturns (or_intror eq_refl) ltac:(lia) ltac:(lia))
    as [fft_result Hrun].
  exists fft_result. split; [exact Hrun|]. exact (Hfloor fft_result Hrun).
Defined.

(** ** The OSC messages *)

Lemma rate_in_hz_nonneg (estimation_value : list Qc) :
  (0 ≤ rate_in_hz estimation_value)%Qc.
Proof.
  unfold rate_in_hz. repeat case_bool_decide; try apply Qcle_refl.
  revert H0. generalize (np_mean (py_slice_from estimation_value
    (- Z.of_nat (estimation_time * vital_signs_sample_rate)))).
  intros a Ha. qc2q. lra.
Qed.

Lemma osc_value_range (x : Qc) :
  (qc 1 10 ≤ Qcmax (qc 1 10) (Qcmin 1 x) ≤ 1)%Qc.
Proof.
  unfold Qcmax, Qcmin. repeat case_bool_decide; qc2q; split; lra.
Qed.

Lemma breathing_visualization_silent (st : State) :
  ENABLE_OSC_OUTPUT (cfg st) && osc_client (cfg st) = false →
  ∀ messages, breathing_visualization st = Some messages → messages = [].
Proof.
  intros Hoff messages. unfold breathing_visualization. rewrite Hoff.
  repeat case_bool_decide; cbn [andb]; intros Hm;
    repeat (apply bind_Some in Hm as (? & _ & Hm)); congruence.
Qed.

(** The presence test returns on every state, with nothing or five
    messages in the ranges of [telemetry_ok]. *)
Lemma breathing_visualization_returns (st : State) :
  ∃ messages,
    breathing_visualization st = Some messages
    ∧ Forall telemetry_ok messages
    ∧ (length messages = 0 ∨ length messages = 5)
    ∧ (∀ v w, ("/xratio"%string, v) ∈ messages →
              ("/yratio"%string, w) ∈ messages → v = w).
Proof.
  assert (Forall telemetry_ok []
          ∧ (length (@nil osc_message) = 0 ∨ length (@nil osc_message) = 5)
          ∧ (∀ v w : Qc, ("/xratio"%string, v) ∈ @nil osc_message →
                    ("/yratio"%string, w) ∈ @nil osc_message → v = w))
    as Hsilent.
  { split; [constructor|]. split; [by left|].
    intros v w Hv. by apply elem_of_nil in Hv. }
  unfold breathing_visualization.
  set (fb := filtered_breathing_plot (bufs st)).
  fold (presence_window fb). fold (presence_window (I_Q_envelop (bufs st))).
  set (recent := presence_window fb).
  assert (length recent = 100 `min` length fb) as Hrecent.
  { unfold recent, presence_window.
    by rewrite length_py_slice_from_end
      by (rewrite vital_signs_sample_rate_eq; lia). }
  destruct (decide (0 < length fb)) as [Hfb|Hfb];
    [rewrite (bool_decide_eq_true_2 (0 < length fb)) by done
    |rewrite (bool_decide_eq_false_2 (0 < length fb)) by done;
     exists []; by split].
  assert (0 < length recent) as Hr by lia.
  rewrite (bool_decide_eq_true_2 (0 < length recent)) by done.
  destruct (bool_decide (min_variance_threshold < np_var recent)%Qc
            && bool_decide (min_envelope_threshold
                            < np_mean (presence_window
                                         (I_Q_envelop (bufs st))))%Qc)
    eqn:Hpresent.
  - destruct (py_getitem_is_Some fb 1) as [current Hcurrent]; [lia|].
    change (- Z.of_nat 1)%Z with (-1)%Z in Hcurrent.
    rewrite Hcurrent. cbn [mbind option_bind].
    destruct (decide (2 < length recent)) as [Hlong|Hlong];
      [rewrite (bool_decide_eq_true_2 (2 < length recent)) by done
      |rewrite (bool_decide_eq_false_2 (2 < length recent)) by done;
       exists []; by split].
    destruct (py_getitem_is_Some recent 1) as [latest Hlatest]; [lia|].
    destruct (py_getitem_is_Some recent 2) as [before Hbefore]; [lia|].
    change (- Z.of_nat 1)%Z with (-1)%Z in Hlatest.
    change (- Z.of_nat 2)%Z with (-2)%Z in Hbefore.
    rewrite Hlatest. cbn [mbind option_bind].
    rewrite Hbefore. cbn [mbind option_bind].
    destruct (ENABLE_OSC_OUTPUT (cfg st) && osc_client (cfg st));
      [|exists []; by split].
    eexists. split; [reflexivity|]. split; [|split; [by right|]].
    + repeat (apply Forall_cons; split); [..|by apply Forall_nil];
        unfold telemetry_ok; cbn [fst snd].
      * right. right. split; [by left|apply rate_in_hz_nonneg].
      * right. right. split; [by right|].
        pose proof (rate_in_hz_nonneg (heart_rate_estimation_value (bufs st)))
          as Hh. revert Hh. generalize (rate_in_hz
            (heart_rate_estimation_value (bufs st))).
        intros a Ha. qc2q. lra.
      * right. left. split; [by left|apply osc_value_range].
      * right. left. split; [by right|apply osc_value_range].
      * left. split; [done|by right].
    + intros v w. rewrite !elem_of_cons, !elem_of_nil.
      intros [E|[E|[E|[E|[E|[]]]]]] [E'|[E'|[E'|[E'|[E'|[]]]]]];
        inversion E; inversion E'; congruence.
  - destruct (ENABLE_OSC_OUTPUT (cfg st) && osc_client (cfg st));
      [|exists []; by split].
    eexists. split; [reflexivity|]. split; [|split; [by right|]].
    + repeat (apply Forall_cons; split); [..|by apply Forall_nil];
        unfold telemetry_ok; cbn [fst snd].
      * left. split; [done|by left].
      * right. left. split; [by left|split; by vm_compute].
      * right. left. split; [by right|split; by vm_compute].
      * right. right. split; [by left|apply Qcle_refl].
      * right. right. split; [by right|apply Qcle_refl].
    + intros v w. rewrite !elem_of_cons, !elem_of_nil.
      intros [E|[E|[E|[E|[E|[]]]]]] [E'|[E'|[E'|[E'|[E'|[]]]]]];
        inversion E; inversion E'; congruence.
Qed.

(** A timer tick never fails in the presence test, whatever the buffers
    hold.  It sends nothing or five messages: the presence is 0 or 1, both
    ratios are the same number between 0.1 and 1, both rates are not
    negative; and it sends nothing when the OSC output is off. *)
Theorem telemetry_in_range (st : State) :
  ∃ messages,
    breathing_visualization st = Some messages
    ∧ Forall telemetry_ok messages
    ∧ (length messages = 0 ∨ length messages = 5)
    ∧ (∀ v w, ("/xratio"%string, v) ∈ messages →
              ("/yratio"%string, w) ∈ messages → v = w)
    ∧ (ENABLE_OSC_OUTPUT (cfg st) && osc_client (cfg st) = false →
       messages = []).
Proof.
  destruct (breathing_visualization_returns st)
    as (messages & Hm & Hok & Hlen & Hsame).
  exists messages. split; [exact Hm|]. split; [exact Hok|].
  split; [exact Hlen|]. split; [exact Hsame|].
  intros Hoff. by eapply breathing_visualization_silent.
Qed.

(** ** The search bounds of a band *)

Lemma band_index_range (lo hi : Qc) :
  (0 < lo)%Qc → (lo ≤ hi)%Qc →
  (hi < Qc_of_nat vital_signs_sample_rate / 2)%Qc →
  (0 ≤ band_index lo ≤ band_index hi
   ∧ band_index hi < Z.of_nat (fft_size_vital_signs / 2))%Z.
Proof.
  intros Hlo Hle Hhi. unfold band_index.
  change (Qc_of_nat vital_signs_sample_rate) with (Qc_of_Z 20) in *.
  change (Qc_of_nat fft_size_vital_signs) with (Qc_of_Z 1600).
  change (Z.of_nat (fft_size_vital_signs / 2)) with 800%Z.
  split; [apply py_int_mono; qc2q; lra|].
  rewrite py_int_floor by (qc2q; lra).
  destruct (Qcfloor_spec (hi / Qc_of_Z 20 * Qc_of_Z 1600)) as [Hfloor _].
  apply Qc_of_Z_lt. eapply Qcle_lt_trans; [exact Hfloor|].
  qc2q; lra.
Qed.

Section band_bounds.
Context `{DspLibrary}.

(** A band change that is taken up leaves search bounds in the first half
    of the spectrum, the start not above the end: the slice
    [find_signal_peaks] takes is a run of positive-frequency bins, and a
    bin it returns can be looked up on the frequency axis after the shift
    by [fft_size_vital_signs / 2]. *)
Theorem band_change_keeps_half_spectrum (region : Qc * Qc) (c c' : Config) :
  region_accepted region = true → bands_in_half_spectrum c →
  (linear_region_breathing_changed region c = Some c' →
   bands_in_half_spectrum c'
   ∧ (index_start_breathing c' ≤ index_end_breathing c')%Z)
  ∧ (linear_region_heart_changed region c = Some c' →
     bands_in_half_spectrum c'
     ∧ (index_start_heart c' ≤ index_end_heart c')%Z).
Proof.
  intros Hacc (Hbs & Hbe & Hhs & Hhe).
  pose proof (proj1 (region_accepted_spec region) Hacc) as [[L1 L2] [U1 U2]].
  unfold linear_region_breathing_changed, linear_region_heart_changed.
  rewrite Hacc. split; intros Hc'.
  - apply bind_Some in Hc' as (taps & Hfir & [= <-]).
    unfold firwin in Hfir. case_match eqn:Hvalid; [|done].
    apply andb_prop in Hvalid as [Hvalid _].
    apply andb_prop in Hvalid as [_ Hlt]. apply bool_decide_eq_true in Hlt.
    assert (region.1 ≤ region.2)%Qc as Hle.
    { rewrite nyquist_freq_eq in Hlt. revert Hlt.
      generalize region.1, region.2. intros a b Hab. qc2q. lra. }
    destruct (band_index_range _ _ L1 Hle U2) as [[? ?] ?].
    unfold bands_in_half_spectrum.
    cbn [index_start_breathing index_end_breathing index_start_heart
         index_end_heart]. lia.
  - apply bind_Some in Hc' as (taps & Hfir & [= <-]).
    unfold firwin in Hfir. case_match eqn:Hvalid; [|done].
    apply andb_prop in Hvalid as [Hvalid _].
    apply andb_prop in Hvalid as [_ Hlt]. apply bool_decide_eq_true in Hlt.
    assert (region.1 ≤ region.2)%Qc as Hle.
    { rewrite nyquist_freq_eq in Hlt. revert Hlt.
      generalize region.1, region.2. intros a b Hab. qc2q. lra. }
    destruct (band_index_range _ _ L1 Hle U2) as [[? ?] ?].
    unfold bands_in_half_spectrum.
    cbn [index_start_breathing index_end_breathing index_start_heart
         index_end_heart]. lia.
Qed.
End band_bounds.

Lemma demo_bands : bands_in_half_spectrum Demo.config.
Proof. by vm_compute. Qed.

Lemma demo_breathing_band_change :
  is_Some (@linear_region_breathing_changed RationalLibrary.library
             (qc 2 10, qc 5 10) Demo.config).
Proof.
  unfold linear_region_breathing_changed.
  assert (region_accepted (qc 2 10, qc 5 10) = true) as -> by by vm_compute.
  rewrite firwin_band by by vm_compute. by eexists.
Qed.

(** The start-up breathing band moved to (0.2 Hz, 0.5 Hz). *)
Lemma band_change_keeps_half_spectrum_witness :
  region_accepted (qc 2 10, qc 5 10) = true
  ∧ bands_in_half_spectrum Demo.config
  ∧ ∃ c', @linear_region_breathing_changed RationalLibrary.library
            (qc 2 10, qc 5 10) Demo.config = Some c'
          ∧ bands_in_half_spectrum c'.
Proof.
  assert (region_accepted (qc 2 10, qc 5 10) = true) as Hacc by by vm_compute.
  split; [exact Hacc|]. split; [exact demo_bands|].
  destruct demo_breathing_band_change as (c' & Hc').
  exists c'. split; [exact Hc'|].
  exact (proj1 (proj1 (band_change_keeps_half_spectrum
                         (H := RationalLibrary.library) (qc 2 10, qc 5 10)
                         Demo.config c' Hacc demo_bands) Hc')).
Defined.

(** ** No step raises *)

Lemma read_data_rest (frame_contents : list Frame) (st : State) :
  spectra (read_data frame_contents st) = spectra st
  ∧ range_fft_abs (read_data frame_contents st) = range_fft_abs st
  ∧ range_profile_peak_index (read_data frame_contents st)
    = range_profile_peak_index st.
Proof.
  revert st. unfold read_data.
  induction frame_contents as [|frame frames IH]; intros st; cbn [foldl].
  - done.
  - destruct (IH (enqueue_frame frame st)) as (-> & -> & ->). done.
Qed.

Lemma update_plots_rest (st st' : State) (messages : list osc_message) :
  update_plots st = Some (st', messages) →
  range_fft_abs st' = range_fft_abs st
  ∧ range_profile_peak_index st' = range_profile_peak_index st
  ∧ start_time st' = start_time st.
Proof.
  intros Hu. unfold update_plots in Hu.
  apply bind_Some in Hu as (? & _ & Hu).
  apply bind_Some in Hu as (? & _ & Hu).
  apply bind_Some in Hu as ([bv hv] & _ & Hu).
  apply bind_Some in Hu as (msgs & _ & [= <- <-]).
  done.
Qed.

Section pass_spectra.
Context `{DspLibraryLaws}.

Lemma length_vital_signs_fft (data : list complex) (nFFT n : nat)
    (s : list Qc) :
  vital_signs_fft data nFFT n = Some s → length s = nFFT.
Proof.
  intros Hs. apply vital_signs_fft_inv in Hs as (_ & zp2 & ->).
  by rewrite length_map, length_np_fft.
Qed.

Lemma process_data_pass_spectra (current_time : Qc) (st st' : State) :
  process_data_pass current_time st = Some st' → data_queue st ≠ [] →
  length (breathing_fft (spectra st')) = fft_size_vital_signs
  ∧ length (heart_fft (spectra st')) = fft_size_vital_signs.
Proof.
  intros Hp Hq. unfold process_data_pass in Hp.
  destruct (data_queue st) as [|frame rest]; [done|].
  apply bind_Some in Hp as (ts' & Hts & Hp).
  apply bind_Some in Hp as ([v q'] & Hcalc & Hp).
  cbn [calc_range_fft] in Hcalc.
  apply bind_Some in Hcalc as (profile & Hprofile & [= <- <-]).
  cbn [is_not_None] in Hp.
  apply bind_Some in Hp as (profile' & [= <-] & Hp).
  apply bind_Some in Hp as (tracked & Htracked & Hp).
  apply bind_Some in Hp as ([w u] & Hphase & Hp).
  apply bind_Some in Hp as ([fb fh] & Hfilter & Hp).
  apply bind_Some in Hp as (sp & Hsp & Hp).
  apply bind_Some in Hp as (bi & Hbi & Hp).
  apply bind_Some in Hp as (hi & Hhi & Hp).
  apply bind_Some in Hp as (pts & Hpts & [= <-]).
  cbn [spectra]. unfold vital_signs_spectra in Hsp.
  apply bind_Some in Hsp as (s1 & _ & Hsp).
  apply bind_Some in Hsp as (s2 & _ & Hsp).
  apply bind_Some in Hsp as (s3 & Hs3 & Hsp).
  apply bind_Some in Hsp as (s4 & Hs4 & [= <-]).
  cbn [breathing_fft heart_fft].
  split; by eapply length_vital_signs_fft.
Qed.

(** The bin [find_signal_peaks] returns is 0 or a bin of the band. *)
Lemma find_signal_peaks_range (fft : list Qc) (index_start index_end : Z)
    (distance : Qc) (rate_index : Z) :
  (0 ≤ index_start)%Z → (0 ≤ index_end)%Z →
  find_signal_peaks fft index_start index_end distance = Some rate_index →
  rate_index = 0%Z ∨ (index_start ≤ rate_index < index_end)%Z.
Proof.
  intros Hstart Hend Hfind. unfold find_signal_peaks in Hfind.
  cbv zeta in Hfind. case_bool_decide; [|left; by injection Hfind].
  right.
  apply bind_Some in Hfind as (heights & Hheights & Hfind).
  apply bind_Some in Hfind as (best & Hbest & Hfind).
  apply bind_Some in Hfind as (peak & Hpeak & [= <-]).
  unfold py_take_indices in Hheights. apply mapM_Some in Hheights.
  destruct (Forall2_lookup_l _ _ _ _ _ Hheights Hpeak)
    as (height & _ & Hregion).
  destruct (py_slice_lookup fft index_start index_end peak height Hstart Hend
              Hregion) as [_ Hlt].
  lia.
Qed.
End pass_spectra.

Lemma length_np_linspace (start stop : Qc) (num : nat) :
  length (np_linspace start stop num) = num.
Proof. unfold np_linspace. by rewrite length_map, length_seq. Qed.

Lemma range_profile_marker_ok (st : State) :
  length (range_fft_abs st) = fft_size_range_profile / 2 →
  (0 ≤ range_profile_peak_index st
   < Z.of_nat (fft_size_range_profile / 2))%Z →
  range_profile_marker st = Some ().
Proof.
  intros Hlen Hidx. unfold range_profile_marker.
  rewrite (py_getitem_nonneg (np_linspace _ _ _))
    by (by rewrite length_np_linspace).
  rewrite (py_getitem_nonneg (range_fft_abs st)) by (by rewrite Hlen).
  destruct (lookup_lt_is_Some_2
              (np_linspace 0%Qc (max_range (cfg st))
                 (fft_size_range_profile / 2))
              (Z.to_nat (range_profile_peak_index st))) as [x ->];
    [rewrite length_np_linspace; lia|].
  destruct (lookup_lt_is_Some_2 (range_fft_abs st)
              (Z.to_nat (range_profile_peak_index st))) as [y ->];
    [rewrite Hlen; lia|].
  done.
Qed.

(** The mean over the estimation span of an index buffer of bins of the
    first half of the spectrum. *)
Lemma estimation_span_mean (idx : list Qc) :
  length idx = buffer_data_size →
  Forall (λ x, 0 ≤ x ≤ Qc_of_nat (fft_size_vital_signs / 2 - 1))%Qc idx →
  (0 ≤ np_mean (py_slice_from idx 1900)
   ≤ Qc_of_nat (fft_size_vital_signs / 2 - 1))%Qc.
Proof.
  intros Hlen Hall. change 1900%Z with (Z.of_nat 1900).
  rewrite py_slice_from_nonneg. apply np_mean_bounds.
  - intros E. apply (f_equal length) in E.
    rewrite length_drop, Hlen, buffer_data_size_eq in E.
    cbn [length] in E. lia.
  - by apply Forall_drop.
Qed.

Lemma spectrum_marker_ok (idx fft : list Qc) :
  length idx = buffer_data_size →
  Forall (λ x, 0 ≤ x ≤ Qc_of_nat (fft_size_vital_signs / 2 - 1))%Qc idx →
  length fft = fft_size_vital_signs →
  spectrum_marker idx fft 1900 = Some ().
Proof.
  intros Hlen Hall Hfft. unfold spectrum_marker.
  rewrite (py_getitem_nonneg idx) by (rewrite Hlen, buffer_data_size_eq; lia).
  destruct (lookup_lt_is_Some_2 idx (Z.to_nat (Z.of_nat 1900))) as [first ->];
    [rewrite Hlen, buffer_data_size_eq; lia|].
  cbn [mbind option_bind]. case_bool_decide; [|done].
  destruct (estimation_span_mean idx Hlen Hall) as [Mlo Mhi].
  change (Z.of_nat 1900) with 1900%Z.
  set (mean := np_mean (py_slice_from idx 1900)) in *.
  change (Qc_of_nat (fft_size_vital_signs / 2 - 1)) with (Qc_of_Z 799) in Mhi.
  change (Qc_of_nat fft_size_vital_signs) with (Qc_of_Z 1600).
  assert (0 ≤ py_int mean ≤ 799)%Z as Hbin.
  { rewrite py_int_floor by done. by apply Qcfloor_bounds. }
  assert (800 ≤ py_int (Qc_of_Z 1600 / 2 + mean) ≤ 1599)%Z as Hshift.
  { rewrite py_int_floor by (clear -Mlo; qc2q; lra).
    apply Qcfloor_bounds; clear -Mlo Mhi; qc2q; lra. }
  rewrite x_axis_lookup
    by (change (Z.of_nat fft_size_vital_signs) with 1600%Z; lia).
  cbn [mbind option_bind].
  rewrite py_getitem_nonneg by (rewrite Hfft, fft_size_vital_signs_eq; lia).
  destruct (lookup_lt_is_Some_2 fft (Z.to_nat (py_int mean))) as [y ->];
    [rewrite Hfft, fft_size_vital_signs_eq; lia|].
  done.
Qed.

Lemma rate_value_update_ok (k : band) (b : Buffers) :
  buffers_sized b →
  Forall (λ x, 0 ≤ x ≤ Qc_of_nat (fft_size_vital_signs / 2 - 1))%Qc
         (estimation_index_of k b) →
  is_Some (rate_value_update (estimation_index_of k b)
             (estimation_value_of k b) (estimation_start k)).
Proof.
  intros (_ & _ & _ & _ & _ & _ & _ & _ & Hbi & Hhi & Hbv & Hhv) Hall.
  assert (length (estimation_index_of k b) = buffer_data_size) as Hidx
    by (by destruct k).
  assert (length (estimation_value_of k b) = buffer_data_size) as Hval
    by (by destruct k).
  destruct (lookup_lt_is_Some_2 (estimation_index_of k b) (estimation_start k))
    as [first Hfirst];
    [rewrite Hidx, estimation_start_eq, buffer_data_size_eq; lia|].
  destruct (decide (0 < first)%Qc) as [Hpos|Hneg].
  - rewrite rate_value_update_emitted; [by eexists|].
    split; [done|]. split; [done|]. split.
    + rewrite py_slice_from_nonneg. by apply Forall_drop.
    + by exists first.
  - unfold rate_value_update.
    rewrite (py_getitem_nonneg (estimation_index_of k b))
      by (rewrite Hidx, estimation_start_eq, buffer_data_size_eq; lia).
    rewrite Nat2Z.id, Hfirst. cbn [mbind option_bind].
    rewrite bool_decide_eq_false_2 by done. by eexists.
Qed.

Lemma with_cfg_ready (c : Config) (st : State) :
  ready st → gate_valid c → ready (with_cfg c st).
Proof. intros (? & ? & ? & _ & ? & ?) Hgate. by split_and!. Qed.

Section no_step_raises.
Context `{DspLibraryLaws}.

Lemma index_push_in_half_spectrum (idx fft : list Qc)
    (index_start index_end rate_index : Z) (previous : Qc) :
  Forall (λ x, 0 ≤ x ≤ Qc_of_nat (fft_size_vital_signs / 2 - 1))%Qc idx →
  (0 ≤ index_start)%Z →
  (0 ≤ index_end ≤ Z.of_nat (fft_size_vital_signs / 2))%Z →
  find_signal_peaks fft index_start index_end peak_finding_distance
  = Some rate_index →
  last idx = Some previous →
  Forall (λ x, 0 ≤ x ≤ Qc_of_nat (fft_size_vital_signs / 2 - 1))%Qc
    (drop 1 idx ++ [if bool_decide (rate_index ≠ 0%Z) then Qc_of_Z rate_index
                    else previous]).
Proof.
  intros Hall Hstart Hend Hfind Hlast.
  apply Forall_app. split; [by apply Forall_drop|].
  apply Forall_singleton. case_bool_decide as Hr.
  - destruct (find_signal_peaks_range _ _ _ _ _ Hstart (proj1 Hend) Hfind)
      as [?|Hin]; [done|].
    change (Z.of_nat (fft_size_vital_signs / 2)) with 800%Z in Hend.
    change (Qc_of_nat (fft_size_vital_signs / 2 - 1)) with (Qc_of_Z 799).
    split.
    + apply (proj1 (Qc_of_Z_le 0 rate_index)). lia.
    + apply (proj1 (Qc_of_Z_le rate_index 799)). lia.
  - rewrite last_lookup in Hlast.
    by eapply (Forall_lookup_1 _ _ _ _ Hall).
Qed.

Lemma pass_keeps_healthy (current_time : Qc) (st : State) :
  healthy st →
  ∃ st', process_data_pass current_time st = Some st' ∧ healthy st'
         ∧ max_range (cfg st') = max_range (cfg st).
Proof.
  intros [Hready Hplot].
  destruct (data_queue st) as [|frame rest] eqn:Hq.
  { exists st. by rewrite process_data_pass_empty. }
  destruct (process_data_pass_ready current_time st frame rest Hready Hq)
    as (st' & Hpass & Hready' & Heffect & _).
  exists st'. split; [done|].
  destruct (process_data_pass_spectra current_time st st' Hpass)
    as [Hbf Hhf]; [by rewrite Hq|].
  destruct Hplot as (_ & _ & _ & _ & Hbi & Hhi & Hbs & Hbe & Hhs & Hhe).
  destruct Heffect
    as (profile & gate_peak & sample & previous_time & unwrapped_new
        & breathing_new & heart_new & rate_index_br & rate_index_hr
        & previous_br & previous_hr & _ & Hcfg & _ & _ & _ & _ & Hprofile
        & Habs & _ & _ & Hbin & _ & _ & _ & _ & _ & _ & _ & _ & _ & _
        & Hfbr & Hlbr & Hibr & Hfhr & Hlhr & Hihr & _).
  split; [|by rewrite Hcfg]. split; [done|].
  unfold plot_ready. rewrite Hcfg, Habs, length_map, Hbin, Hibr, Hihr.
  split; [done|]. split.
  { destruct Hready' as (Hsized' & _ & Hpeaks' & _).
    destruct Hsized' as (_ & _ & _ & _ & _ & _ & _ & Hpk & _).
    change (-2 * Z.of_nat vital_signs_sample_rate)%Z with (- Z.of_nat 40)%Z.
    rewrite py_slice_from_end by lia.
    assert (0 ≤ np_mean (drop (length (range_profile_peak_indices (bufs st'))
                               - 40)
                           (range_profile_peak_indices (bufs st')))
            ≤ Qc_of_nat (fft_size_range_profile / 2 - 1))%Qc as [Mlo Mhi].
    { apply np_mean_bounds; [|by apply Forall_drop].
      intros E. apply (f_equal length) in E.
      rewrite length_drop, Hpk, buffer_data_size_eq in E.
      cbn [length] in E. lia. }
    change (Qc_of_nat (fft_size_range_profile / 2 - 1)) with (Qc_of_Z 63)
      in Mhi.
    change (Z.of_nat (fft_size_range_profile / 2)) with 64%Z.
    rewrite py_int_floor by done.
    pose proof (Qcfloor_bounds _ 0 63 Mlo Mhi). lia. }
  split; [done|]. split; [done|].
  split; [exact (index_push_in_half_spectrum _ _ _ _ _ _ Hbi Hbs Hbe Hfbr
                   Hlbr)|].
  split; [exact (index_push_in_half_spectrum _ _ _ _ _ _ Hhi Hhs Hhe Hfhr
                   Hlhr)|].
  done.
Qed.
End no_step_raises.

Lemma tick_keeps_healthy (st : State) :
  healthy st →
  ∃ st' messages, update_plots st = Some (st', messages) ∧ healthy st'
                  ∧ max_range (cfg st') = max_range (cfg st).
Proof.
  intros [Hready Hplot].
  destruct Hplot as (Habs & Hbin & Hbf & Hhf & Hbi & Hhi & Hbands).
  pose proof Hready as (Hsized & Hwin & Hpeaks & Hgate & Hframes & Hcounter).
  pose proof Hsized as (? & ? & ? & ? & ? & ? & ? & ? & Hbil & Hhil & ?).
  assert (is_Some (update_plots st)) as [[st' messages] Hu].
  { unfold update_plots. cbv zeta.
    rewrite range_profile_marker_ok by done. cbn [mbind option_bind].
    cbn [ENABLE_VITALSIGNS_SPECTRUM ENABLE_ESTIMATION_PLOT
         ENABLE_BREATHING_VISUALIZATION].
    change estimation_index_breathing with 1900.
    change estimation_index_heart with 1900.
    rewrite !spectrum_marker_ok by done. cbn [mbind option_bind].
    destruct (rate_value_update_ok Breathing (bufs st) Hsized Hbi)
      as [bv Hbv].
    destruct (rate_value_update_ok Heart (bufs st) Hsized Hhi) as [hv Hhv].
    cbn [estimation_index_of estimation_value_of estimation_start] in Hbv, Hhv.
    change estimation_index_breathing with 1900 in Hbv.
    change estimation_index_heart with 1900 in Hhv.
    rewrite Hbv. cbn [mbind option_bind]. rewrite Hhv.
    cbn [mbind option_bind].
    match goal with
    | |- is_Some (breathing_visualization ?s ≫= _) =>
        destruct (breathing_visualization_returns s) as (msgs & -> & _)
    end.
    by eexists. }
  exists st', messages. split; [done|].
  destruct (update_plots_sized st st' messages Hsized Hu) as [Hsized' _].
  destruct (update_plots_rest st st' messages Hu) as (Eabs & Ebin & _).
  apply update_plots_inv in Hu
    as (_ & Ecounter & Ecfg & Equeue & Espectra & _ & _ & _ & _ & Eu & _ & _
        & Epk & Ebi & Ehi & _).
  split; [|by rewrite Ecfg]. split.
  - unfold ready, window_unwrapped, peak_indices_in_profile.
    rewrite Eu, Epk, Ecfg, Equeue, Ecounter. by split_and!.
  - unfold plot_ready. rewrite Eabs, Ebin, Espectra, Ebi, Ehi, Ecfg.
    exact (conj Habs (conj Hbin (conj Hbf (conj Hhf (conj Hbi
             (conj Hhi Hbands)))))).
Qed.

Lemma read_keeps_healthy (frame_contents : list Frame) (st : State) :
  Forall frame_ok frame_contents → healthy st →
  healthy (read_data frame_contents st).
Proof.
  intros Hok [Hready Hplot]. split; [by apply read_data_ready|].
  destruct (read_data_queue frame_contents st) as (_ & Eb & Ec & _).
  destruct (read_data_rest frame_contents st) as (Es & Ea & Ei).
  unfold plot_ready. by rewrite Eb, Ec, Es, Ea, Ei.
Qed.

Lemma with_cfg_healthy (c : Config) (st : State) :
  healthy st → gate_valid c → bands_in_half_spectrum c →
  healthy (with_cfg c st).
Proof.
  intros [Hready (H1 & H2 & H3 & H4 & H5 & H6 & _)] Hgate Hbands.
  split; [by apply with_cfg_ready|].
  exact (conj H1 (conj H2 (conj H3 (conj H4 (conj H5 (conj H6 Hbands)))))).
Qed.

Section band_handlers.
Context `{DspLibrary}.

(** A band handler returns on every region that is not an inverted one it
    takes up; the gate is the one before and the search bounds stay in the
    first half of the spectrum. *)
Lemma band_change_returns (region : Qc * Qc) (c : Config) :
  (region_accepted region = true → (region.1 < region.2)%Qc) →
  gate_valid c → bands_in_half_spectrum c →
  (∃ c', linear_region_breathing_changed region c = Some c'
         ∧ gate_valid c' ∧ bands_in_half_spectrum c'
         ∧ max_range c' = max_range c)
  ∧ (∃ c', linear_region_heart_changed region c = Some c'
           ∧ gate_valid c' ∧ bands_in_half_spectrum c'
           ∧ max_range c' = max_range c).
Proof.
  intros Hadm Hgate Hbands.
  unfold linear_region_breathing_changed, linear_region_heart_changed.
  destruct (region_accepted region) eqn:Hacc; [|split; by exists c].
  pose proof (proj1 (region_accepted_spec region) Hacc) as [[L1 L2] [U1 U2]].
  specialize (Hadm eq_refl).
  rewrite firwin_band by done. cbn [mbind option_bind].
  destruct (band_index_range _ _ L1 (Qclt_le_weak _ _ Hadm) U2)
    as [[? ?] ?].
  destruct Hbands as (? & ? & ? & ?).
  split; eexists; (split; [reflexivity|]); (split; [exact Hgate|]);
    (split; [|reflexivity]); unfold bands_in_half_spectrum;
    cbn [index_start_breathing index_end_breathing index_start_heart
         index_end_heart]; lia.
Qed.
End band_handlers.

Lemma region_changed_gate (region : Qc * Qc) (c c0 : Config) :
  max_range c = max_range c0 →
  gate_valid (region_changed region c0) →
  gate_valid (region_changed region c).
Proof.
  unfold gate_valid, start_index_range, stop_index_range.
  cbn [region_changed max_range object_distance_start_range
       object_distance_stop_range].
  by intros ->.
Qed.

Section program.
Context `{DspLibraryLaws}.

Lemma act_keeps_healthy (c : Config) (a : action) (st : State) :
  healthy st → max_range (cfg st) = max_range c → admissible c a →
  ∃ st', act a st = Some st' ∧ healthy st'
         ∧ max_range (cfg st') = max_range c.
Proof.
  intros Hhealthy Hmax Hadm.
  destruct a as [frames|current_time| |region|region|region]; cbn [act].
  - exists (read_data frames st). split; [done|].
    split; [by apply read_keeps_healthy|].
    destruct (read_data_queue frames st) as (_ & _ & -> & _). done.
  - destruct (pass_keeps_healthy current_time st Hhealthy)
      as (st' & Hpass & Hh & Hm).
    exists st'. split; [done|]. split; [done|]. congruence.
  - destruct (tick_keeps_healthy st Hhealthy) as (st' & msgs & Hu & Hh & Hm).
    exists st'. rewrite Hu. split; [done|]. split; [done|]. congruence.
  - destruct Hhealthy as [Hready Hplot].
    destruct (band_change_returns region (cfg st) Hadm)
      as [(c' & -> & Hgate & Hbands & Hm) _].
    { by destruct Hready as (_ & _ & _ & ? & _). }
    { by destruct Hplot as (_ & _ & _ & _ & _ & _ & ?). }
    exists (with_cfg c' st). split; [done|].
    split; [by apply with_cfg_healthy|]. cbn [with_cfg cfg]. congruence.
  - destruct Hhealthy as [Hready Hplot].
    destruct (band_change_returns region (cfg st) Hadm)
      as [_ (c' & -> & Hgate & Hbands & Hm)].
    { by destruct Hready as (_ & _ & _ & ? & _). }
    { by destruct Hplot as (_ & _ & _ & _ & _ & _ & ?). }
    exists (with_cfg c' st). split; [done|].
    split; [by apply with_cfg_healthy|]. cbn [with_cfg cfg]. congruence.
  - eexists. split; [reflexivity|]. split; [|by cbn].
    apply with_cfg_healthy; [done| |].
    + by eapply region_changed_gate.
    + by destruct Hhealthy as [_ (_ & _ & _ & _ & _ & _ & ?)].
Qed.

Lemma perform_keeps_healthy (c : Config) (actions : list action)
    (st : State) :
  healthy st → max_range (cfg st) = max_range c →
  Forall (admissible c) actions →
  ∃ st', perform actions st = Some st' ∧ healthy st'.
Proof.
  revert st. induction actions as [|a actions IH]; intros st Hh Hm Hadm.
  - by exists st.
  - apply Forall_cons in Hadm as [Ha Hadm].
    destruct (act_keeps_healthy c a st Hh Hm Ha) as (st1 & Hact & Hh1 & Hm1).
    destruct (IH st1 Hh1 Hm1 Hadm) as (st' & Hrun & Hh').
    exists st'. cbn [perform]. by rewrite Hact.
Qed.

Lemma initial_state_healthy (c : Config) (start_time : Qc) :
  gate_valid c → bands_in_half_spectrum c →
  healthy (initial_state c start_time).
Proof.
  intros Hgate Hbands. split; [by apply initial_state_ready|].
  unfold plot_ready, initial_state.
  cbn [range_fft_abs range_profile_peak_index spectra breathing_fft heart_fft
       bufs breathing_rate_estimation_index heart_rate_estimation_index cfg].
  unfold np_zeros. rewrite !length_replicate.
  split; [done|]. split; [by vm_compute|]. split; [done|]. split; [done|].
  split; [|split; [|done]]; apply Forall_replicate; split; by vm_compute.
Qed.

(** From start-up no step raises: with a range gate that selects a bin and
    search bounds in the first half of the spectrum, every sequence of
    device reads of well-shaped frames, passes of the processing loop,
    timer ticks and region changes returns, provided no band region the
    handlers take up is inverted and every range region selects a bin. *)
Theorem program_never_raises (c : Config) (start_time : Qc)
    (actions : list action) :
  gate_valid c → bands_in_half_spectrum c →
  Forall (admissible c) actions →
  ∃ st, perform actions (initial_state c start_time) = Some st ∧ healthy st.
Proof.
  intros Hgate Hbands Hadm.
  apply (perform_keeps_healthy c); [|done|done].
  by apply initial_state_healthy.
Qed.
End program.

Lemma demo_session_admissible : Forall (admissible Demo.config) Demo.session.
Proof.
  unfold Demo.session.
  apply Forall_cons_2.
  { cbn [admissible]. repeat apply Forall_cons_2; try apply demo_frame_ok.
    apply Forall_nil_2. }
  apply Forall_cons_2; [exact I|]. apply Forall_cons_2; [exact I|].
  apply Forall_cons_2; [intros _; by vm_compute|].
  apply Forall_cons_2; [exact I|]. apply Forall_cons_2; [exact I|].
  apply Forall_nil_2.
Qed.

Lemma program_never_raises_witness :
  gate_valid Demo.config ∧ bands_in_half_spectrum Demo.config
  ∧ Forall (admissible Demo.config) Demo.session
  ∧ ∃ st, @perform RationalLibrary.library Demo.session
            (initial_state Demo.config 0%Qc) = Some st
          ∧ healthy st.
Proof.
  split; [exact demo_gate_valid|]. split; [exact demo_bands|].
  split; [exact demo_session_admissible|].
  exact (program_never_raises (H := RationalLibrary.library) Demo.config 0%Qc
           Demo.session demo_gate_valid demo_bands demo_session_admissible).
Defined.

(** ** The tracked bin and the gate *)

Section gate_tracking.
Context `{DspLibraryLaws}.

Lemma pass_pushes_in_gate (k : nat) (current_time : Qc) (st : State)
    (frame : Frame) (rest : list Frame) :
  ready st → data_queue st = frame :: rest → k < buffer_data_size →
  newest_in_gate k st →
  ∃ st', process_data_pass current_time st = Some st' ∧ ready st'
         ∧ data_queue st' = rest ∧ cfg st' = cfg st
         ∧ newest_in_gate (S k) st'
         ∧ range_profile_peak_index st'
           = py_int (np_mean (py_slice_from
                                (range_profile_peak_indices (bufs st'))
                                (- Z.of_nat 40))).
Proof.
  intros Hready Hq Hk Hgate.
  destruct (process_data_pass_ready current_time st frame rest Hready Hq)
    as (st' & Hpass & Hready' & Heffect & Hq').
  exists st'. split; [done|]. split; [done|]. split; [done|].
  destruct Heffect
    as (profile & gate_peak & sample & ? & ? & ? & ? & ? & ? & ? & ? & _
        & Hcfg & _ & _ & _ & _ & Hprofile & _ & Hargmax & Hpeaks & Hbin & _).
  split; [done|]. split; [|exact Hbin].
  destruct Hready as (Hsized & _ & _ & [Hstart Hwithin] & _).
  destruct Hsized as (_ & _ & _ & _ & _ & _ & _ & Hpk & _).
  unfold newest_in_gate. rewrite Hcfg, Hpeaks.
  rewrite buffer_data_size_eq in *.
  rewrite drop_app_le by (rewrite length_drop, Hpk; lia).
  rewrite drop_drop.
  replace (1 + (2000 - S k)) with (2000 - k) by lia.
  apply Forall_app. split; [exact Hgate|]. apply Forall_singleton.
  apply np_argmax_lt in Hargmax.
  rewrite length_py_slice in Hargmax by lia.
  split; apply (proj1 (Qc_of_Z_le _ _)); lia.
Qed.

Lemma passes_fill_gate (times : list Qc) (st : State) (k : nat) :
  ready st → length times ≤ length (data_queue st) →
  k + length times ≤ buffer_data_size → newest_in_gate k st →
  ∃ trace,
    process_data_passes times st = Some trace
    ∧ length trace = length times
    ∧ ∀ st_n, last trace = Some st_n →
        cfg st_n = cfg st
        ∧ newest_in_gate (k + length times) st_n
        ∧ range_profile_peak_index st_n
          = py_int (np_mean (py_slice_from
                               (range_profile_peak_indices (bufs st_n))
                               (- Z.of_nat 40))).
Proof.
  revert st k.
  induction times as [|t times IH]; intros st k Hready Hlen Hk Hgate.
  { exists []. split; [done|]. split; [done|]. intros st_n Hlast. done. }
  destruct (data_queue st) as [|frame rest] eqn:Hq;
    [cbn [length] in Hlen; lia|].
  cbn [length] in Hlen, Hk.
  destruct (pass_pushes_in_gate k t st frame rest Hready Hq)
    as (st1 & Hpass & Hready1 & Hq1 & Hcfg1 & Hgate1 & Hbin1); [lia|done|].
  destruct (IH st1 (S k) Hready1) as (trace & Htrace & Hlt & Hlast);
    [rewrite Hq1; lia|lia|done|].
  exists (st1 :: trace). cbn [process_data_passes].
  rewrite Hpass. cbn [mbind option_bind]. rewrite Htrace.
  cbn [mbind option_bind]. split; [done|].
  split; [cbn [length]; by rewrite Hlt|].
  intros st_n Hn. rewrite last_cons in Hn. cbn [length].
  replace (k + S (length times)) with (S k + length times) by lia.
  destruct (last trace) as [s|] eqn:Hs.
  - injection Hn as ->. destruct (Hlast st_n eq_refl) as (Hc & Hg & Hb).
    split; [congruence|]. by split.
  - injection Hn as <-. apply last_None in Hs. subst trace.
    destruct times; [|done]. cbn [length].
    replace (S k + 0) with (S k) by lia. done.
Qed.

(** Once two seconds of frames have gone through the loop, the bin it
    tracks is inside the range gate: after n passes with frames waiting,
    n at least [2 * vital_signs_sample_rate], the tracked bin is at least
    [start_index_range] and below [stop_index_range]. *)
Theorem tracked_bin_settles_in_gate (times : list Qc) (st : State) :
  ready st → 2 * vital_signs_sample_rate ≤ length times →
  length times ≤ length (data_queue st) →
  length times ≤ buffer_data_size →
  ∃ trace st_n,
    process_data_passes times st = Some trace
    ∧ last trace = Some st_n
    ∧ (start_index_range (cfg st) ≤ range_profile_peak_index st_n
       < stop_index_range (cfg st))%Z.
Proof.
  intros Hready Hlong Hlen Hcap.
  rewrite vital_signs_sample_rate_eq in Hlong.
  destruct (passes_fill_gate times st 0 Hready Hlen) as (trace & Htrace & Hlt
                                                          & Hlast).
  { lia. }
  { unfold newest_in_gate. rewrite Nat.sub_0_r, drop_ge; [done|].
    by destruct Hready as ((_ & _ & _ & _ & _ & _ & _ & -> & _) & _). }
  destruct (last trace) as [st_n|] eqn:Hn.
  2:{ apply last_None in Hn. subst trace. cbn [length] in Hlt. lia. }
  exists trace, st_n. split; [done|]. split; [done|].
  destruct (Hlast st_n eq_refl) as (Hcfg & Hgate & ->).
  assert (ready st_n) as Hready_n.
  { destruct (process_data_passes_fifo times st Hready Hlen Hcap)
      as (trace' & Htrace' & _ & Hall & _).
    assert (trace' = trace) as -> by congruence.
    rewrite last_lookup in Hn.
    by eapply (Forall_lookup_1 _ _ _ _ Hall). }
  destruct Hready_n as ((_ & _ & _ & _ & _ & _ & _ & Hpk & _) & _).
  destruct Hready as (_ & _ & _ & [Hstart Hwithin] & _).
  unfold newest_in_gate in Hgate. rewrite Hcfg in Hgate. cbn [Nat.add] in Hgate.
  rewrite py_slice_from_end, Hpk by lia.
  rewrite buffer_data_size_eq in *.
  assert (Forall (in_gate (cfg st))
            (drop (2000 - 40) (range_profile_peak_indices (bufs st_n))))
    as Hnewest.
  { replace (2000 - 40) with ((2000 - length times) + (length times - 40))
      by lia.
    rewrite <-drop_drop. by apply Forall_drop. }
  assert (Qc_of_Z (start_index_range (cfg st))
          ≤ np_mean (drop (2000 - 40) (range_profile_peak_indices (bufs st_n)))
          ≤ Qc_of_Z (stop_index_range (cfg st) - 1))%Qc as [Mlo Mhi].
  { apply np_mean_bounds; [|exact Hnewest].
    intros E. apply (f_equal length) in E.
    rewrite length_drop, Hpk in E. cbn [length] in E. lia. }
  rewrite py_int_floor.
  - pose proof (Qcfloor_bounds _ _ _ Mlo Mhi). lia.
  - eapply Qcle_trans; [|exact Mlo].
    apply (proj1 (Qc_of_Z_le 0 _)). lia.
Qed.
End gate_tracking.

(** Forty passes on forty waiting frames. *)
Lemma tracked_bin_settles_in_gate_witness :
  ready (Demo.loaded 40)
  ∧ 2 * vital_signs_sample_rate ≤ length (replicate 40 1%Qc)
  ∧ length (replicate 40 1%Qc) ≤ length (data_queue (Demo.loaded 40))
  ∧ length (replicate 40 1%Qc) ≤ buffer_data_size
  ∧ ∃ trace st_n,
      @process_data_passes RationalLibrary.library (replicate 40 1%Qc)
        (Demo.loaded 40) = Some trace
      ∧ last trace = Some st_n
      ∧ (start_index_range (cfg (Demo.loaded 40))
         ≤ range_profile_peak_index st_n
         < stop_index_range (cfg (Demo.loaded 40)))%Z.
Proof.
  assert (2 * vital_signs_sample_rate ≤ length (replicate 40 1%Qc)) as H1
    by (vm_compute; lia).
  assert (length (replicate 40 1%Qc) ≤ length (data_queue (Demo.loaded 40)))
    as H2 by (vm_compute; lia).
  assert (length (replicate 40 1%Qc) ≤ buffer_data_size) as H3
    by (vm_compute; lia).
  split; [apply demo_loaded_ready|]. split; [exact H1|]. split; [exact H2|].
  split; [exact H3|].
  exact (tracked_bin_settles_in_gate (H := RationalLibrary.library)
           (replicate 40 1%Qc) (Demo.loaded 40) (demo_loaded_ready 40)
           H1 H2 H3).
Defined.

(** ** The first five seconds *)

Section warm_up.
Context `{DspLibraryLaws}.

Lemma index_still_zero (select : Buffers → list Qc) (st : State)
    (trace : list State) :
  select (bufs st) = np_zeros buffer_data_size →
  fifo_after select st trace →
  length trace < estimation_time * estimation_rate →
  py_getitem (select (bufs (default st (last trace)))) 1900 = Some 0%Qc.
Proof.
  intros Hzero (_ & Hend & Hpushed) Hshort.
  change (estimation_time * estimation_rate) with 100 in Hshort.
  rewrite Hend, Hzero. unfold np_zeros.
  rewrite drop_replicate, buffer_data_size_eq.
  rewrite py_getitem_nonneg
    by (rewrite length_app, length_replicate, Hpushed; lia).
  rewrite lookup_app_l by (rewrite length_replicate; lia).
  apply lookup_replicate_2. lia.
Qed.

Lemma rate_value_update_not_emitted (idx value : list Qc) :
  py_getitem idx 1900 = Some 0%Qc →
  rate_value_update idx value 1900 = Some value.
Proof.
  intros Hfirst. unfold rate_value_update.
  change (Z.of_nat 1900) with 1900%Z. rewrite Hfirst.
  cbn [mbind option_bind]. by rewrite bool_decide_eq_false_2.
Qed.

Lemma process_data_passes_healthy (times : list Qc) (st : State) :
  healthy st → length times ≤ length (data_queue st) →
  ∃ trace, process_data_passes times st = Some trace
           ∧ healthy (default st (last trace)).
Proof.
  revert st. induction times as [|t times IH]; intros st Hh Hlen.
  { by exists []. }
  destruct (data_queue st) as [|frame rest] eqn:Hq;
    [cbn [length] in Hlen; lia|].
  destruct (pass_keeps_healthy t st Hh) as (st1 & Hpass & Hh1 & _).
  destruct (process_data_pass_ready t st frame rest (proj1 Hh) Hq)
    as (st1' & Hpass' & _ & _ & Hq1).
  assert (st1' = st1) as -> by congruence.
  destruct (IH st1 Hh1) as (trace & Htrace & Hlast).
  { rewrite Hq1. cbn [length] in Hlen. lia. }
  exists (st1 :: trace). cbn [process_data_passes].
  rewrite Hpass. cbn [mbind option_bind]. rewrite Htrace.
  cbn [mbind option_bind]. split; [done|].
  rewrite last_cons. by destruct (last trace).
Qed.

(** No rate is shown during the first five seconds: when the index
    buffers hold zeros, as they do at start-up, then after fewer than
    [estimation_time * estimation_rate] passes a timer tick returns and
    leaves both rate series as they were. *)
Theorem no_rate_before_five_seconds (times : list Qc) (st : State) :
  healthy st →
  breathing_rate_estimation_index (bufs st) = np_zeros buffer_data_size →
  heart_rate_estimation_index (bufs st) = np_zeros buffer_data_size →
  length times ≤ length (data_queue st) →
  length times < estimation_time * estimation_rate →
  ∃ trace st' messages,
    process_data_passes times st = Some trace
    ∧ update_plots (default st (last trace)) = Some (st', messages)
    ∧ breathing_rate_estimation_value (bufs st')
      = breathing_rate_estimation_value (bufs st)
    ∧ heart_rate_estimation_value (bufs st')
      = heart_rate_estimation_value (bufs st).
Proof.
  intros Hhealthy Hbz Hhz Hlen Hshort. pose proof (proj1 Hhealthy) as Hready.
  destruct (process_data_passes_fifo times st Hready Hlen)
    as (trace & Htrace & Hlt & _ & Hfifo & Hvalues).
  { change (estimation_time * estimation_rate) with 100 in Hshort.
    rewrite buffer_data_size_eq. lia. }
  destruct (process_data_passes_healthy times st Hhealthy Hlen)
    as (trace' & Htrace' & Hlast).
  assert (trace' = trace) as -> by congruence.
  destruct (tick_keeps_healthy _ Hlast) as (st' & messages & Htick & _).
  exists trace, st', messages. split; [done|]. split; [done|].
  destruct Hfifo as (_ & _ & _ & _ & _ & _ & _ & _ & Fb & Fh).
  rewrite <-Hlt in Hshort.
  pose proof (index_still_zero _ st trace Hbz Fb Hshort) as Zb.
  pose proof (index_still_zero _ st trace Hhz Fh Hshort) as Zh.
  apply update_plots_inv in Htick
    as (_ & _ & _ & _ & _ & _ & _ & _ & _ & _ & _ & _ & _ & _ & _
        & Ub & Uh & _).
  change estimation_index_breathing with 1900 in Ub.
  change estimation_index_heart with 1900 in Uh.
  rewrite rate_value_update_not_emitted in Ub, Uh by done.
  injection Ub as <-. injection Uh as <-.
  destruct (last trace) as [s|] eqn:Hs; [|done]. cbn [default].
  rewrite last_lookup in Hs.
  exact (Forall_lookup_1 _ _ _ _ Hvalues Hs).
Qed.
End warm_up.

Lemma demo_loaded_healthy (n : nat) : healthy (Demo.loaded n).
Proof.
  unfold Demo.loaded. induction (seq 0 n) as [|i l IH]; cbn [foldr].
  - apply initial_state_healthy; [apply demo_gate_valid|apply demo_bands].
  - apply (read_keeps_healthy [Demo.frame]); [|done].
    apply Forall_singleton, demo_frame_ok.
Qed.

(** Two passes after start-up. *)
Lemma no_rate_before_five_seconds_witness :
  healthy (Demo.loaded 2)
  ∧ breathing_rate_estimation_index (bufs (Demo.loaded 2))
    = np_zeros buffer_data_size
  ∧ heart_rate_estimation_index (bufs (Demo.loaded 2))
    = np_zeros buffer_data_size
  ∧ length [1%Qc; 2%Qc] ≤ length (data_queue (Demo.loaded 2))
  ∧ length [1%Qc; 2%Qc] < estimation_time * estimation_rate
  ∧ ∃ trace st' messages,
      @process_data_passes RationalLibrary.library [1%Qc; 2%Qc]
        (Demo.loaded 2) = Some trace
      ∧ update_plots (default (Demo.loaded 2) (last trace))
        = Some (st', messages)
      ∧ breathing_rate_estimation_value (bufs st')
        = breathing_rate_estimation_value (bufs (Demo.loaded 2))
      ∧ heart_rate_estimation_value (bufs st')
        = heart_rate_estimation_value (bufs (Demo.loaded 2)).
Proof.
  assert (length [1%Qc; 2%Qc] ≤ length (data_queue (Demo.loaded 2))) as H1
    by (vm_compute; lia).
  assert (length [1%Qc; 2%Qc] < estimation_time * estimation_rate) as H2
    by (vm_compute; lia).
  split; [apply demo_loaded_healthy|]. split; [reflexivity|].
  split; [reflexivity|]. split; [exact H1|]. split; [exact H2|].
  exact (no_rate_before_five_seconds (H := RationalLibrary.library)
           [1%Qc; 2%Qc] (Demo.loaded 2) (demo_loaded_healthy 2) eq_refl
           eq_refl H1 H2).
Defined.

(** ** The breath-cycle points *)

Lemma py_take_indices_filtered (a b : list Qc) (idx : list nat) :
  length a = length b →
  ∃ xs ys,
    py_take_indices a (filter (λ i, i < length a) idx) = Some xs
    ∧ py_take_indices b (filter (λ i, i < length a) idx) = Some ys
    ∧ on_curve a b xs ys.
Proof.
  intros Hlen. unfold py_take_indices.
  set (kept := filter (λ i, i < length a) idx).
  assert (Forall (λ i, i < length a) kept) as Hkept.
  { apply Forall_forall. intros i Hi. by apply list_elem_of_filter in Hi as []. }
  destruct (mapM_is_Some_2 (λ j, a !! j) kept) as [xs Hxs].
  { eapply Forall_impl; [exact Hkept|]. intros i Hi.
    by apply lookup_lt_is_Some_2. }
  destruct (mapM_is_Some_2 (λ j, b !! j) kept) as [ys Hys].
  { eapply Forall_impl; [exact Hkept|]. intros i Hi.
    apply lookup_lt_is_Some_2. by rewrite <-Hlen. }
  exists xs, ys. split; [done|]. split; [done|].
  apply mapM_Some in Hxs. apply mapM_Some in Hys. split.
  - by rewrite <-(Forall2_length _ _ _ Hxs), <-(Forall2_length _ _ _ Hys).
  - intros j x y Hx Hy.
    destruct (Forall2_lookup_r _ _ _ _ _ Hxs Hx) as (i & Hi & Hax).
    destruct (Forall2_lookup_r _ _ _ _ _ Hys Hy) as (i' & Hi' & Hby).
    assert (i' = i) as -> by congruence. by exists i.
Qed.

Section breath_cycle_points.
Context `{DspLibrary}.

(** When the breath-cycle detector runs on a time buffer and a breathing
    buffer of the same size, it returns; the inhalation points and the
    exhalation points it builds are samples of the last ten seconds of the
    unsmoothed breathing curve, each with the time stamp of its sample.
    On empty buffers it keeps the points it had. *)
Theorem breath_cycle_points_on_curve (radar_time_stamp
    filtered_breathing_plot : list Qc) (old : BreathPoints) :
  length radar_time_stamp = length filtered_breathing_plot →
  ∃ pts,
    detect_breath_cycle radar_time_stamp filtered_breathing_plot old
    = Some pts
    ∧ (filtered_breathing_plot = [] → pts = old)
    ∧ (filtered_breathing_plot ≠ [] →
       let span := (- Z.of_nat (10 * vital_signs_sample_rate))%Z in
       let recent_time := py_slice_from radar_time_stamp span in
       let recent_breathing := py_slice_from filtered_breathing_plot span in
       on_curve recent_time recent_breathing
         (inhalation_points_x pts) (inhalation_points_y pts)
       ∧ on_curve recent_time recent_breathing
           (exhalation_points_x pts) (exhalation_points_y pts)).
Proof.
  intros Hlen. unfold detect_breath_cycle. cbv zeta.
  set (recent_time := py_slice_from radar_time_stamp _).
  set (recent_breathing := py_slice_from filtered_breathing_plot _).
  assert (length recent_time = length recent_breathing) as Hrecent.
  { unfold recent_time, recent_breathing.
    rewrite !length_py_slice_from_end
      by (rewrite vital_signs_sample_rate_eq; lia).
    by rewrite Hlen. }
  assert (length recent_breathing
          = 200 `min` length filtered_breathing_plot) as Hrb.
  { unfold recent_breathing.
    by rewrite length_py_slice_from_end
      by (rewrite vital_signs_sample_rate_eq; lia). }
  destruct (decide (0 < length recent_breathing)) as [Hpos|Hzero].
  - rewrite (bool_decide_eq_true_2 (0 < length recent_breathing)) by done.
    match goal with
    | |- context [py_take_indices recent_time (filter _ ?p)
                  ≫= (λ _, py_take_indices recent_breathing _ ≫=
                  (λ _, py_take_indices recent_time (filter _ ?v) ≫= _))] =>
        destruct (py_take_indices_filtered recent_time recent_breathing p
                    Hrecent) as (ix & iy & -> & -> & Hin);
        destruct (py_take_indices_filtered recent_time recent_breathing v
                    Hrecent) as (ex & ey & -> & -> & Hex)
    end.
    cbn [mbind option_bind]. eexists. split; [reflexivity|].
    split; [intros ->; cbn [length] in Hrb; lia|]. intros _.
    cbn [inhalation_points_x inhalation_points_y exhalation_points_x
         exhalation_points_y]. by split.
  - rewrite (bool_decide_eq_false_2 (0 < length recent_breathing)) by done.
    exists old. split; [done|]. split; [done|].
    intros Hne. destruct filtered_breathing_plot; [done|].
    cbn [length] in Hrb. lia.
Qed.
End breath_cycle_points.

Lemma breath_cycle_points_on_curve_witness :
  length [1%Qc; 2%Qc; Qc_of_Z 3] = length [0%Qc; 1%Qc; 0%Qc]
  ∧ ∃ pts,
      @detect_breath_cycle RationalLibrary.library [1%Qc; 2%Qc; Qc_of_Z 3]
        [0%Qc; 1%Qc; 0%Qc]
        {| inhalation_points_x := []; inhalation_points_y := [];
           exhalation_points_x := []; exhalation_points_y := [] |}
      = Some pts.
Proof.
  split; [reflexivity|].
  destruct (breath_cycle_points_on_curve (H := RationalLibrary.library)
              [1%Qc; 2%Qc; Qc_of_Z 3] [0%Qc; 1%Qc; 0%Qc]
              {| inhalation_points_x := []; inhalation_points_y := [];
                 exhalation_points_x := []; exhalation_points_y := [] |}
              eq_refl) as (pts & Hpts & _).
  by exists pts.
Defined.

(** ** The filter stage *)

Section filter_stage.
Context `{DspLibraryLaws}.

(** Each pass filters the whole recompute window again and keeps one number
    of each result: the breathing plot receives the last output of the
    band-pass filter followed by the Savitzky-Golay filter of window 51 and
    order 3 and the moving average of 5, the heart plot the last output of
    the band-pass filter on the cycle component of the Hodrick-Prescott
    filter.  The older entries of both plots are never filtered again. *)
Theorem filter_bank_pushes_newest_output (c : Config)
    (unwrapped_phase_plot filtered_breathing_plot filtered_heart_plot
       : list Qc) :
  length unwrapped_phase_plot = buffer_data_size →
  length filtered_breathing_plot = buffer_data_size →
  length filtered_heart_plot = buffer_data_size →
  let window :=
    py_slice_from unwrapped_phase_plot (- Z.of_nat processing_data_size) in
  ∃ breathing_new heart_new,
    last (uniform_filter1d
            (savgol_filter (lfilter (breathing_b c) window) 51 3) 5)
    = Some breathing_new
    ∧ last (lfilter (heart_b c)
              (hpfilter window (Qc_of_nat (3 * vital_signs_sample_rate))).1)
      = Some heart_new
    ∧ filter_bank c 1 unwrapped_phase_plot filtered_breathing_plot
        filtered_heart_plot
      = Some (drop 1 filtered_breathing_plot ++ [breathing_new],
              drop 1 filtered_heart_plot ++ [heart_new]).
Proof.
  rewrite buffer_data_size_eq. intros Hu Hb Hh window.
  unfold filter_bank. fold window.
  assert (length window = 400) as Hwin.
  { unfold window. rewrite processing_data_size_eq.
    rewrite length_py_slice_from_end by lia. lia. }
  change (Z.min 51 (Z.of_nat processing_data_size - 2)) with 51%Z.
  cbn [bool_decide decide_rel]. 
  rewrite (bool_decide_eq_false_2 (51 `mod` 2 = 0)%Z) by done.
  rewrite (bool_decide_eq_true_2 (5 < 51)%Z) by done.
  change (Z.to_nat 51) with 51.
  set (filtered_breathing :=
         uniform_filter1d
           (savgol_filter (lfilter (breathing_b c) window) 51 3) 5).
  assert (length filtered_breathing = 400) as Hfb.
  { unfold filtered_breathing.
    by rewrite length_uniform_filter1d, length_savgol_filter,
      length_lfilter. }
  destruct (hpfilter window (Qc_of_nat (3 * vital_signs_sample_rate)))
    as [cycle2 trend] eqn:Ehp.
  cbn [fst].
  set (filtered_heart := lfilter (heart_b c) cycle2).
  assert (length filtered_heart = 400) as Hfh.
  { unfold filtered_heart. rewrite length_lfilter.
    pose proof (length_hpfilter_cycle window
                  (Qc_of_nat (3 * vital_signs_sample_rate))) as Hc.
    rewrite Ehp in Hc. cbn [fst] in Hc. lia. }
  destruct filtered_breathing as [|b0 lb _] using rev_ind;
    [cbn [length] in Hfb; lia|].
  destruct filtered_heart as [|h0 lh _] using rev_ind;
    [cbn [length] in Hfh; lia|].
  exists b0, h0. rewrite !last_snoc. split; [done|]. split; [done|].
  rewrite !py_slice_from_last_snoc.
  rewrite (roll_assign_push filtered_breathing_plot)
    by (intros E; by rewrite E in Hb).
  cbn [mbind option_bind].
  rewrite (roll_assign_push filtered_heart_plot)
    by (intros E; by rewrite E in Hh).
  done.
Qed.
End filter_stage.

Lemma filter_bank_pushes_newest_output_witness :
  length (np_zeros buffer_data_size) = buffer_data_size
  ∧ ∃ breathing_new heart_new,
      @filter_bank RationalLibrary.library Demo.config 1
        (np_zeros buffer_data_size) (np_zeros buffer_data_size)
        (np_zeros buffer_data_size)
      = Some (drop 1 (np_zeros buffer_data_size) ++ [breathing_new],
              drop 1 (np_zeros buffer_data_size) ++ [heart_new]).
Proof.
  assert (length (np_zeros buffer_data_size) = buffer_data_size) as Hlen
    by apply length_replicate.
  split; [exact Hlen|].
  destruct (filter_bank_pushes_newest_output (H := RationalLibrary.library)
              Demo.config (np_zeros buffer_data_size)
              (np_zeros buffer_data_size) (np_zeros buffer_data_size)
              Hlen Hlen Hlen) as (vb & vh & _ & _ & Hbank).
  by exists vb, vh.
Defined.

(** ** The ratio sent *)

Lemma foldl_Qcmax_ge (l : list Qc) (a : Qc) :
  (a ≤ foldl Qcmax a l)%Qc ∧ Forall (λ x, x ≤ foldl Qcmax a l)%Qc l.
Proof.
  revert a. induction l as [|x l IH]; intros a; cbn [foldl].
  - split; [apply Qcle_refl|done].
  - destruct (IH (Qcmax a x)) as [Hle Hall].
    assert (a ≤ Qcmax a x ∧ x ≤ Qcmax a x)%Qc as [Ha Hx].
    { unfold Qcmax. case_bool_decide; qc2q; split; lra. }
    split; [by eapply Qcle_trans|].
    constructor; [by eapply Qcle_trans|done].
Qed.

Lemma np_max_ge (l : list Qc) (x : Qc) : x ∈ l → (x ≤ np_max l)%Qc.
Proof.
  destruct l as [|a l]; [by intros ?%elem_of_nil|]. cbn [np_max].
  destruct (foldl_Qcmax_ge l a) as [Ha Hall].
  intros [->|Hx]%elem_of_cons; [done|].
  by apply (proj1 (Forall_forall _ _) Hall).
Qed.

Lemma newest_in_presence_window (l : list Qc) (x : Qc) :
  py_getitem l (-1) = Some x → x ∈ presence_window l.
Proof.
  intros Hx.
  assert (l ≠ []) as Hne by (intros ->; vm_compute in Hx; discriminate).
  assert (0 < length l) as Hlen by (destruct l; [done|cbn [length]; lia]).
  rewrite py_getitem_last in Hx by done.
  rewrite last_lookup in Hx. unfold presence_window.
  rewrite vital_signs_sample_rate_eq.
  rewrite py_slice_from_end by lia.
  apply (list_elem_of_lookup_2 _ (Nat.pred (length l)
                                   - (length l - 5 * 20))).
  rewrite lookup_drop. rewrite <-Hx. f_equal. lia.
Qed.

(** The ratio [update_plots] computes from a breathing sample [current]
    with baseline [baseline] and amplitude [amplitude] (lines 442-451). *)
Lemma osc_value_below (current baseline amplitude : Qc) :
  (Qcabs (current - baseline) < amplitude)%Qc →
  (Qcmax (qc 1 10)
     (Qcmin 1
        (qc 1 10
         + qc 9 10
           * (Qcmax (Qc_of_Z 30)
                (Qcmin (Qc_of_Z 100)
                   (Qc_of_Z 50
                    + Qc_of_Z 40 * ((current - baseline) / amplitude)))
              - Qc_of_Z 30)
           / Qc_of_Z 70)) < qc 61 70)%Qc.
Proof.
  intros Hamp. apply Qcabs_lt in Hamp as [Hlo Hhi].
  assert (0 < amplitude)%Qc as Hpos.
  { revert Hlo Hhi. generalize (current - baseline)%Qc. intros d ??.
    qc2q. lra. }
  assert ((current - baseline) / amplitude * amplitude
          = current - baseline)%Qc as Hn.
  { field. intros E. rewrite E in Hpos. by apply Qclt_not_eq in Hpos. }
  assert ((current - baseline) / amplitude < 1)%Qc as Hlt.
  { revert Hn Hlo Hhi Hpos.
    generalize ((current - baseline) / amplitude)%Qc, (current - baseline)%Qc.
    intros n d Hn Hlo Hhi Hpos. qc2q. nra. }
  revert Hlt. generalize ((current - baseline) / amplitude)%Qc.
  intros n Hlt. unfold Qcmax, Qcmin.
  repeat case_bool_decide; qc2q; lra.
Qed.

(** The ratio sent on /xratio and /yratio is at least 0.1 and stays below
    61/70 (about 0.871): the newest breathing sample lies within the
    amplitude of the window it is normalised by, so the circle never grows
    to 90 pixels and the upper end of the documented range 0.1 to 1.0 is
    never sent. *)
Theorem ratio_below_full_scale (st : State) (messages : list osc_message)
    (v : Qc) :
  breathing_visualization st = Some messages →
  ("/xratio"%string, v) ∈ messages ∨ ("/yratio"%string, v) ∈ messages →
  (qc 1 10 ≤ v < qc 61 70)%Qc.
Proof.
  intros Hm Hv.
  assert (qc 1 10 ≤ v)%Qc as Hlow.
  { destruct (breathing_visualization_returns st)
      as (messages' & Hm' & Hok & _).
    assert (messages' = messages) as -> by congruence.
    assert (telemetry_ok ("/xratio"%string, v)
            ∨ telemetry_ok ("/yratio"%string, v)) as Hin.
    { destruct Hv as [Hv|Hv]; [left|right];
        exact (proj1 (Forall_forall _ _) Hok _ Hv). }
    unfold telemetry_ok in Hin. cbn [fst snd] in Hin.
    destruct Hin as [[[E _]|[[_ [? _]]|[[E|E] _]]]
                    |[[E _]|[[_ [? _]]|[[E|E] _]]]]; done. }
  split; [exact Hlow|].
  unfold breathing_visualization in Hm.
  set (fb := filtered_breathing_plot (bufs st)) in *.
  fold (presence_window fb) in Hm.
  case_bool_decide; [|injection Hm as <-; destruct Hv as [Hv|Hv];
                      by apply elem_of_nil in Hv].
  case_bool_decide; [|injection Hm as <-; destruct Hv as [Hv|Hv];
                      by apply elem_of_nil in Hv].
  destruct (_ && _).
  - apply bind_Some in Hm as (current & Hcurrent & Hm).
    case_bool_decide; [|injection Hm as <-; destruct Hv as [Hv|Hv];
                        by apply elem_of_nil in Hv].
    apply bind_Some in Hm as (latest & _ & Hm).
    apply bind_Some in Hm as (before & _ & Hm).
    destruct (_ && _); [|injection Hm as <-; destruct Hv as [Hv|Hv];
                         by apply elem_of_nil in Hv].
    injection Hm as <-.
    assert (Qcabs (current - np_mean (presence_window fb))
            < np_max (map (λ x, Qcabs (x - np_mean (presence_window fb)))
                          (presence_window fb)) + qc 1 10000)%Qc as Hamp.
    { pose proof (np_max_ge
                    (map (λ x, Qcabs (x - np_mean (presence_window fb)))
                         (presence_window fb))
                    (Qcabs (current - np_mean (presence_window fb)))) as Hge.
      assert (Qcabs (current - np_mean (presence_window fb))
              ≤ np_max (map (λ x, Qcabs (x - np_mean (presence_window fb)))
                            (presence_window fb)))%Qc as Hle.
      { apply Hge.
        apply (list_elem_of_fmap_2
                 (λ x, Qcabs (x - np_mean (presence_window fb)))).
        by apply newest_in_presence_window. }
      revert Hle. generalize (Qcabs (current - np_mean (presence_window fb))),
        (np_max (map (λ x, Qcabs (x - np_mean (presence_window fb)))
                     (presence_window fb))).
      intros a m Ham. qc2q. lra. }
    pose proof (osc_value_below _ _ _ Hamp) as Hbelow.
    rewrite !elem_of_cons, !elem_of_nil in Hv.
    destruct Hv as [[E|[E|[E|[E|[E|[]]]]]]|[E|[E|[E|[E|[E|[]]]]]]];
      inversion E; subst; exact Hbelow.
  - destruct (_ && _); [|injection Hm as <-; destruct Hv as [Hv|Hv];
                         by apply elem_of_nil in Hv].
    injection Hm as <-.
    rewrite !elem_of_cons, !elem_of_nil in Hv.
    destruct Hv as [[E|[E|[E|[E|[E|[]]]]]]|[E|[E|[E|[E|[E|[]]]]]]];
      inversion E; subst; by vm_compute.
Qed.

Lemma demo_start_messages :
  breathing_visualization Demo.start
  = Some [("/presence"%string, 0%Qc); ("/xratio"%string, qc 1 10);
          ("/yratio"%string, qc 1 10); ("/xhz"%string, 0%Qc);
          ("/yhz"%string, 0%Qc)].
Proof. by vm_compute. Qed.

Lemma ratio_below_full_scale_witness :
  breathing_visualization Demo.start
  = Some [("/presence"%string, 0%Qc); ("/xratio"%string, qc 1 10);
          ("/yratio"%string, qc 1 10); ("/xhz"%string, 0%Qc);
          ("/yhz"%string, 0%Qc)]
  ∧ (qc 1 10 ≤ qc 1 10 < qc 61 70)%Qc.
Proof.
  split; [exact demo_start_messages|].
  apply (ratio_below_full_scale Demo.start _ (qc 1 10) demo_start_messages).
  left. rewrite !elem_of_cons. right. by left.
Defined.

(** ** The unwrapped phase *)

Lemma Qc_of_Z_opp (a : Z) : Qc_of_Z (- a) = (- Qc_of_Z a)%Qc.
Proof.
  apply Qc_is_canon. rewrite this_opp, !this_of_Z. by rewrite inject_Z_opp.
Qed.

Lemma unwrap_ph_correct_whole (period dd : Qc) :
  ∃ k : Z, unwrap_ph_correct period dd = (Qc_of_Z k * period)%Qc.
Proof.
  unfold unwrap_ph_correct. case_bool_decide.
  { exists 0%Z. rewrite Z2Qc_inj_0. ring. }
  unfold unwrap_ddmod, np_mod. cbv zeta.
  set (f := Qcfloor ((dd - - (period / 2)) / period)).
  destruct (bool_decide _ && bool_decide _) eqn:Hedge.
  - apply andb_prop in Hedge as [Hlow _].
    apply bool_decide_eq_true in Hlow.
    exists (1 - f)%Z. rewrite Qc_of_Z_minus, Z2Qc_inj_1.
    assert (period / 2 + period / 2 = period)%Qc as Hh by (field; done).
    replace ((1 - Qc_of_Z f) * period)%Qc
      with (period - period * Qc_of_Z f)%Qc by ring.
    revert Hlow Hh. generalize (period / 2)%Qc, (period * Qc_of_Z f)%Qc.
    intros h pq Hlow Hh. qc2q. lra.
  - exists (- f)%Z. rewrite Qc_of_Z_opp. ring.
Qed.

Lemma unwrap_from_congruent (period acc prev : Qc) (l : list Qc) :
  (∃ k : Z, acc = (Qc_of_Z k * period)%Qc) →
  Forall2 (congruent period) l (unwrap_from period acc prev l).
Proof.
  revert acc prev. induction l as [|x l IH]; intros acc prev [k ->];
    cbn [unwrap_from]; [done|].
  destruct (unwrap_ph_correct_whole period (x - prev)) as [j Hj].
  assert (∃ k' : Z, (Qc_of_Z k * period
                      + unwrap_ph_correct period (x - prev)
                      = Qc_of_Z k' * period)%Qc) as [k' Hk'].
  { exists (k + j)%Z. rewrite Hj, Qc_of_Z_plus. ring. }
  constructor.
  - exists k'. by rewrite Hk'.
  - apply IH. by exists k'.
Qed.

Lemma np_unwrap_congruent (p : list Qc) :
  Forall2 (congruent (2 * np_pi)) p (np_unwrap p).
Proof.
  unfold np_unwrap. destruct p as [|x l]; [done|].
  rewrite np_unwrap_period_cons. constructor.
  - exists 0%Z. rewrite Z2Qc_inj_0. ring.
  - apply unwrap_from_congruent. exists 0%Z. rewrite Z2Qc_inj_0. ring.
Qed.

Lemma bounded_steps_last (h a b : Qc) (l : list Qc) :
  bounded_steps h (l ++ [a; b]) → (Qcabs (b - a) ≤ h)%Qc.
Proof.
  induction l as [|x l IH]; cbn [app].
  - by intros [? _]%bounded_steps_cons_cons.
  - intros Hb. apply IH. by eapply bounded_steps_tail.
Qed.

Section phase_stage.
Context `{DspLibraryLaws}.

(** The unwrapped phase a pass appends is the phase of the slow-time sample
    it appends, moved by a whole number of turns, and it lies within [np.pi]
    of the unwrapped phase before it. *)
Theorem unwrapped_phase_continuous (current_time : Qc) (st : State)
    (frame : Frame) (rest : list Frame) :
  ready st → data_queue st = frame :: rest →
  ∃ st' sample previous newest,
    process_data_pass current_time st = Some st'
    ∧ last (slow_time_buffer_data (bufs st')) = Some sample
    ∧ last (unwrapped_phase_plot (bufs st)) = Some previous
    ∧ last (unwrapped_phase_plot (bufs st')) = Some newest
    ∧ congruent (2 * np_pi) (np_angle sample) newest
    ∧ (Qcabs (newest - previous) ≤ np_pi)%Qc.
Proof.
  intros Hready Hq.
  destruct (process_data_pass_ready current_time st frame rest Hready Hq)
    as (st' & Hpass & Hready' & Heffect & _).
  destruct Heffect
    as (profile & gate_peak & sample & previous_time & newest & ? & ? & ?
        & ? & ? & ? & _ & _ & _ & _ & _ & _ & _ & _ & _ & _ & _ & _ & _ & _
        & Hslow & _ & _ & Hwindow & Hpush & _).
  destruct Hready as ((_ & _ & _ & _ & Hu & _) & _).
  destruct Hready' as (_ & Hunwrapped' & _).
  rewrite buffer_data_size_eq in Hu.
  destruct (unwrapped_phase_plot (bufs st)) as [|previous u _] eqn:Eu
    using rev_ind; [cbn [length] in Hu; lia|].
  rewrite length_app in Hu. cbn [length] in Hu.
  exists st', sample, previous, newest. split; [done|].
  rewrite Hslow, Hpush, !last_snoc. split; [done|]. split; [done|].
  split; [done|].
  rewrite buffer_data_size_eq, processing_data_size_eq in *.
  change (2000 - 400) with 1600 in *.
  set (older := drop 1 (u ++ [previous])) in *.
  assert (length older = 1999) as Holder
    by (unfold older; rewrite length_drop, length_app; cbn [length]; lia).
  split.
  - pose proof (np_unwrap_congruent (drop 1600 (older ++ [np_angle sample])))
      as Hcong.
    rewrite Hpush in Hwindow.
    rewrite (drop_app_le older) in Hcong, Hwindow by lia.
    apply Forall2_app_inv_l in Hcong as (k1 & k2 & _ & Hnew & Hout).
    apply Forall2_cons_inv_l in Hnew as (y & k2' & Hy & Hnil & ->).
    apply Forall2_nil_inv_l in Hnil as ->.
    rewrite Hout, app_assoc in Hwindow.
    apply app_inj_tail in Hwindow as [_ <-]. done.
  - unfold window_unwrapped in Hunwrapped'.
    rewrite Hpush, processing_data_size_eq in Hunwrapped'.
    rewrite py_slice_from_end in Hunwrapped' by lia.
    rewrite length_app, Holder in Hunwrapped'. cbn [length] in Hunwrapped'.
    change (1999 + 1 - 400) with 1600 in Hunwrapped'.
    rewrite (drop_app_le older) in Hunwrapped' by lia.
    unfold older in Hunwrapped'. rewrite drop_drop in Hunwrapped'.
    rewrite (drop_app_le u) in Hunwrapped' by lia.
    rewrite <-app_assoc in Hunwrapped'. cbn [app] in Hunwrapped'.
    by eapply bounded_steps_last.
Qed.
End phase_stage.

Lemma unwrapped_phase_continuous_witness :
  ready (Demo.loaded 1)
  ∧ data_queue (Demo.loaded 1) = [Demo.frame]
  ∧ ∃ st' sample previous newest,
      @process_data_pass RationalLibrary.library 1%Qc (Demo.loaded 1)
      = Some st'
      ∧ last (slow_time_buffer_data (bufs st')) = Some sample
      ∧ last (unwrapped_phase_plot (bufs (Demo.loaded 1))) = Some previous
      ∧ last (unwrapped_phase_plot (bufs st')) = Some newest
      ∧ congruent (2 * np_pi) (@np_angle RationalLibrary.library sample)
          newest
      ∧ (Qcabs (newest - previous) ≤ np_pi)%Qc.
Proof.
  split; [apply demo_loaded_ready|]. split; [reflexivity|].
  exact (unwrapped_phase_continuous (H := RationalLibrary.library) 1%Qc
           (Demo.loaded 1) Demo.frame [] (demo_loaded_ready 1) eq_refl).
Defined.

(** ** Frames of another shape *)

Section frame_shape.
Context `{DspLibraryLaws}.

Lemma range_fft_of_antenna_raises (samples : nat)
    (mat : list (list complex)) :
  length mat = 0 ∨ fft_size_range_profile < samples →
  range_fft_of_antenna samples mat = None.
Proof.
  intros Hbad. unfold range_fft_of_antenna, np_average_rows.
  destruct (decide (0 < length mat)) as [Hrows|Hrows].
  - rewrite (option_guard_True (0 < length mat)) by exact Hrows.
    cbn [mbind option_bind].
    rewrite (option_guard_False (samples ≤ fft_size_range_profile)) by lia.
    reflexivity.
  - rewrite (option_guard_False (0 < length mat)) by exact Hrows.
    reflexivity.
Qed.

(** The loop over the antennas stops at the first one that is missing or
    that the loop body rejects. *)
Lemma accumulate_raises (frame : Frame) (ants : list nat) (i : nat)
    (acc : option (list complex)) :
  i ∈ ants →
  frame_data frame !! i = None
  ∨ (∃ mat, frame_data frame !! i = Some mat
            ∧ range_fft_of_antenna (frame_samples frame) mat = None) →
  foldl (λ acc iAnt,
           range_fft_antennas_buffer ← acc;
           mat ← frame_data frame !! iAnt;
           temp_range_fft ← range_fft_of_antenna (frame_samples frame) mat;
           Some (zip_with Cadd temp_range_fft range_fft_antennas_buffer))
        acc ants = None.
Proof.
  intros Hi Hbad. revert acc.
  induction ants as [|j ants IH]; intros acc; [by apply elem_of_nil in Hi|].
  cbn [foldl]. apply elem_of_cons in Hi as [<-|Hi]; [|by apply IH].
  assert ((range_fft_antennas_buffer ← acc;
           mat ← frame_data frame !! i;
           temp_range_fft ← range_fft_of_antenna (frame_samples frame) mat;
           Some (zip_with Cadd temp_range_fft range_fft_antennas_buffer))
          = None) as ->.
  { destruct acc as [buffer|]; [|reflexivity]. cbn [mbind option_bind].
    destruct Hbad as [->|(mat & -> & Hmat)]; [reflexivity|].
    cbn [mbind option_bind]. by rewrite Hmat. }
  clear. induction ants as [|j ants IH]; [reflexivity|exact IH].
Qed.

(** [calc_range_fft] on an array [frame]: with the three receive antennas,
    at least one chirp, and at least one and at most
    [fft_size_range_profile] samples per chirp, it returns a profile of
    [fft_size_range_profile / 2] bins and takes the frame off the queue.
    It raises on a frame with fewer antennas ([frame[iAnt]] out of range),
    without chirps ([np.average] divides by their number) or with more
    samples (negative pad width). *)
Theorem calc_range_fft_frame_shape (frame : Frame) (queue : list Frame) :
  frame_array frame →
  (frame_ok frame →
   ∃ profile,
     calc_range_fft (frame :: queue) = Some (PyArray profile, queue)
     ∧ length profile = fft_size_range_profile / 2)
  ∧ (length (frame_data frame) < num_rx_antennas
     ∨ frame_chirps frame = 0
     ∨ fft_size_range_profile < frame_samples frame →
     calc_range_fft (frame :: queue) = None).
Proof.
  intros Harray. cbn [calc_range_fft]. split.
  - intros Hok. destruct (range_fft_of_frame_ok frame Hok)
      as (profile & -> & Hlen).
    by exists profile.
  - intros Hbad.
    assert (∃ i, i ∈ seq 0 num_rx_antennas
                 ∧ (frame_data frame !! i = None
                    ∨ ∃ mat, frame_data frame !! i = Some mat
                             ∧ range_fft_of_antenna (frame_samples frame) mat
                               = None)) as (i & Hi & Hraise).
    { destruct (decide (length (frame_data frame) < num_rx_antennas))
        as [Hants|Hants].
      - exists (length (frame_data frame)). split.
        + apply elem_of_seq. lia.
        + left. by apply lookup_ge_None_2.
      - destruct (lookup_lt_is_Some_2 (frame_data frame) 0) as [mat Hmat].
        { change num_rx_antennas with 3 in Hants. lia. }
        exists 0. split; [apply elem_of_seq; change num_rx_antennas with 3; lia|].
        right. exists mat. split; [exact Hmat|].
        apply range_fft_of_antenna_raises.
        unfold frame_array in Harray. rewrite Forall_lookup in Harray.
        destruct (Harray 0 mat Hmat) as [Hrows _]. lia. }
    unfold range_fft_of_frame. cbv zeta.
    by rewrite (accumulate_raises frame _ i _ Hi Hraise).
Qed.
End frame_shape.

(** The frame of the configured shape, and three antennas without a
    chirp. *)
Lemma calc_range_fft_frame_shape_witness :
  (frame_array Demo.frame ∧ frame_ok Demo.frame
   ∧ is_Some (@calc_range_fft RationalLibrary.library [Demo.frame]))
  ∧ (frame_array {| frame_chirps := 0; frame_samples := 64;
                    frame_data := replicate 3 [] |}
     ∧ @calc_range_fft RationalLibrary.library
         [{| frame_chirps := 0; frame_samples := 64;
             frame_data := replicate 3 [] |}]
       = None).
Proof.
  pose proof demo_frame_ok as Hok. pose proof Hok as [Harray _].
  assert (frame_array {| frame_chirps := 0; frame_samples := 64;
                         frame_data := replicate 3 [] |}) as Hempty.
  { unfold frame_array. cbn [frame_data frame_chirps frame_samples].
    apply Forall_replicate. split; [reflexivity|apply Forall_nil_2]. }
  split.
  - split; [exact Harray|]. split; [exact Hok|].
    destruct (proj1 (calc_range_fft_frame_shape (H := RationalLibrary.library)
                       Demo.frame [] Harray) Hok) as (profile & Hrun & _).
    rewrite Hrun. by eexists.
  - split; [exact Hempty|].
    exact (proj2 (calc_range_fft_frame_shape (H := RationalLibrary.library)
                    {| frame_chirps := 0; frame_samples := 64;
                       frame_data := replicate 3 [] |} [] Hempty)
                 (or_intror (or_introl eq_refl))).
Defined.

(** ** C3: the held rate index and the rate *)

Lemma np_sum_replicate (n : nat) (v : Qc) :
  np_sum (replicate n v) = (Qc_of_nat n * v)%Qc.
Proof.
  induction n as [|n IH].
  - cbn [replicate np_sum foldr]. unfold Qc_of_nat.
    change (Z.of_nat 0) with 0%Z. rewrite Z2Qc_inj_0. ring.
  - cbn [replicate np_sum foldr]. fold (np_sum (replicate n v)). rewrite IH.
    unfold Qc_of_nat. rewrite Nat2Z.inj_succ, <-Z.add_1_r, Qc_of_Z_plus.
    rewrite Z2Qc_inj_1. ring.
Qed.

Lemma np_mean_replicate (n : nat) (v : Qc) :
  0 < n → np_mean (replicate n v) = v.
Proof.
  intros Hn. unfold np_mean. rewrite np_sum_replicate, length_replicate.
  pose proof (Qc_of_nat_pos n Hn) as Hpos.
  field. intros E. rewrite E in Hpos. revert Hpos. by vm_compute.
Qed.

Lemma newest_are_last (n : nat) (v : Qc) (l : list Qc) :
  0 < n → newest_are n v l → last l = Some v.
Proof.
  intros Hn Hl. unfold newest_are in Hl.
  rewrite <-(take_drop (length l - n) l), Hl.
  destruct n as [|n]; [lia|].
  rewrite replicate_S_end, app_assoc. apply last_snoc.
Qed.

Lemma newest_are_length (n : nat) (v : Qc) (l : list Qc) :
  newest_are n v l → n ≤ length l.
Proof.
  intros Hl. apply (f_equal length) in Hl.
  rewrite length_drop, length_replicate in Hl. lia.
Qed.

(** Pushing [v] once more makes the run of [v] one longer, until it fills
    the buffer. *)
Lemma newest_are_push (n : nat) (v : Qc) (l : list Qc) :
  newest_are n v l → 0 < n →
  newest_are ((n + 1) `min` length l) v (drop 1 l ++ [v]).
Proof.
  intros Hl Hn. pose proof (newest_are_length _ _ _ Hl) as Hlen.
  unfold newest_are in *.
  rewrite length_app, length_drop. cbn [length].
  destruct (decide (n + 1 ≤ length l)) as [Hroom|Hfull].
  - rewrite Nat.min_l by exact Hroom.
    replace (length l - 1 + 1 - (n + 1)) with (length l - 1 - n) by lia.
    rewrite drop_app_le by (rewrite length_drop; lia).
    rewrite drop_drop.
    replace (1 + (length l - 1 - n)) with (length l - n) by lia.
    rewrite Hl. by rewrite Nat.add_1_r, replicate_S_end.
  - rewrite Nat.min_r by lia.
    replace (length l - 1 + 1 - length l) with 0 by lia.
    assert (n = length l) as -> by lia.
    rewrite Nat.sub_diag in Hl. cbn [drop] in Hl |- *.
    rewrite Hl at 1. rewrite drop_replicate.
    replace (length l) with (S (length l - 1)) at 2 by lia.
    by rewrite replicate_S_end.
Qed.

(** A longer run of [v] contains the shorter ones. *)
Lemma newest_are_shorter (n m : nat) (v : Qc) (l : list Qc) :
  newest_are n v l → m ≤ n → newest_are m v l.
Proof.
  intros Hl Hm. pose proof (newest_are_length _ _ _ Hl) as Hlen.
  unfold newest_are in *.
  replace (length l - m) with ((length l - n) + (n - m)) by lia.
  rewrite <-drop_drop, Hl, drop_replicate. f_equal. lia.
Qed.

Section held_index.
Context `{DspLibraryLaws}.

(** Without a peak in the band the index stage pushes the previous newest
    entry once more. *)
Lemma rate_index_update_repeats (idx fft idx' : list Qc)
    (index_start index_end : Z) :
  rate_index_update idx fft index_start index_end = Some idx' →
  find_peaks (py_slice fft index_start index_end)
    (Z.to_nat (py_int (Qcmax 1 (peak_finding_distance
                                 * Qc_of_nat fft_size_vital_signs
                                 / Qc_of_nat vital_signs_sample_rate))))
    None None = [] →
  ∃ v, last idx = Some v ∧ idx' = drop 1 idx ++ [v].
Proof.
  intros Hupd Hnone. unfold rate_index_update in Hupd.
  apply bind_Some in Hupd as (previous & Hprev & Hupd).
  apply bind_Some in Hupd as (idx2 & Hset & Hupd).
  apply bind_Some in Hupd as (rate_index & Hrate & Hupd).
  rewrite (find_signal_peaks_no_peak _ _ _ _ Hnone) in Hrate.
  injection Hrate as <-.
  rewrite bool_decide_eq_false_2 in Hupd by (intros Hne; by apply Hne).
  injection Hupd as <-.
  assert (1 < length idx) as Hlen.
  { apply py_getitem_before_last_length in Hprev.
    by rewrite length_np_roll_back in Hprev. }
  rewrite roll_getitem_previous in Hprev by done.
  rewrite roll_setitem_push in Hset
    by (intros E; rewrite E in Hlen; simpl in Hlen; lia).
  injection Hset as <-. by exists previous.
Qed.

(** A pass that takes a frame and finds no peak in band [k] makes the run
    of the held index one longer. *)
Lemma quiet_pass_extends (k : band) (current_time : Qc) (st st' : State)
    (n : nat) (v : Qc) :
  process_data_pass current_time st = Some st' → data_queue st ≠ [] →
  band_peaks k st' = [] →
  0 < n → newest_are n v (estimation_index_of k (bufs st)) →
  newest_are ((n + 1) `min` length (estimation_index_of k (bufs st))) v
             (estimation_index_of k (bufs st')).
Proof.
  intros Hpass Hqueue Hquiet Hn Hrun.
  apply process_data_pass_inv in Hpass
    as [[Hempty _]|(_ & Hcfg & _ & _ & Hb & Hh & _)]; [done|].
  unfold band_peaks in Hquiet. rewrite Hcfg in Hquiet.
  assert (∃ w, last (estimation_index_of k (bufs st)) = Some w
               ∧ estimation_index_of k (bufs st')
                 = drop 1 (estimation_index_of k (bufs st)) ++ [w])
    as (w & Hlast & ->).
  { destruct k; cbn [estimation_index_of];
      eapply rate_index_update_repeats; eauto. }
  rewrite (newest_are_last n v _ Hn Hrun) in Hlast. injection Hlast as <-.
  by apply newest_are_push.
Qed.

Lemma healthy_index_length (k : band) (st : State) :
  healthy st → length (estimation_index_of k (bufs st)) = buffer_data_size.
Proof.
  intros [(Hs & _) _].
  destruct Hs as (_ & _ & _ & _ & _ & _ & _ & _ & Hb & Hh & _).
  by destruct k.
Qed.

Lemma quiet_passes_extend (k : band) (times : list Qc) :
  ∀ (st : State) (trace : list State) (n : nat) (v : Qc),
    healthy st → length times ≤ length (data_queue st) →
    process_data_passes times st = Some trace →
    Forall (λ s, band_peaks k s = []) trace →
    0 < n → newest_are n v (estimation_index_of k (bufs st)) →
    ∀ i s, trace !! i = Some s →
      healthy s
      ∧ newest_are ((n + S i) `min` buffer_data_size) v
                   (estimation_index_of k (bufs s)).
Proof.
  induction times as [|t times IH];
    intros st trace n v Hst Hlen Hrun Hquiet Hn Hheld i s Hs.
  { injection Hrun as <-. by rewrite lookup_nil in Hs. }
  destruct (data_queue st) as [|frame rest] eqn:Hqueue;
    [cbn [length] in Hlen; lia|].
  cbn [process_data_passes] in Hrun.
  apply bind_Some in Hrun as (st1 & Hpass & Hrun).
  apply bind_Some in Hrun as (trace1 & Hrest & [= <-]).
  apply Forall_cons in Hquiet as [Hquiet1 Hquiet].
  destruct (pass_keeps_healthy t st Hst) as (st1' & Hpass' & Hst1 & _).
  rewrite Hpass in Hpass'. injection Hpass' as <-.
  destruct (process_data_pass_ready t st frame rest (proj1 Hst) Hqueue)
    as (st1' & Hpass' & _ & _ & Hqueue1).
  rewrite Hpass in Hpass'. injection Hpass' as <-.
  assert (newest_are ((n + 1) `min` buffer_data_size) v
                     (estimation_index_of k (bufs st1))) as Hheld1.
  { rewrite <-(healthy_index_length k st Hst).
    eapply quiet_pass_extends; eauto. by rewrite Hqueue. }
  destruct i as [|i]; cbn [lookup list_lookup] in Hs.
  - injection Hs as <-. split; [exact Hst1|exact Hheld1].
  - destruct (IH st1 trace1 ((n + 1) `min` buffer_data_size) v) with (i := i)
      (s := s) as [Hs' Hheld']; eauto.
    + rewrite Hqueue1. cbn [length] in Hlen. lia.
    + rewrite buffer_data_size_eq. lia.
    + split; [exact Hs'|].
      replace ((n + S (S i)) `min` buffer_data_size)
        with (((n + 1) `min` buffer_data_size + S i) `min` buffer_data_size)
        by lia.
      exact Hheld'.
Qed.

(** When the run of the held index covers the estimation span, a rate is
    emitted and the mean peak bin is the held index. *)
Lemma settled_span (k : band) (st : State) (n : nat) (v : Qc) :
  healthy st → newest_are n v (estimation_index_of k (bufs st)) →
  buffer_data_size - estimation_start k ≤ n → (0 < v)%Qc →
  rate_emitted k (bufs st) ∧ estimation_mean k (bufs st) = v.
Proof.
  intros Hst Hheld Hn Hv.
  pose proof (healthy_index_length k st Hst) as Hlen.
  pose proof (estimation_start_eq k) as Hstart.
  apply (newest_are_shorter _ (buffer_data_size - estimation_start k))
    in Hheld; [|exact Hn].
  unfold newest_are in Hheld.
  rewrite Hlen, Hstart, buffer_data_size_eq in Hheld.
  change (2000 - (2000 - 1900)) with 1900 in Hheld.
  change (2000 - 1900) with 100 in Hheld.
  assert (py_slice_from (estimation_index_of k (bufs st))
            (Z.of_nat (estimation_start k)) = replicate 100 v) as Hspan.
  { by rewrite py_slice_from_nonneg, Hstart. }
  split.
  - destruct Hst as [(Hs & _) (_ & _ & _ & _ & Hb & Hh & _)].
    split; [exact Hlen|]. split.
    { destruct Hs as (_ & _ & _ & _ & _ & _ & _ & _ & _ & _ & Hvb & Hvh).
      by destruct k. }
    split.
    { rewrite py_slice_from_nonneg. apply Forall_drop. by destruct k. }
    exists v. split; [|exact Hv].
    rewrite Hstart. rewrite <-(Nat.add_0_r 1900), <-lookup_drop, Hheld.
    reflexivity.
  - unfold estimation_mean. rewrite Hspan. apply np_mean_replicate. lia.
Qed.

(** C3, amended: over any run of steps in which the peak picker of a band
    finds no peak (with puts and timer ticks in between) the newest entry
    of that band's rate-estimation index buffer stays the one it was.  The
    rate is computed from the mean of the last 5 seconds of that buffer:
    each pass of a run of consecutive passes without a peak makes the run
    of entries equal to the held index [v] one longer, and once they cover
    the estimation span the mean is [v] and every timer tick writes the
    rate of bin [v] on the rate series.  [k] is the breathing or the heart
    estimator. *)
Theorem held_index_settles_rate (k : band) :
  (∀ st st',
     rtc (quiet_step k) st st' →
     last (estimation_index_of k (bufs st'))
     = last (estimation_index_of k (bufs st)))
  ∧ (∀ st times trace n v,
       healthy st → length times ≤ length (data_queue st) →
       process_data_passes times st = Some trace →
       Forall (λ s, band_peaks k s = []) trace →
       0 < n → newest_are n v (estimation_index_of k (bufs st)) →
       ∀ i s, trace !! i = Some s →
         newest_are ((n + S i) `min` buffer_data_size) v
                    (estimation_index_of k (bufs s))
         ∧ (buffer_data_size - estimation_start k ≤ n + S i → (0 < v)%Qc →
            estimation_mean k (bufs s) = v
            ∧ ∃ s' messages,
                update_plots s = Some (s', messages)
                ∧ estimation_value_of k (bufs s')
                  = drop 1 (estimation_value_of k (bufs s))
                    ++ [Qc_of_Z (displayed_rate v)])).
Proof.
  split.
  - intros st st' Hrun.
    induction Hrun as [st|st st1 st2 Hstep _ IH]; [done|].
    rewrite IH. by apply quiet_step_hold.
  - intros st times trace n v Hst Hlen Hrun Hquiet Hn Hheld i s Hs.
    destruct (quiet_passes_extend k times st trace n v Hst Hlen Hrun Hquiet
                Hn Hheld i s Hs) as [Hhealthy Hheld'].
    split; [exact Hheld'|]. intros Hspan Hv.
    destruct (settled_span k s _ v Hhealthy Hheld') as [Hemitted Hmean];
      [rewrite estimation_start_eq, buffer_data_size_eq in *; lia|exact Hv|].
    split; [exact Hmean|].
    destruct (tick_keeps_healthy s Hhealthy)
      as (s' & messages & Htick & _).
    exists s', messages. split; [exact Htick|].
    pose proof (rate_value_update_emitted k _ Hemitted) as Hupd.
    rewrite Hmean in Hupd.
    apply update_plots_inv in Htick
      as (_ & _ & _ & _ & _ & _ & _ & _ & _ & _ & _ & _ & _ & _ & _
          & Hb & Hh & _).
    destruct k; cbn [estimation_value_of estimation_index_of estimation_start]
      in *; congruence.
Qed.
End held_index.

(** The index buffer may be replaced by another one of bins of the half
    spectrum. *)
Lemma with_breathing_index_healthy (idx : list Qc) (st : State) :
  healthy st → length idx = buffer_data_size →
  Forall (λ x, 0 ≤ x ≤ Qc_of_nat (fft_size_vital_signs / 2 - 1))%Qc idx →
  healthy (with_breathing_index idx st).
Proof.
  intros [(Hs & Hw & Hp & Hg & Hq & Hc)
          (Hr & Hi & Hbf & Hhf & _ & Hhi & Hbands)] Hlen Hidx.
  destruct Hs as (? & ? & ? & ? & ? & ? & ? & ? & _ & ? & ? & ?).
  split.
  - unfold ready, buffers_sized, with_breathing_index, with_buffers.
    cbn [bufs cfg data_queue counter radar_time_stamp slow_time_buffer_data
         I_Q_envelop wrapped_phase_plot unwrapped_phase_plot
         filtered_breathing_plot filtered_heart_plot
         range_profile_peak_indices breathing_rate_estimation_index
         heart_rate_estimation_index breathing_rate_estimation_value
         heart_rate_estimation_value].
    split; [by repeat (split; [assumption|])|].
    exact (conj Hw (conj Hp (conj Hg (conj Hq Hc)))).
  - unfold plot_ready, with_breathing_index, with_buffers.
    cbn [bufs cfg spectra range_fft_abs range_profile_peak_index
         breathing_rate_estimation_index heart_rate_estimation_index].
    exact (conj Hr (conj Hi (conj Hbf (conj Hhf (conj Hidx
             (conj Hhi Hbands)))))).
Qed.

Lemma healthy_rate_emitted (k : band) (st : State) (first : Qc) :
  healthy st →
  estimation_index_of k (bufs st) !! estimation_start k = Some first →
  (0 < first)%Qc → rate_emitted k (bufs st).
Proof.
  intros [(Hs & _) (_ & _ & _ & _ & Hb & Hh & _)] Hfirst Hpos.
  destruct Hs as (_ & _ & _ & _ & _ & _ & _ & _ & Hbl & Hhl & Hvb & Hvh).
  split; [by destruct k|]. split; [by destruct k|]. split.
  - rewrite py_slice_from_nonneg. apply Forall_drop. by destruct k.
  - by exists first.
Qed.

(** On a state where a rate is emitted the tick returns and the newest
    entry of the rate series is the displayed rate of the mean peak bin. *)
Lemma tick_writes_rate (k : band) (st : State) :
  healthy st → rate_emitted k (bufs st) →
  ∃ st' messages,
    update_plots st = Some (st', messages)
    ∧ estimation_value_of k (bufs st')
      = drop 1 (estimation_value_of k (bufs st))
        ++ [Qc_of_Z (displayed_rate (estimation_mean k (bufs st)))].
Proof.
  intros Hst Hemitted.
  destruct (tick_keeps_healthy st Hst) as (st' & messages & Htick & _).
  exists st', messages. split; [exact Htick|].
  pose proof (rate_value_update_emitted k _ Hemitted) as Hupd.
  apply update_plots_inv in Htick
    as (_ & _ & _ & _ & _ & _ & _ & _ & _ & _ & _ & _ & _ & _ & _
        & Hb & Hh & _).
  destruct k; cbn [estimation_value_of estimation_index_of estimation_start]
    in *; congruence.
Qed.
Lemma Forall_bins_app (l1 l2 : list Qc) :
  Forall (λ x, 0 ≤ x ≤ Qc_of_nat (fft_size_vital_signs / 2 - 1))%Qc l1 →
  Forall (λ x, 0 ≤ x ≤ Qc_of_nat (fft_size_vital_signs / 2 - 1))%Qc l2 →
  Forall (λ x, 0 ≤ x ≤ Qc_of_nat (fft_size_vital_signs / 2 - 1))%Qc
         (l1 ++ l2).
Proof. intros. by apply Forall_app. Qed.

Lemma demo_settling_healthy : healthy Demo.settling.
Proof.
  apply with_breathing_index_healthy; [apply demo_loaded_healthy|..].
  - unfold np_zeros. rewrite !length_app, !length_replicate.
    by rewrite buffer_data_size_eq.
  - unfold np_zeros. rewrite !Forall_app.
    split; [|split]; apply Forall_replicate; split; by vm_compute.
Qed.

Lemma demo_holding_healthy : healthy Demo.holding.
Proof.
  apply with_breathing_index_healthy; [apply demo_loaded_healthy|..].
  - unfold np_zeros. rewrite !length_app, !length_replicate.
    by rewrite buffer_data_size_eq.
  - unfold np_zeros. rewrite !Forall_app.
    split; [|split]; [apply Forall_replicate|apply Forall_singleton
                     |apply Forall_replicate]; split; by vm_compute.
Qed.

Lemma demo_settling_pass :
  @process_data_pass RationalLibrary.library 1%Qc Demo.settling
  = Some Demo.settled.
Proof.
  apply Some_default.
  destruct (pass_keeps_healthy (H := RationalLibrary.library) 1%Qc
              Demo.settling demo_settling_healthy) as (st' & Hpass & _).
  exists st'. exact Hpass.
Qed.

Lemma demo_holding_pass :
  @process_data_pass RationalLibrary.library 1%Qc Demo.holding
  = Some Demo.held.
Proof.
  apply Some_default.
  destruct (pass_keeps_healthy (H := RationalLibrary.library) 1%Qc
              Demo.holding demo_holding_healthy) as (st' & Hpass & _).
  exists st'. exact Hpass.
Qed.

Lemma demo_settled_healthy : healthy Demo.settled.
Proof.
  destruct (pass_keeps_healthy (H := RationalLibrary.library) 1%Qc
              Demo.settling demo_settling_healthy) as (st' & Hpass & Hst & _).
  unfold Demo.settled. rewrite Hpass. exact Hst.
Qed.

Lemma demo_held_healthy : healthy Demo.held.
Proof.
  destruct (pass_keeps_healthy (H := RationalLibrary.library) 1%Qc
              Demo.holding demo_holding_healthy) as (st' & Hpass & Hst & _).
  unfold Demo.held. rewrite Hpass. exact Hst.
Qed.

Lemma demo_settled_quiet :
  @band_peaks RationalLibrary.library Breathing Demo.settled = [].
Proof. vm_cast_no_check (eq_refl (@nil nat)). Qed.

Lemma demo_held_quiet :
  @band_peaks RationalLibrary.library Breathing Demo.held = [].
Proof. vm_cast_no_check (eq_refl (@nil nat)). Qed.

Lemma demo_settling_mean :
  estimation_mean Breathing (bufs Demo.settling) = qc 45 2.
Proof. apply Qc_is_canon. vm_compute. reflexivity. Qed.

Lemma demo_settled_mean :
  estimation_mean Breathing (bufs Demo.settled) = qc 2251 100.
Proof. apply Qc_is_canon. vm_compute. reflexivity. Qed.

Lemma demo_settling_displayed : displayed_rate (qc 45 2) = 15%Z.
Proof. by vm_compute. Qed.

Lemma demo_settled_displayed : displayed_rate (qc 2251 100) = 16%Z.
Proof. by vm_compute. Qed.

Lemma demo_settling_emitted : rate_emitted Breathing (bufs Demo.settling).
Proof.
  apply (healthy_rate_emitted Breathing Demo.settling (Qc_of_Z 22));
    [exact demo_settling_healthy|reflexivity|by vm_compute].
Qed.

Lemma demo_settled_first :
  estimation_index_of Breathing (bufs Demo.settled) !! estimation_start Breathing
  = Some (Qc_of_Z 22).
Proof. vm_cast_no_check (eq_refl (Some (Qc_of_Z 22))). Qed.

Lemma demo_settled_emitted : rate_emitted Breathing (bufs Demo.settled).
Proof.
  apply (healthy_rate_emitted Breathing Demo.settled (Qc_of_Z 22));
    [exact demo_settled_healthy|exact demo_settled_first|by vm_compute].
Qed.

Lemma demo_settling_quiet_step :
  @quiet_step RationalLibrary.library Breathing Demo.settling Demo.settled.
Proof.
  eapply quiet_pass; [exact demo_settling_pass|exact demo_settled_quiet].
Qed.

Lemma demo_settling_last :
  last (estimation_index_of Breathing (bufs Demo.settling))
  = Some (Qc_of_Z 23).
Proof.
  cbn [Demo.settling with_breathing_index with_buffers bufs
       estimation_index_of breathing_rate_estimation_index].
  rewrite !app_assoc.
  change (replicate 50 (Qc_of_Z 23))
    with (replicate 49 (Qc_of_Z 23) ++ [Qc_of_Z 23]).
  rewrite app_assoc. apply last_snoc.
Qed.

(** C3 as stated fails: the estimation span holds bin 22 fifty times and
    bin 23 fifty times, and a pass finds no breathing peak.  The newest
    index stays 23, yet the rate a timer tick writes is 15 before the pass
    and 16 after it. *)
Lemma rate_moves_while_index_held :
  @quiet_step RationalLibrary.library Breathing Demo.settling Demo.settled
  ∧ last (estimation_index_of Breathing (bufs Demo.settling))
    = Some (Qc_of_Z 23)
  ∧ last (estimation_index_of Breathing (bufs Demo.settled))
    = Some (Qc_of_Z 23)
  ∧ (∃ st messages,
       update_plots Demo.settling = Some (st, messages)
       ∧ last (estimation_value_of Breathing (bufs st)) = Some (Qc_of_Z 15))
  ∧ (∃ st messages,
       update_plots Demo.settled = Some (st, messages)
       ∧ last (estimation_value_of Breathing (bufs st)) = Some (Qc_of_Z 16)).
Proof.
  split; [exact demo_settling_quiet_step|].
  split; [exact demo_settling_last|]. split.
  { rewrite <-demo_settling_last.
    exact (@quiet_step_hold RationalLibrary.library Breathing _ _
             demo_settling_quiet_step). }
  split.
  - destruct (tick_writes_rate Breathing
                Demo.settling demo_settling_healthy demo_settling_emitted)
      as (st & messages & Htick & Hvalue).
    exists st, messages. split; [exact Htick|].
    rewrite Hvalue, demo_settling_mean, demo_settling_displayed.
    apply last_snoc.
  - destruct (tick_writes_rate Breathing
                Demo.settled demo_settled_healthy demo_settled_emitted)
      as (st & messages & Htick & Hvalue).
    exists st, messages. split; [exact Htick|].
    rewrite Hvalue, demo_settled_mean, demo_settled_displayed.
    apply last_snoc.
Qed.

Lemma demo_holding_run :
  newest_are 99 (Qc_of_Z 23)
    (estimation_index_of Breathing (bufs Demo.holding)).
Proof.
  unfold newest_are.
  cbn [Demo.holding with_breathing_index with_buffers bufs
       estimation_index_of breathing_rate_estimation_index].
  unfold np_zeros. rewrite !length_app, !length_replicate. cbn [length].
  change (1900 + (1 + 99) - 99) with (1900 + 1).
  rewrite drop_app_ge by (rewrite length_replicate; lia).
  rewrite length_replicate. by replace (1900 + 1 - 1900) with 1 by lia.
Qed.

(** One more pass without a peak, 99 passes after the peak settled on bin
    23: the estimation span now holds 23 only and the tick writes the rate
    of bin 23. *)
Lemma held_index_settles_rate_witness :
  healthy Demo.holding
  ∧ length [1%Qc] ≤ length (data_queue Demo.holding)
  ∧ @process_data_passes RationalLibrary.library [1%Qc] Demo.holding
    = Some [Demo.held]
  ∧ Forall (λ s, @band_peaks RationalLibrary.library Breathing s = [])
           [Demo.held]
  ∧ 0 < 99
  ∧ newest_are 99 (Qc_of_Z 23)
      (estimation_index_of Breathing (bufs Demo.holding))
  ∧ newest_are ((99 + 1) `min` buffer_data_size) (Qc_of_Z 23)
      (estimation_index_of Breathing (bufs Demo.held))
  ∧ estimation_mean Breathing (bufs Demo.held) = Qc_of_Z 23
  ∧ ∃ st messages,
      update_plots Demo.held = Some (st, messages)
      ∧ estimation_value_of Breathing (bufs st)
        = drop 1 (estimation_value_of Breathing (bufs Demo.held))
          ++ [Qc_of_Z (displayed_rate (Qc_of_Z 23))].
Proof.
  assert (@process_data_passes RationalLibrary.library [1%Qc] Demo.holding
          = Some [Demo.held]) as Hrun.
  { cbn [process_data_passes]. rewrite demo_holding_pass. reflexivity. }
  assert (Forall (λ s, @band_peaks RationalLibrary.library Breathing s = [])
                 [Demo.held]) as Hquiet.
  { apply Forall_singleton. exact demo_held_quiet. }
  assert (length [1%Qc] ≤ length (data_queue Demo.holding)) as Hlen.
  { change (data_queue Demo.holding) with [Demo.frame]. cbn [length]. lia. }
  destruct (proj2 (held_index_settles_rate (H := RationalLibrary.library)
                     Breathing)
              Demo.holding [1%Qc] [Demo.held] 99 (Qc_of_Z 23)
              demo_holding_healthy Hlen Hrun Hquiet (Nat.lt_0_succ 98)
              demo_holding_run 0 Demo.held eq_refl)
    as [Hheld Hsettled].
  destruct Hsettled as [Hmean Htick].
  { rewrite buffer_data_size_eq, estimation_start_eq. lia. }
  { by vm_compute. }
  exact (conj demo_holding_healthy (conj Hlen (conj Hrun
          (conj Hquiet (conj (Nat.lt_0_succ 98) (conj demo_holding_run
            (conj Hheld (conj Hmean Htick)))))))).
Defined.
